(** * Ensemble signal engine: detectors, aggregation, levels and sizing

    A shallow embedding of the JavaScript sources
      - [src/utils.js]               (TradingUtils)
      - [src/signal/detectors.js]    (SignalDetectors, and the analysis adapter
                                      that follows it)
      - [src/unnamed/part_001]       (EnsembleAI, the "simplified and stable" file)
      - [src/unnamed/part_002]       (EnsembleAI, the file with detector weights
                                      and time-of-day multipliers)

    Conventions of the embedding.
      - A JavaScript number is a real ([R]).  NaN and the infinities are not
        represented, so a statement that looks at the value of a quotient
        carries the hypothesis that its divisor is not zero; rounding error of
        the binary representation is not modelled.  The bounds of an hour
        range, which [Number] reads from a string, are the exception: they
        are doubles ([JSNumber]), rounded as the language rounds a numeral,
        with NaN and the infinities.
      - A property read on [null]/[undefined] raises a [TypeError]; this is the
        [Throw] case of [completion].  [try { } catch (error) { }] is
        [try_catch].
      - [Math.random()] and the wall clock are inputs of the functions that
        consult them. *)

From Stdlib Require Import Reals Lra Lia Psatz.
From Stdlib Require Import String Ascii ZArith Bool List.
Import ListNotations.

Open Scope R_scope.

(* ================================================================== *)
(** * Numbers *)
(* ================================================================== *)

Definition Rltb (x y : R) : bool := if Rlt_dec x y then true else false.
Definition Rleb (x y : R) : bool := if Rle_dec x y then true else false.
Definition Rgtb (x y : R) : bool := Rltb y x.
Definition Rgeb (x y : R) : bool := Rleb y x.
Definition Reqb (x y : R) : bool := if Req_dec_T x y then true else false.

(** [Math.round]: the nearest integer, halves towards plus infinity. *)
Definition Math_round (x : R) : R := IZR (Zfloor (x + / 2)).

(** The integer [n] of [Number.prototype.toFixed]: the magnitude is rounded
    to the nearest integer, halves upwards, and the sign is put back. *)
Definition round_half_away (x : R) : Z :=
  if Rltb x 0 then (- Zfloor (- x + / 2))%Z else Zfloor (x + / 2).

(** The string [x.toFixed(d)] is the decimal numeral of [scaled / 10^d]
    written with [d] fractional digits; it is kept as the pair. *)
Record fixedStr : Type := Fixed { digits : nat; scaled : Z }.

Definition toFixed (d : nat) (x : R) : fixedStr :=
  Fixed d (round_half_away (x * 10 ^ d)).

Definition parseFloat (s : fixedStr) : R := IZR (scaled s) / 10 ^ digits s.

(** [a || b] on numbers: [0] (and a missing value) is falsy. *)
Definition or_default (o : option R) (d : R) : R :=
  match o with
  | Some w => if Reqb w 0 then d else w
  | None => d
  end.

(** [array.reduce((a, b) => a + b, 0)] *)
Definition sum (l : list R) : R := fold_left Rplus l 0.

(** [Math.max(...array)] and [Math.min(...array)].  On the empty array
    JavaScript answers an infinity; the embedding never asks for it (every
    window taken below is non-empty) and answers [0] there. *)
Definition Math_max (l : list R) : R :=
  match l with
  | [] => 0
  | x :: t => fold_left Rmax t x
  end.

Definition Math_min (l : list R) : R :=
  match l with
  | [] => 0
  | x :: t => fold_left Rmin t x
  end.

(** [array.slice(-n)]: the last [n] elements; [slice(-0)] is [slice(0)],
    the whole array. *)
Definition slice_last {A : Type} (n : nat) (l : list A) : list A :=
  match n with
  | O => l
  | S _ => skipn (length l - n) l
  end.

(** [array.slice(i, j)] for [0 <= i]. *)
Definition slice {A : Type} (i j : nat) (l : list A) : list A :=
  firstn (j - i) (skipn i l).

(** [array[array.length - k]], for [1 <= k]. *)
Definition from_end {A : Type} (k : nat) (l : list A) : option A :=
  if Nat.ltb (length l) k then None else nth_error l (length l - k).

(* ================================================================== *)
(** * Completions: normal results and thrown errors *)
(* ================================================================== *)

Inductive completion (A : Type) : Type :=
| Normal (a : A)
| Throw (msg : string).

Arguments Normal {A} a.
Arguments Throw {A} msg.

Definition bind {A B : Type} (c : completion A) (k : A -> completion B)
  : completion B :=
  match c with
  | Normal a => k a
  | Throw m => Throw m
  end.

Notation "x <- c ;; k" := (bind c (fun x => k))
  (at level 61, c at next level, right associativity).

(** [try { body } catch (error) { handler(error.message) }] *)
Definition try_catch {A : Type} (body : completion A)
  (handler : string -> completion A) : completion A :=
  match body with
  | Normal a => Normal a
  | Throw m => handler m
  end.

Fixpoint mapM {A B : Type} (f : A -> completion B) (l : list A)
  : completion (list B) :=
  match l with
  | [] => Normal []
  | a :: t => b <- f a ;; bs <- mapM f t ;; Normal (b :: bs)
  end.

(** The message of the [TypeError] raised by reading [prop] on [null]. *)
Definition null_read (prop : string) : string :=
  ("Cannot read properties of null (reading '" ++ prop ++ "')")%string.

(** [o.prop] where [o] may be [null]. *)
Definition read {O A : Type} (prop : string) (f : O -> A) (o : option O)
  : completion A :=
  match o with
  | Some x => Normal (f x)
  | None => Throw (null_read prop)
  end.

(* ================================================================== *)
(** * Data model *)
(* ================================================================== *)

Record Candle : Type := mkCandle {
  timestamp : R;
  open : R;
  high : R;
  low : R;
  close : R;
  volume : R
}.

(** An array of candles; an entry may be [null]. *)
Definition Candles : Type := list (option Candle).

(** An order book level is the pair [[price, volume]]; an entry may be
    [null]. *)
Record Orderbook : Type := mkOrderbook {
  bids : option (list (option (R * R)));
  asks : option (list (option (R * R)))
}.

(** The object [data]: candle arrays keyed by time frame (a key may be
    missing), the order book and the ticker's last price. *)
Record Snapshot : Type := mkSnapshot {
  tf1m : option Candles;
  tf15m : option Candles;
  tf1h : option Candles;
  tf4h : option Candles;
  orderbook : option Orderbook;
  ticker_last : option R
}.

(** [x || []] *)
Definition or_empty {A : Type} (o : option (list A)) : list A :=
  match o with
  | Some l => l
  | None => []
  end.

Inductive Direction : Type := LONG | SHORT | NEUTRAL.

Definition Direction_eqb (a b : Direction) : bool :=
  match a, b with
  | LONG, LONG | SHORT, SHORT | NEUTRAL, NEUTRAL => true
  | _, _ => false
  end.

Lemma Direction_eqb_spec a b : Direction_eqb a b = true <-> a = b.
Proof. destruct a, b; simpl; split; intros H; try reflexivity; discriminate. Qed.

(** A template literal: literal text, numbers printed by [toFixed], and
    numbers interpolated as they are. *)
Inductive chunk : Type :=
| Txt (s : string)
| Num (f : fixedStr)
| Val (x : R).

Definition text : Type := list chunk.

(** A detector's verdict.  The early "insufficient data" returns carry no
    [name] and no [metadata]; [weight] is attached by [runAllDetectors]. *)
Record Verdict : Type := mkVerdict {
  name : option string;
  score : R;
  direction : Direction;
  reason : text;
  metadata : option (list (string * R));
  weight : option R
}.

(** One element of the array answered by [BollingerBands.calculate]. *)
Record BBand : Type := mkBBand { upper : R; middle : R; lower : R }.

(* ================================================================== *)
(** * TradingUtils ([src/utils.js]) *)
(* ================================================================== *)

Module TradingUtils.

(** The first loop of [calculateATR]: [trValues], the true range of each
    candle after the one before it. *)
Fixpoint trValues (prev : option Candle) (rest : Candles) : completion (list R) :=
  match rest with
  | [] => Normal []
  | c :: t =>
      h <- read "high" high c ;;
      l <- read "low" low c ;;
      pc <- read "close" close prev ;;
      trs <- trValues c t ;;
      Normal (Rmax (Rmax (h - l) (Rabs (h - pc))) (Rabs (l - pc)) :: trs)
  end.

(** [calculateATR(candles, period = 14)]; a missing array is [None]. *)
Definition calculateATR (candles : option Candles) (period : nat) : completion R :=
  match candles with
  | None => Normal 0
  | Some cs =>
      if Nat.ltb (length cs) (period + 1) then Normal 0
      else
        match cs with
        | [] => Normal 0
        | c0 :: t =>
            trs <- trValues c0 t ;;
            Normal (fold_left
                      (fun atr tr => (atr * (INR period - 1) + tr) / INR period)
                      (skipn period trs)
                      (sum (firstn period trs) / INR period))
        end
  end.

(** [calculateVWAP(candles)]: [forEach] reads [high], [low], [close] and
    [volume] of every entry. *)
Definition calculateVWAP (candles : option Candles) : completion R :=
  match candles with
  | None | Some [] => Normal 0
  | Some cs =>
      full <- mapM (read "high" (fun c : Candle => c)) cs ;;
      let acc :=
        fold_left
          (fun (a : R * R) c =>
             let typicalPrice := (high c + low c + close c) / 3 in
             (fst a + typicalPrice * volume c, snd a + volume c))
          full (0, 0) in
      Normal (if Rgtb (snd acc) 0 then fst acc / snd acc else 0)
  end.

(** [calculateZScore(value, array)] *)
Definition calculateZScore (value : R) (array : list R) : R :=
  match array with
  | [] => 0
  | _ =>
      let mean := sum array / INR (length array) in
      let stdDev :=
        sqrt (fold_left (fun sq n => sq + (n - mean) ^ 2) array 0
              / INR (length array)) in
      if Reqb stdDev 0 then 0 else (value - mean) / stdDev
  end.

(** The package [technicalindicators] is not part of the repository: its
    two entry points are parameters.  Either may throw. *)

Section Indicators.

Variable RSI_calculate : list R -> nat -> completion (list R).
Variable BollingerBands_calculate : list R -> nat -> R -> completion (list BBand).

(** [calculateRSI(closes, period = 14)] *)
Definition calculateRSI (closes : list R) (period : nat) : R :=
  if Nat.ltb (length closes) (period + 1) then 50
  else
    match RSI_calculate closes period with
    | Normal rsi => or_default (from_end 1 rsi) 50
    | Throw _ => 50
    end.

(** [calculateBollingerBands(closes, period = 20, stdDev = 2)]; [None] is
    [null]. *)
Definition calculateBollingerBands (closes : list R) (period : nat) (stdDev : R)
  : option BBand :=
  if Nat.ltb (length closes) period then None
  else
    match BollingerBands_calculate closes period stdDev with
    | Normal bb => from_end 1 bb
    | Throw _ => None
    end.

End Indicators.

(** The fields of the object returned by [calculatePositionSize]: the
    number [0], or the string made by [toFixed]. *)
Inductive sizeValue : Type :=
| SizeNum (x : R)
| SizeStr (s : fixedStr).

Record PositionSizing : Type := mkPositionSizing {
  size : sizeValue;
  maxLoss : sizeValue
}.

(** [calculatePositionSize(accountBalance, riskPercent, entry, stopLoss)] *)
Definition calculatePositionSize (accountBalance riskPercent entry stopLoss : R)
  : PositionSizing :=
  let riskAmount := accountBalance * (riskPercent / 100) in
  let riskPerUnit := Rabs (entry - stopLoss) in
  if Reqb riskPerUnit 0 then mkPositionSizing (SizeNum 0) (SizeNum 0)
  else
    let size := riskAmount / riskPerUnit in
    mkPositionSizing (SizeStr (toFixed 8 size)) (SizeStr (toFixed 2 riskAmount)).

(** [calculateCorrelation(array1, array2)] *)
Definition calculateCorrelation (array1 array2 : list R) : R :=
  if orb (negb (Nat.eqb (length array1) (length array2)))
         (Nat.ltb (length array1) 2)
  then 0
  else
    let n := INR (length array1) in
    let sum1 := sum array1 in
    let sum2 := sum array2 in
    let sum1Sq := fold_left (fun a b => a + b * b) array1 0 in
    let sum2Sq := fold_left (fun a b => a + b * b) array2 0 in
    let pSum :=
      fold_left (fun a (p : R * R) => a + fst p * snd p) (combine array1 array2) 0 in
    let num := pSum - sum1 * sum2 / n in
    let den := sqrt ((sum1Sq - sum1 * sum1 / n) * (sum2Sq - sum2 * sum2 / n)) in
    if Reqb den 0 then 0 else num / den.

(** [normalizeScore(value, min, max)] *)
Definition normalizeScore (value min max : R) : R :=
  if Reqb max min then 50
  else Rmax 0 (Rmin 100 ((value - min) / (max - min) * 100)).

(** [isTradingHours()]; [hour] and [minute] are [now.hours()] and
    [now.minutes()] of the Vietnam clock. *)
Definition isTradingHours (hour minute : Z) : bool :=
  if Z.ltb hour 4 then false
  else if andb (Z.eqb hour 23) (Z.gtb minute 30) then false
  else true.

End TradingUtils.

(* ================================================================== *)
(** * SignalDetectors ([src/signal/detectors.js]) *)
(* ================================================================== *)

(** [Math.std], added to [Math] at the end of the detectors file. *)
Definition Math_std (arr : list R) : R :=
  match arr with
  | [] => 0
  | _ =>
      let mean := sum arr / INR (length arr) in
      sqrt (fold_left (fun sq n => sq + (n - mean) ^ 2) arr 0 / INR (length arr))
  end.

(** Insertion into a list kept in ascending order, after the entries that
    compare equal: [array.sort((a, b) => a - b)] is a stable sort. *)
Fixpoint insert_asc (x : R) (l : list R) : list R :=
  match l with
  | [] => [x]
  | y :: t => if Rltb x y then x :: y :: t else y :: insert_asc x t
  end.

Definition sort_asc (l : list R) : list R :=
  fold_left (fun acc x => insert_asc x acc) l [].

(** [fn.name.replace('Detector', '').toLowerCase()] *)
Definition lower_ascii (c : ascii) : ascii :=
  let n := nat_of_ascii c in
  if andb (Nat.leb 65 n) (Nat.leb n 90) then ascii_of_nat (n + 32) else c.

Fixpoint toLowerCase (s : string) : string :=
  match s with
  | EmptyString => EmptyString
  | String c t => String (lower_ascii c) (toLowerCase t)
  end.

Definition replace_first (pat rep s : string) : string :=
  match index 0 pat s with
  | Some i =>
      (substring 0 i s ++ rep
         ++ substring (i + String.length pat)
                      (String.length s - (i + String.length pat)) s)%string
  | None => s
  end.

(** The options object of the detectors; a missing key is [None]. *)
Record DetectorConfig : Type := mkDetectorConfig {
  breakoutPeriod : option nat;
  volumeMultiplier : option R;
  minBreakoutPercent : option R;
  vwapDelta : option R;
  volumeUptick : option R;
  bbPeriod : option nat;
  bbStdDev : option R;
  squeezePercentile : option R;
  volumeZScoreThreshold : option R;
  rsiOverbought : option R;
  rsiOversold : option R
}.

(** The object [{}]. *)
Definition empty_config : DetectorConfig :=
  mkDetectorConfig None None None None None None None None None None None.

(** A destructuring default [{ key = d } = config]. *)
Definition dflt {A : Type} (o : option A) (d : A) : A :=
  match o with
  | Some x => x
  | None => d
  end.

(** Destructuring [config] when it is [null] raises a [TypeError] whose
    message names the first key. *)
Definition destructure (key : string) (config : option DetectorConfig)
  : completion DetectorConfig :=
  match config with
  | Some c => Normal c
  | None =>
      Throw ("Cannot destructure property '" ++ key
             ++ "' of 'config' as it is null.")%string
  end.

(** [data[key] || []]; reading a key of [null] throws. *)
Definition frame (key : string) (f : Snapshot -> option Candles)
  (data : option Snapshot) : completion Candles :=
  d <- read key (fun d : Snapshot => d) data ;; Normal (or_empty (f d)).

Module SignalDetectors.

(** [{ score: 0, direction: 'NEUTRAL', reason }], the early returns. *)
Definition early (why : string) : Verdict :=
  mkVerdict None 0 NEUTRAL [Txt why] None None.

(** The verdict built in a detector's [catch] clause. *)
Definition caught (detector : string) (msg : string) : Verdict :=
  mkVerdict (Some detector) 0 NEUTRAL [Txt "Error: "; Txt msg] None None.

Definition direction_text (d : Direction) : chunk :=
  match d with
  | LONG => Txt "LONG"
  | SHORT => Txt "SHORT"
  | NEUTRAL => Txt "NEUTRAL"
  end.

(** ** Momentum breakout *)

(** The constants computed by [momentumBreakoutDetector] from the three
    mapped arrays, under the names they have in the source. *)
Module MomentumBreakout.
Section Consts.

Variables (breakoutPeriod : nat) (volumeMultiplier minBreakoutPercent : R).
Variables (closes15m volumes15m highs15m : list R).

Definition currentClose : R := last closes15m 0.
Definition currentHigh : R := last highs15m 0.
Definition recentHigh : R := Math_max (slice_last breakoutPeriod highs15m).
Definition recentLow : R := Math_min (slice_last breakoutPeriod highs15m).
Definition volumeMA : R :=
  sum (slice_last breakoutPeriod volumes15m) / INR breakoutPeriod.
Definition currentVolume : R := last volumes15m 0.
Definition volumeZScore : R :=
  TradingUtils.calculateZScore currentVolume
    (slice_last breakoutPeriod volumes15m).
Definition isBreakout : bool :=
  Rgeb currentHigh (recentHigh * (1 + minBreakoutPercent / 100)).
Definition hasVolumeSpike : bool :=
  andb (Rgtb volumeZScore 1) (Rgtb currentVolume (volumeMA * volumeMultiplier)).
Definition breakoutStrength : R := (currentHigh - recentHigh) / recentHigh * 100.
Definition volumeStrength : R := Rmin volumeZScore 3 / 3 * 100.
Definition breakdownStrength : R := (recentLow - currentClose) / recentLow * 100.

(** The [if / else if] that sets [score], [direction] and [reason]. *)
Definition outcome : R * Direction * text :=
  if andb isBreakout hasVolumeSpike then
    (Rmin 100 ((breakoutStrength * 0.6 + volumeStrength * 0.4) * 2),
     LONG,
     [Txt "Breakout: +"; Num (toFixed 2 breakoutStrength);
      Txt "% with volume spike (z: "; Num (toFixed 2 volumeZScore); Txt ")"])
  else if andb (Rltb currentClose (recentLow * 0.99)) hasVolumeSpike then
    (Rmin 100 (breakdownStrength * 1.5),
     SHORT,
     [Txt "Breakdown: -"; Num (toFixed 2 breakdownStrength);
      Txt "% with volume spike"])
  else (0, NEUTRAL, [Txt "No breakout detected"]).

(** The object returned at the end of the [try] block. *)
Definition verdict : Verdict :=
  let '(score, direction, reason) := outcome in
  mkVerdict (Some "momentum_breakout"%string) (Math_round score) direction reason
    (Some [("recentHigh"%string, recentHigh);
           ("recentLow"%string, recentLow);
           ("volumeZScore"%string, volumeZScore);
           ("breakoutStrength"%string, if isBreakout then breakoutStrength else 0)])
    None.

End Consts.
End MomentumBreakout.

(** The [try] block of [momentumBreakoutDetector]. *)
Definition momentumBreakout_try (breakoutPeriod : nat)
  (volumeMultiplier minBreakoutPercent : R) (data : option Snapshot)
  : completion Verdict :=
  candles15m <- frame "15m" tf15m data ;;
  if Nat.ltb (length candles15m) (breakoutPeriod + 5)
  then Normal (early "Insufficient data")
  else
    closes15m <- mapM (read "close" close) candles15m ;;
    volumes15m <- mapM (read "volume" volume) candles15m ;;
    highs15m <- mapM (read "high" high) candles15m ;;
    Normal (MomentumBreakout.verdict breakoutPeriod volumeMultiplier
              minBreakoutPercent closes15m volumes15m highs15m).

(** [momentumBreakoutDetector(data, config = {})]: the options are
    destructured before the [try] block is entered. *)
Definition momentumBreakoutDetector (data : option Snapshot)
  (config : option DetectorConfig) : completion Verdict :=
  c <- destructure "breakoutPeriod" config ;;
  try_catch
    (momentumBreakout_try (dflt (breakoutPeriod c) 20%nat)
       (dflt (volumeMultiplier c) 1.5) (dflt (minBreakoutPercent c) 1.0) data)
    (fun msg => Normal (caught "momentum_breakout" msg)).

(** ** VWAP pullback *)

Definition vwapPullback_try (vwapDelta volumeUptick : R) (data : option Snapshot)
  : completion Verdict :=
  candles1m <- frame "1m" tf1m data ;;
  candles15m <- frame "15m" tf15m data ;;
  if orb (Nat.ltb (length candles1m) 50) (Nat.ltb (length candles15m) 20)
  then Normal (early "Insufficient data")
  else
    let currentCandle1m := last candles1m None in
    vwap <- TradingUtils.calculateVWAP (Some (slice_last 50 candles1m)) ;;
    c <- read "close" (fun c : Candle => c) currentCandle1m ;;
    let currentPrice := close c in
    let isAboveVWAP := Rgtb currentPrice vwap in
    let isNearVWAP := Rleb (Rabs (currentPrice - vwap) / vwap) vwapDelta in
    let isBullishReversal :=
      andb (Rgtb (close c) (open c)) (Rgtb (close c) ((high c + low c) / 2)) in
    recentVolumes <- mapM (read "volume" volume) (slice_last 10 candles1m) ;;
    let currentVolume := volume c in
    let avgVolume := sum recentVolumes / INR (length recentVolumes) in
    let hasVolumeUptick := Rgtb currentVolume (avgVolume * volumeUptick) in
    let '(score, direction, reason) :=
      if andb (andb isAboveVWAP isNearVWAP) (andb isBullishReversal hasVolumeUptick)
      then
        let vwapDistance := (currentPrice - vwap) / vwap * 100 in
        let volumeStrength := Rmin (currentVolume / avgVolume) 3 / 3 * 100 in
        let reversalStrength := (close c - open c) / open c * 10000 in
        (Rmin 100 (Rabs vwapDistance * 20 + volumeStrength * 0.3 + reversalStrength * 2),
         LONG,
         [Txt "VWAP pullback: "; Num (toFixed 3 vwapDistance);
          Txt "% distance, volume "; Num (toFixed 1 (currentVolume / avgVolume));
          Txt "x"])
      else (0, NEUTRAL, [Txt "No VWAP pullback setup"]) in
    Normal
      (mkVerdict (Some "vwap_pullback"%string) (Math_round score) direction reason
         (Some [("vwap"%string, vwap);
                ("currentPrice"%string, currentPrice);
                ("vwapDistance"%string, (currentPrice - vwap) / vwap * 100);
                ("volumeRatio"%string, currentVolume / avgVolume)])
         None).

Definition vwapPullbackDetector (data : option Snapshot)
  (config : option DetectorConfig) : completion Verdict :=
  c <- destructure "vwapDelta" config ;;
  try_catch
    (vwapPullback_try (dflt (vwapDelta c) 0.002) (dflt (volumeUptick c) 1.2) data)
    (fun msg => Normal (caught "vwap_pullback" msg)).

(** ** Volume spike *)

Definition volumeSpike_try (volumeZScoreThreshold : R) (data : option Snapshot)
  : completion Verdict :=
  candles15m <- frame "15m" tf15m data ;;
  if Nat.ltb (length candles15m) 20
  then Normal (early "Insufficient data")
  else
    volumes <- mapM (read "volume" volume) candles15m ;;
    closes <- mapM (read "close" close) candles15m ;;
    let currentVolume := last volumes 0 in
    let currentClose := last closes 0 in
    let prevClose := nth (length closes - 2) closes 0 in
    let volumeZScore :=
      TradingUtils.calculateZScore currentVolume (slice_last 20 volumes) in
    let priceChange := (currentClose - prevClose) / prevClose * 100 in
    let isBullishCandle := Rgtb currentClose prevClose in
    let isBearishCandle := Rltb currentClose prevClose in
    let '(score, direction, reason) :=
      if Rgtb volumeZScore volumeZScoreThreshold then
        if isBullishCandle then
          (Rmin 100 (volumeZScore * 20 + Rmax priceChange 0 * 10),
           LONG,
           [Txt "Bullish volume spike: z-score "; Num (toFixed 2 volumeZScore);
            Txt ", price +"; Num (toFixed 2 priceChange); Txt "%"])
        else if isBearishCandle then
          (Rmin 100 (volumeZScore * 20 + Rmax (Rabs priceChange) 0 * 10),
           SHORT,
           [Txt "Bearish volume spike: z-score "; Num (toFixed 2 volumeZScore);
            Txt ", price "; Num (toFixed 2 priceChange); Txt "%"])
        else
          (0, NEUTRAL,
           [Txt "Volume spike (z: "; Num (toFixed 2 volumeZScore);
            Txt ") but no clear direction"])
      else (0, NEUTRAL, [Txt "No significant volume spike"]) in
    Normal
      (mkVerdict (Some "volume_spike"%string) (Math_round score) direction reason
         (Some [("volumeZScore"%string, volumeZScore);
                ("priceChange"%string, priceChange);
                ("currentVolume"%string, currentVolume)])
         None).

Definition volumeSpikeDetector (data : option Snapshot)
  (config : option DetectorConfig) : completion Verdict :=
  c <- destructure "volumeZScoreThreshold" config ;;
  try_catch
    (volumeSpike_try (dflt (volumeZScoreThreshold c) 2.0) data)
    (fun msg => Normal (caught "volume_spike" msg)).

(** ** Order book sweep *)

(** The callback parameter [[price, volume]]: destructuring [null] throws. *)
Definition level_volume (lv : option (R * R)) : completion R :=
  match lv with
  | Some (_, v) => Normal v
  | None => Throw "null is not iterable"
  end.

(** [levels.reduce((sum, [price, volume]) => sum + volume, 0)] *)
Definition sum_levels (levels : list (option (R * R))) : completion R :=
  fold_left (fun acc lv => s <- acc ;; v <- level_volume lv ;; Normal (s + v))
    levels (Normal 0).

Definition orderbookSweep_try (data : option Snapshot) : completion Verdict :=
  ob <- read "orderbook" orderbook data ;;
  match ob with
  | None => Normal (early "No orderbook data")
  | Some book =>
      match bids book, asks book with
      | Some bs, Some aks =>
          if orb (Nat.eqb (length bs) 0) (Nat.eqb (length aks) 0)
          then Normal (early "Invalid orderbook data")
          else
            bidVolume <- sum_levels (slice 0 3 bs) ;;
            askVolume <- sum_levels (slice 0 3 aks) ;;
            let imbalance := (bidVolume - askVolume) / (bidVolume + askVolume) in
            let '(score, direction, reason) :=
              if Rgtb imbalance 0.3 then
                (Rmin 100 (imbalance * 150), LONG,
                 [Txt "Strong buy pressure: "; Num (toFixed 1 (imbalance * 100));
                  Txt "% imbalance"])
              else if Rltb imbalance (- 0.3) then
                (Rmin 100 (Rabs imbalance * 150), SHORT,
                 [Txt "Strong sell pressure: ";
                  Num (toFixed 1 (Rabs imbalance * 100)); Txt "% imbalance"])
              else (0, NEUTRAL, [Txt "No significant orderbook imbalance"]) in
            Normal
              (mkVerdict (Some "orderbook_sweep"%string) (Math_round score)
                 direction reason
                 (Some [("bidVolume"%string, bidVolume);
                        ("askVolume"%string, askVolume);
                        ("volumeImbalance"%string, imbalance)])
                 None)
      | _, _ => Normal (early "Invalid orderbook data")
      end
  end.

(** [orderbookSweepDetector] reads nothing of [config]. *)
Definition orderbookSweepDetector (data : option Snapshot)
  (config : option DetectorConfig) : completion Verdict :=
  try_catch (orderbookSweep_try data)
    (fun msg => Normal (caught "orderbook_sweep" msg)).

(** ** Correlation break *)

(** The loop that fills [priceChanges]: the change of each close against
    the close before it. *)
Fixpoint priceChanges_from (prev : option Candle) (rest : Candles)
  : completion (list R) :=
  match rest with
  | [] => Normal []
  | c :: t =>
      ci <- read "close" close c ;;
      cp <- read "close" close prev ;;
      more <- priceChanges_from c t ;;
      Normal ((ci - cp) / cp :: more)
  end.

Definition priceChanges (candles1h : Candles) : completion (list R) :=
  match candles1h with
  | [] => Normal []
  | c0 :: t => priceChanges_from c0 t
  end.

(** [random] is the value that [Math.random()] returns when it is called. *)
Definition correlationBreak_try (random : R) (data : option Snapshot)
  : completion Verdict :=
  candles1h <- frame "1h" tf1h data ;;
  if Nat.ltb (length candles1h) 10
  then Normal (early "Insufficient data for correlation analysis")
  else
    changes <- priceChanges candles1h ;;
    let recentVolatility := Math_std (slice_last 5 changes) * 100 in
    let historicalVolatility := Math_std changes * 100 in
    let '(score, direction, reason) :=
      if Rgtb recentVolatility (historicalVolatility * 2) then
        (Rmin 100 (recentVolatility / historicalVolatility * 25),
         (if Rgtb random 0.5 then LONG else SHORT),
         [Txt "High volatility spike: "; Num (toFixed 2 recentVolatility);
          Txt "% vs avg "; Num (toFixed 2 historicalVolatility); Txt "%"])
      else (0, NEUTRAL, [Txt "Normal volatility"]) in
    Normal
      (mkVerdict (Some "correlation_break"%string) (Math_round score) direction reason
         (Some [("recentVolatility"%string, recentVolatility);
                ("historicalVolatility"%string, historicalVolatility)])
         None).

(** [correlationBreakDetector] reads nothing of [config]. *)
Definition correlationBreakDetector (random : R) (data : option Snapshot)
  (config : option DetectorConfig) : completion Verdict :=
  try_catch (correlationBreak_try random data)
    (fun msg => Normal (caught "correlation_break" msg)).

Section Indicators.

Variable RSI_calculate : list R -> nat -> completion (list R).
Variable BollingerBands_calculate : list R -> nat -> R -> completion (list BBand).

(** ** Volatility squeeze *)

(** The loop that fills [historicalWidths]. *)
Definition historicalWidths (bbPeriod : nat) (bbStdDev : R) (closes15m : list R)
  : list R :=
  flat_map
    (fun i =>
       match TradingUtils.calculateBollingerBands BollingerBands_calculate
               (slice (i - bbPeriod) i closes15m) bbPeriod bbStdDev with
       | Some historicalBB =>
           [(upper historicalBB - lower historicalBB) / middle historicalBB]
       | None => []
       end)
    (seq bbPeriod (length closes15m - bbPeriod)).

(** [sortedWidths[percentileIndex] || 0] *)
Definition lowPercentileWidth (squeezePercentile : R) (widths : list R) : R :=
  let sortedWidths := sort_asc widths in
  let percentileIndex :=
    Zfloor (INR (length sortedWidths) * squeezePercentile / 100) in
  or_default
    (if Z.ltb percentileIndex 0 then None
     else nth_error sortedWidths (Z.to_nat percentileIndex))
    0.

Definition volatilitySqueeze_try (bbPeriod : nat) (bbStdDev squeezePercentile : R)
  (data : option Snapshot) : completion Verdict :=
  candles15m <- frame "15m" tf15m data ;;
  if Nat.ltb (length candles15m) (bbPeriod + 10)
  then Normal (early "Insufficient data")
  else
    closes15m <- mapM (read "close" close) candles15m ;;
    match TradingUtils.calculateBollingerBands BollingerBands_calculate
            closes15m bbPeriod bbStdDev with
    | None => Normal (early "Cannot calculate Bollinger Bands")
    | Some bb =>
        let bbWidth := (upper bb - lower bb) / middle bb in
        let low := lowPercentileWidth squeezePercentile
                     (historicalWidths bbPeriod bbStdDev closes15m) in
        let isSqueeze := Rleb bbWidth low in
        let currentPrice := last closes15m 0 in
        let isAboveUpper := Rgtb currentPrice (upper bb) in
        let isBelowLower := Rltb currentPrice (lower bb) in
        volumes <- mapM (read "volume" volume) candles15m ;;
        let currentVolume := last volumes 0 in
        let volumeZScore :=
          TradingUtils.calculateZScore currentVolume (slice_last 20 volumes) in
        let '(score, direction, reason) :=
          if andb (andb isSqueeze (orb isAboveUpper isBelowLower))
                  (Rgtb volumeZScore 0.5)
          then
            let squeezeStrength := (low - bbWidth) / low * 100 in
            let volumeStrength := Rmin volumeZScore 3 / 3 * 100 in
            let direction := if isAboveUpper then LONG else SHORT in
            (Rmin 100 (squeezeStrength * 0.5 + volumeStrength * 0.5),
             direction,
             [Txt "Volatility squeeze breakout: "; direction_text direction;
              Txt " with volume z-score "; Num (toFixed 2 volumeZScore)])
          else (0, NEUTRAL, [Txt "No volatility squeeze setup"]) in
        Normal
          (mkVerdict (Some "volatility_squeeze"%string) (Math_round score)
             direction reason
             (Some [("bbWidth"%string, bbWidth);
                    ("lowPercentileWidth"%string, low);
                    ("squeezeStrength"%string,
                      if isSqueeze then (low - bbWidth) / low * 100 else 0);
                    ("volumeZScore"%string, volumeZScore)])
             None)
    end.

Definition volatilitySqueezeDetector (data : option Snapshot)
  (config : option DetectorConfig) : completion Verdict :=
  c <- destructure "bbPeriod" config ;;
  try_catch
    (volatilitySqueeze_try (dflt (bbPeriod c) 20%nat) (dflt (bbStdDev c) 2)
       (dflt (squeezePercentile c) 10) data)
    (fun msg => Normal (caught "volatility_squeeze" msg)).

(** ** RSI momentum *)

Definition rsiMomentum_try (rsiOverbought rsiOversold : R) (data : option Snapshot)
  : completion Verdict :=
  candles15m <- frame "15m" tf15m data ;;
  candles1h <- frame "1h" tf1h data ;;
  if orb (Nat.ltb (length candles15m) 15) (Nat.ltb (length candles1h) 15)
  then Normal (early "Insufficient data")
  else
    closes15m <- mapM (read "close" close) candles15m ;;
    closes1h <- mapM (read "close" close) candles1h ;;
    let rsi15m := TradingUtils.calculateRSI RSI_calculate closes15m 14 in
    let rsi1h := TradingUtils.calculateRSI RSI_calculate closes1h 14 in
    let '(score, direction, reason) :=
      if andb (Rltb rsi15m rsiOversold) (Rltb rsi1h rsiOversold) then
        (Rmin 100 ((rsiOversold - rsi15m) * 3), LONG,
         [Txt "Oversold: RSI15m "; Num (toFixed 1 rsi15m);
          Txt ", RSI1h "; Num (toFixed 1 rsi1h)])
      else if andb (Rgtb rsi15m rsiOverbought) (Rgtb rsi1h rsiOverbought) then
        (Rmin 100 ((rsi15m - rsiOverbought) * 3), SHORT,
         [Txt "Overbought: RSI15m "; Num (toFixed 1 rsi15m);
          Txt ", RSI1h "; Num (toFixed 1 rsi1h)])
      else (0, NEUTRAL, [Txt "RSI in neutral zone"]) in
    Normal
      (mkVerdict (Some "rsi_momentum"%string) (Math_round score) direction reason
         (Some [("rsi15m"%string, rsi15m); ("rsi1h"%string, rsi1h)])
         None).

Definition rsiMomentumDetector (data : option Snapshot)
  (config : option DetectorConfig) : completion Verdict :=
  c <- destructure "rsiOverbought" config ;;
  try_catch
    (rsiMomentum_try (dflt (rsiOverbought c) 70) (dflt (rsiOversold c) 30) data)
    (fun msg => Normal (caught "rsi_momentum" msg)).

(** ** The suite *)

(** An entry of the array [detectors]: the function, its [name] property
    and its weight. *)
Record Registered : Type := mkRegistered {
  fn : option Snapshot -> option DetectorConfig -> completion Verdict;
  fn_name : string;
  fn_weight : R
}.

Definition detectors (random : R) : list Registered :=
  [ mkRegistered momentumBreakoutDetector "momentumBreakoutDetector" 1.2;
    mkRegistered vwapPullbackDetector "vwapPullbackDetector" 1.1;
    mkRegistered volatilitySqueezeDetector "volatilitySqueezeDetector" 1.0;
    mkRegistered orderbookSweepDetector "orderbookSweepDetector" 0.9;
    mkRegistered rsiMomentumDetector "rsiMomentumDetector" 1.0;
    mkRegistered volumeSpikeDetector "volumeSpikeDetector" 1.0;
    mkRegistered (correlationBreakDetector random) "correlationBreakDetector" 0.7 ].

(** [{ ...result, weight }] *)
Definition with_weight (result : Verdict) (w : R) : Verdict :=
  mkVerdict (name result) (score result) (direction result) (reason result)
    (metadata result) (Some w).

(** The verdict pushed by the [catch] clause of the loop. *)
Definition detector_error (detector : Registered) (msg : string) : Verdict :=
  mkVerdict (Some (toLowerCase (replace_first "Detector" "" (fn_name detector))))
    0 NEUTRAL [Txt "Detector error: "; Txt msg] None (Some (fn_weight detector)).

(** One turn of the loop: the verdict pushed onto [results]. *)
Definition run_one (data : option Snapshot) (config : option DetectorConfig)
  (detector : Registered) : completion Verdict :=
  try_catch
    (result <- fn detector data config ;;
     Normal (with_weight result (fn_weight detector)))
    (fun msg => Normal (detector_error detector msg)).

(** [runAllDetectors(data, config = {})]; [random] is what [Math.random()]
    answers to the one detector that calls it. *)
Definition runAllDetectors (random : R) (data : option Snapshot)
  (config : option DetectorConfig) : completion (list Verdict) :=
  fold_left
    (fun results detector =>
       rs <- results ;;
       v <- run_one data config detector ;;
       Normal (rs ++ [v]))
    (detectors random) (Normal []).

End Indicators.

(** The verdict that one turn of the loop pushes. *)
Definition pushed (data : option Snapshot) (config : option DetectorConfig)
  (detector : Registered) : Verdict :=
  match fn detector data config with
  | Normal result => with_weight result (fn_weight detector)
  | Throw msg => detector_error detector msg
  end.



End SignalDetectors.

(* ================================================================== *)
(** * EnsembleAI: what the two files share *)
(* ================================================================== *)

(** The object [directions]. *)
Record Tally : Type := mkTally { n_LONG : nat; n_SHORT : nat; n_NEUTRAL : nat }.

(** [directions[d]++] *)
Definition increment (t : Tally) (d : Direction) : Tally :=
  match d with
  | LONG => mkTally (S (n_LONG t)) (n_SHORT t) (n_NEUTRAL t)
  | SHORT => mkTally (n_LONG t) (S (n_SHORT t)) (n_NEUTRAL t)
  | NEUTRAL => mkTally (n_LONG t) (n_SHORT t) (S (n_NEUTRAL t))
  end.

(** [Object.entries(directions)]: the keys in insertion order. *)
Definition entries (t : Tally) : list (Direction * nat) :=
  [(LONG, n_LONG t); (SHORT, n_SHORT t); (NEUTRAL, n_NEUTRAL t)].

(** [.sort(([, a], [, b]) => b - a)]: a stable sort, larger counts first. *)
Fixpoint insert_desc (x : Direction * nat) (l : list (Direction * nat))
  : list (Direction * nat) :=
  match l with
  | [] => [x]
  | y :: t => if Nat.ltb (snd y) (snd x) then x :: y :: t else y :: insert_desc x t
  end.

Definition sort_desc (l : list (Direction * nat)) : list (Direction * nat) :=
  fold_left (fun acc x => insert_desc x acc) l [].

(** The entry bound to [majorityDirection] inside
    [calculateDetectorAgreement]; [None] is [undefined]. *)
Definition majority_entry (t : Tally) : option (Direction * nat) :=
  hd_error
    (sort_desc
       (filter (fun e => negb (Direction_eqb (fst e) NEUTRAL)) (entries t))).

(** What a decision's [direction] may be. *)
Inductive Signal : Type :=
| Trade (d : Direction)
| NO_TRADE.

(** The object [levels]. *)
Record Levels : Type := mkLevels {
  entry : R;
  sl : R;
  tp : R;
  rr : fixedStr
}.

(** [candles?.[candles.length - 1]?.close] *)
Definition last_close (candles : option Candles) : option R :=
  match candles with
  | Some cs =>
      match from_end 1 cs with
      | Some (Some c) => Some (close c)
      | _ => None
      end
  | None => None
  end.

(** A verdict that the specification calls material for direction [d]:
    it points to [d] and its score is above 40. *)
Definition material (d : Direction) (v : Verdict) : bool :=
  andb (Direction_eqb (direction v) d) (Rgtb (score v) 40).

(* ================================================================== *)
(** * EnsembleAI, simplified and stable ([src/unnamed/part_001]) *)
(* ================================================================== *)

Module EnsembleStable.

(** The argument of the constructor; a missing key is [None]. *)
Record Options : Type := mkOptions {
  opt_minConfidence : option R;
  opt_minDetectorAgreement : option R
}.

(** [this.config].  The spread [...config] that ends the object literal
    puts back every key that the argument has, so a default is used only
    for a missing key. *)
Record Config : Type := mkConfig {
  minConfidence : R;
  minDetectorAgreement : R
}.

Definition constructor (config : Options) : Config :=
  mkConfig (dflt (opt_minConfidence config) 60)
           (dflt (opt_minDetectorAgreement config) 2).

Record Agreement : Type := mkAgreement {
  directions : Tally;
  majorityDirection : Direction;
  majorityCount : nat
}.

(** [calculateDetectorAgreement(detectorResults)] *)
Definition calculateDetectorAgreement (detectorResults : list Verdict) : Agreement :=
  let directions :=
    fold_left
      (fun dirs detector =>
         if andb (negb (Direction_eqb (direction detector) NEUTRAL))
                 (Rgtb (score detector) 40)
         then increment dirs (direction detector)
         else dirs)
      detectorResults (mkTally 0 0 0) in
  let majorityDirection := majority_entry directions in
  mkAgreement directions
    (match majorityDirection with Some (d, _) => d | None => NEUTRAL end)
    (match majorityDirection with Some (_, n) => n | None => 0%nat end).

(** [calculateMetaScore(detectorResults, agreement)] *)
Definition calculateMetaScore (config : Config) (detectorResults : list Verdict)
  (agreement : Agreement) : R :=
  if Rltb (INR (majorityCount agreement)) (minDetectorAgreement config) then 0
  else
    let '(totalScore, count) :=
      fold_left
        (fun (acc : R * nat) detector =>
           if andb (Direction_eqb (direction detector) (majorityDirection agreement))
                   (Rgtb (score detector) 40)
           then (fst acc + score detector * or_default (weight detector) 1.0,
                 S (snd acc))
           else acc)
        detectorResults (0, 0%nat) in
    if Nat.eqb count 0 then 0
    else
      let metaScore := totalScore / INR count in
      let agreementBonus := (INR (majorityCount agreement) - 1) * 10 in
      Rmin 100 (metaScore + Rmin 20 agreementBonus).

(** [generateDefaultLevels(direction, currentPrice)] *)
Definition generateDefaultLevels (direction : Direction) (currentPrice : R) : Levels :=
  let riskPercent := 0.02 in
  let stopLoss :=
    if Direction_eqb direction LONG
    then currentPrice * (1 - riskPercent)
    else currentPrice * (1 + riskPercent) in
  let risk := Rabs (currentPrice - stopLoss) in
  let takeProfit :=
    if Direction_eqb direction LONG
    then currentPrice + risk * 1.8
    else currentPrice - risk * 1.8 in
  let rrRatio := Rabs (takeProfit - currentPrice) / risk in
  mkLevels (parseFloat (toFixed 4 currentPrice))
           (parseFloat (toFixed 4 stopLoss))
           (parseFloat (toFixed 4 takeProfit))
           (toFixed 2 rrRatio).

(** [generateLevels(direction, currentPrice, data)] *)
Definition generateLevels (direction : Direction) (currentPrice : R)
  (data : Snapshot) : completion Levels :=
  let candles15m := or_empty (tf15m data) in
  if Nat.ltb (length candles15m) 10
  then Normal (generateDefaultLevels direction currentPrice)
  else
    atr <- TradingUtils.calculateATR (Some candles15m) 14 ;;
    let volatilityAdjustedATR := atr * currentPrice in
    let entryPrice := currentPrice in
    let slDistance := volatilityAdjustedATR * 0.8 in
    let stopLoss :=
      if Direction_eqb direction LONG
      then entryPrice - slDistance
      else entryPrice + slDistance in
    let risk := Rabs (entryPrice - stopLoss) in
    let takeProfit :=
      if Direction_eqb direction LONG
      then entryPrice + risk * 1.8
      else entryPrice - risk * 1.8 in
    let rrRatio := Rabs (takeProfit - entryPrice) / risk in
    Normal (mkLevels (parseFloat (toFixed 4 entryPrice))
                     (parseFloat (toFixed 4 stopLoss))
                     (parseFloat (toFixed 4 takeProfit))
                     (toFixed 2 rrRatio)).

Record Explain : Type := mkExplain {
  ex_detectorResults : list Verdict;
  ex_agreement : Agreement;
  ex_metaScore : R
}.

Record Decision : Type := mkDecision {
  dec_direction : Signal;
  confidence : R;
  dec_reason : text;
  levels : option Levels;
  explain : Explain
}.

(** [analyze(detectorResults, data)] *)
Definition analyze (config : Config) (detectorResults : list Verdict)
  (data : Snapshot) : completion Decision :=
  let agreement := calculateDetectorAgreement detectorResults in
  let metaScore := calculateMetaScore config detectorResults agreement in
  let currentPrice :=
    or_default (last_close (tf15m data)) (or_default (ticker_last data) 0) in
  if andb (Rgeb metaScore (minConfidence config))
          (Rgeb (INR (majorityCount agreement)) (minDetectorAgreement config))
  then
    levels <- generateLevels (majorityDirection agreement) currentPrice data ;;
    Normal
      (mkDecision (Trade (majorityDirection agreement)) (Math_round metaScore)
         [Val (INR (majorityCount agreement)); Txt " detectors agree, ";
          Val (Math_round metaScore); Txt "% confidence"]
         (Some levels)
         (mkExplain
            (map (fun d => mkVerdict (name d) (score d) (direction d) (reason d)
                             None None)
                 detectorResults)
            agreement metaScore))
  else
    Normal
      (mkDecision NO_TRADE (Math_round metaScore)
         [Txt "Insufficient agreement: "; Val (INR (majorityCount agreement));
          Txt " detectors, "; Val (Math_round metaScore); Txt "% confidence"]
         None
         (mkExplain detectorResults agreement metaScore)).

End EnsembleStable.

(* ================================================================== *)
(** * EnsembleAI with weights and time of day ([src/unnamed/part_002]) *)
(* ================================================================== *)

(** ** Strings *)

(** [s.split(sep)] for a one-character separator. *)
Fixpoint split_on (sep : ascii) (s : string) : list string :=
  match s with
  | EmptyString => [EmptyString]
  | String c t =>
      if Ascii.eqb c sep then EmptyString :: split_on sep t
      else
        match split_on sep t with
        | piece :: more => String c piece :: more
        | [] => [String c EmptyString]
        end
  end.

(** [s.includes(sub)] *)
Definition includes (sub s : string) : bool :=
  match index 0 sub s with
  | Some _ => true
  | None => false
  end.

(** ** [Number(s)]

    The value of [Number] on a string, a double: [Finite m e] is the number
    [m * 2^e], [Infinite] is one of the two infinities and [NaN] is NaN.
    The two zeros are not told apart: no comparison does. *)
Inductive JSNumber : Type :=
| Finite (mantissa exponent : Z)
| Infinite (negative : bool)
| NaN.

(** [p * 2^e] with the factors 2 of [p] moved into the exponent. *)
Fixpoint odd_part (p : positive) (e : Z) : Z * Z :=
  match p with
  | xO q => odd_part q (e + 1)
  | _ => (Zpos p, e)
  end.

(** The double nearest to [n / d], for [0 < n] and [0 < d], ties going to
    the even significand.  The quotient is taken at the exponent [e] that
    leaves 53 bits, [2^52 <= n / (d * 2^e) < 2^53], or at [-1074] where the
    number is subnormal; what rounds up to [2^1024] is Infinity. *)
Definition nearest_double (n d : Z) : JSNumber :=
  let e0 := (Z.log2 n - Z.log2 d - 52)%Z in
  let q0 :=
    (if Z.leb 0 e0 then n / (d * 2 ^ e0) else (n * 2 ^ (- e0)) / d)%Z in
  let e := Z.max (if Z.ltb q0 (2 ^ 52) then e0 - 1 else e0)%Z (- 1074) in
  let num := (if Z.leb 0 e then n else n * 2 ^ (- e))%Z in
  let den := (if Z.leb 0 e then d * 2 ^ e else d)%Z in
  let q := (num / den)%Z in
  let r := (num mod den)%Z in
  let q' :=
    (if orb (Z.ltb den (2 * r)) (andb (Z.eqb den (2 * r)) (Z.odd q))
     then q + 1 else q)%Z in
  if orb (Z.ltb 971 e) (andb (Z.eqb e 971) (Z.eqb q' (2 ^ 53)))
  then Infinite false
  else
    match q' with
    | Zpos p => let '(m, e') := odd_part p e in Finite m e'
    | _ => Finite 0 0
    end.

(** The double nearest to [m * 10^e], for [0 <= m].  A number that is
    [2^1024] at least is Infinity and one below [2^-1075] is 0, which is
    settled on the sizes without the power of ten: [2^(3 e) <= 10^e] for
    [0 <= e], [10^e <= 2^(3 e)] for [e < 0], and
    [2^(log2 m) <= m < 2^(log2 m + 1)]. *)
Definition decimal (m e : Z) : JSNumber :=
  if Z.leb m 0 then Finite 0 0
  else if Z.leb 0 e then
    if Z.leb 1024 (Z.log2 m + 3 * e) then Infinite false
    else nearest_double (m * 10 ^ e) 1
  else
    if Z.leb (Z.log2 m + 1 + 3 * e) (- 1075) then Finite 0 0
    else nearest_double m (10 ^ (- e)).

(** One white space or line terminator at the head of [s], the string
    being read as UTF-8: TAB, LF, VT, FF, CR, SP; U+00A0; U+FEFF, U+1680,
    U+2000 to U+200A, U+2028, U+2029, U+202F, U+205F, U+3000.  The result
    is the rest of the string. *)
Definition skip_space (s : string) : option string :=
  match s with
  | String a t =>
      let n := nat_of_ascii a in
      if orb (andb (Nat.leb 9 n) (Nat.leb n 13)) (Nat.eqb n 32) then Some t
      else
        match t with
        | String b u =>
            let m := nat_of_ascii b in
            if andb (Nat.eqb n 194) (Nat.eqb m 160) then Some u
            else
              match u with
              | String c v =>
                  let k := nat_of_ascii c in
                  if orb (andb (Nat.eqb n 239) (andb (Nat.eqb m 187) (Nat.eqb k 191)))
                    (orb (andb (Nat.eqb n 225) (andb (Nat.eqb m 154) (Nat.eqb k 128)))
                    (orb (andb (Nat.eqb n 226)
                            (andb (Nat.eqb m 128)
                               (orb (andb (Nat.leb 128 k) (Nat.leb k 138))
                                    (orb (Nat.eqb k 168)
                                         (orb (Nat.eqb k 169) (Nat.eqb k 175))))))
                    (orb (andb (Nat.eqb n 226) (andb (Nat.eqb m 129) (Nat.eqb k 159)))
                         (andb (Nat.eqb n 227) (andb (Nat.eqb m 128) (Nat.eqb k 128))))))
                  then Some v
                  else None
              | EmptyString => None
              end
        | EmptyString => None
        end
  | EmptyString => None
  end.

(** The string without the white space at its head; every step takes at
    least one character, so the length of the string is fuel enough. *)
Fixpoint trim_left_fuel (fuel : nat) (s : string) : string :=
  match fuel with
  | O => s
  | S f =>
      match skip_space s with
      | Some rest => trim_left_fuel f rest
      | None => s
      end
  end.

Definition trim_left (s : string) : string := trim_left_fuel (String.length s) s.

(** Nothing but white space. *)
Definition blank (s : string) : bool :=
  match trim_left s with
  | EmptyString => true
  | String _ _ => false
  end.

(** The value of a digit in a base up to 16. *)
Definition digit_value (base : Z) (c : ascii) : option Z :=
  let n := nat_of_ascii c in
  let d :=
    if andb (Nat.leb 48 n) (Nat.leb n 57) then Some (Z.of_nat (n - 48))
    else if andb (Nat.leb 97 n) (Nat.leb n 102) then Some (Z.of_nat (n - 87))
    else if andb (Nat.leb 65 n) (Nat.leb n 70) then Some (Z.of_nat (n - 55))
    else None in
  match d with
  | Some v => if Z.ltb v base then Some v else None
  | None => None
  end.

(** The digits at the head of [s]: the number they add to [acc], how many
    there are, and the rest of the string. *)
Fixpoint digits_of (base acc : Z) (count : nat) (s : string) : Z * nat * string :=
  match s with
  | String c t =>
      match digit_value base c with
      | Some d => digits_of base (base * acc + d) (S count) t
      | None => (acc, count, s)
      end
  | EmptyString => (acc, count, s)
  end.

(** What may follow the digits of a decimal literal: an exponent part, and
    white space up to the end. *)
Definition exponent_part (mantissa scale : Z) (s : string) : JSNumber :=
  match s with
  | String c t =>
      if orb (Ascii.eqb c "e") (Ascii.eqb c "E") then
        let '(negative, t') :=
          match t with
          | String sign u =>
              if Ascii.eqb sign "+" then (false, u)
              else if Ascii.eqb sign "-" then (true, u)
              else (false, t)
          | EmptyString => (false, t)
          end in
        let '(x, n, rest) := digits_of 10 0 0 t' in
        if andb (negb (Nat.eqb n 0)) (blank rest)
        then decimal mantissa (scale + (if negative then - x else x))
        else NaN
      else if blank s then decimal mantissa scale else NaN
  | EmptyString => decimal mantissa scale
  end.

(** A decimal literal without its sign: [Infinity], digits with an
    optional fraction, or a fraction alone. *)
Definition unsigned_decimal (s : string) : JSNumber :=
  if prefix "Infinity" s
  then
    if blank (substring 8 (String.length s - 8) s) then Infinite false else NaN
  else
    let '(i, ni, rest) := digits_of 10 0 0 s in
    match rest with
    | String c u =>
        if Ascii.eqb c "."
        then
          let '(m, nf, rest') := digits_of 10 i 0 u in
          if andb (Nat.eqb ni 0) (Nat.eqb nf 0) then NaN
          else exponent_part m (- Z.of_nat nf) rest'
        else if Nat.eqb ni 0 then NaN else exponent_part i 0 rest
    | EmptyString => if Nat.eqb ni 0 then NaN else decimal i 0
    end.

(** A binary, octal or hexadecimal literal: [0b], [0o] or [0x] and digits. *)
Definition radix_literal (s : string) : option JSNumber :=
  match s with
  | String z (String p t) =>
      let base :=
        if negb (Ascii.eqb z "0") then None
        else if orb (Ascii.eqb p "x") (Ascii.eqb p "X") then Some 16%Z
        else if orb (Ascii.eqb p "o") (Ascii.eqb p "O") then Some 8%Z
        else if orb (Ascii.eqb p "b") (Ascii.eqb p "B") then Some 2%Z
        else None in
      match base with
      | Some b =>
          let '(v, n, rest) := digits_of b 0 0 t in
          Some (if andb (negb (Nat.eqb n 0)) (blank rest) then decimal v 0 else NaN)
      | None => None
      end
  | _ => None
  end.

Definition negate (n : JSNumber) : JSNumber :=
  match n with
  | Finite m e => Finite (- m) e
  | Infinite negative => Infinite (negb negative)
  | NaN => NaN
  end.

(** [Number(s)]: white space around the literal is dropped, the empty
    string is 0, a string that is no numeric literal is NaN. *)
Definition Number (s : string) : JSNumber :=
  match trim_left s with
  | EmptyString => Finite 0 0
  | String c u =>
      if Ascii.eqb c "+" then unsigned_decimal u
      else if Ascii.eqb c "-" then negate (unsigned_decimal u)
      else
        match radix_literal (String c u) with
        | Some n => n
        | None => unsigned_decimal (String c u)
        end
  end.

(** How two numbers compare; [None] when one of them is NaN. *)
Definition compare_numbers (a b : JSNumber) : option comparison :=
  match a, b with
  | NaN, _ | _, NaN => None
  | Infinite n1, Infinite n2 =>
      Some (if n1 then (if n2 then Eq else Lt) else (if n2 then Gt else Eq))
  | Infinite n, Finite _ _ => Some (if n then Lt else Gt)
  | Finite _ _, Infinite n => Some (if n then Gt else Lt)
  | Finite m1 e1, Finite m2 e2 =>
      let e := Z.min e1 e2 in
      Some (Z.compare (m1 * 2 ^ (e1 - e)) (m2 * 2 ^ (e2 - e)))
  end.

(** [a <= b], [a < b], [a > b] and [a >= b]: false when NaN is compared. *)
Definition number_le (a b : JSNumber) : bool :=
  match compare_numbers a b with
  | Some Gt | None => false
  | Some _ => true
  end.

Definition number_lt (a b : JSNumber) : bool :=
  match compare_numbers a b with
  | Some Lt => true
  | _ => false
  end.

Definition number_gt (a b : JSNumber) : bool := number_lt b a.
Definition number_ge (a b : JSNumber) : bool := number_le b a.

(** [object[key]] on an object kept as its list of entries. *)
Fixpoint lookup (key : string) (object : list (string * R)) : option R :=
  match object with
  | [] => None
  | (k, v) :: t => if String.eqb k key then Some v else lookup key t
  end.

(** [set.add(x)] on a [Set] kept as the list of its members in insertion
    order. *)
Definition set_add (x : string) (members : list string) : list string :=
  if existsb (String.eqb x) members then members else members ++ [x].

(** Reading [prop] of a string that is [undefined]. *)
Definition undefined_read (prop : string) : string :=
  ("Cannot read properties of undefined (reading '" ++ prop ++ "')")%string.

(** [detector.name.split('_')[0]] *)
Definition family (detector : Verdict) : completion string :=
  match name detector with
  | Some n => Normal (hd EmptyString (split_on "_" n))
  | None => Throw (undefined_read "split")
  end.

(** [d.name.includes(sub)] *)
Definition name_includes (sub : string) (d : Verdict) : completion bool :=
  match name d with
  | Some n => Normal (includes sub n)
  | None => Throw (undefined_read "includes")
  end.

(** The field [direction] of a verdict, for use where a parameter of the
    same name is in scope. *)
Definition direction_of (d : Verdict) : Direction := direction d.

Module EnsembleWeighted.

(** The argument of the constructor; a missing key is [None].  The two
    objects are kept as their entries in insertion order. *)
Record Options : Type := mkOptions {
  opt_minConfidence : option R;
  opt_minDetectorAgreement : option R;
  opt_detectorWeights : option (list (string * R));
  opt_timeOfDayMultipliers : option (list (string * R))
}.

Record Config : Type := mkConfig {
  minConfidence : R;
  minDetectorAgreement : R;
  detectorWeights : list (string * R);
  timeOfDayMultipliers : list (string * R)
}.

Definition default_detectorWeights : list (string * R) :=
  [ ("momentum_breakout"%string, 1.2);
    ("vwap_pullback"%string, 1.1);
    ("volatility_squeeze"%string, 1.0);
    ("orderbook_sweep"%string, 0.9);
    ("funding_oi_divergence"%string, 0.8);
    ("volume_spike"%string, 1.0);
    ("correlation_break"%string, 0.7) ].

Definition default_timeOfDayMultipliers : list (string * R) :=
  [ ("04-10"%string, 1.1);
    ("10-16"%string, 1.0);
    ("16-20"%string, 0.9);
    ("20-23"%string, 0.8);
    ("23-04"%string, 0.3) ].

(** As in the simplified file, the closing spread [...config] keeps every
    key that the argument has. *)
Definition constructor (config : Options) : Config :=
  mkConfig (dflt (opt_minConfidence config) 60)
           (dflt (opt_minDetectorAgreement config) 2)
           (dflt (opt_detectorWeights config) default_detectorWeights)
           (dflt (opt_timeOfDayMultipliers config) default_timeOfDayMultipliers).

(** The two tests made on one entry [range] of [timeOfDayMultipliers]:
    [start <= hour && hour < end], and
    [start > end && (hour >= start || hour < end)].  A bound that is
    missing is [undefined], and a comparison with [undefined] or NaN is
    false. *)
Definition hour_in_range (range : string) (hour : Z) : bool :=
  let bounds := map Number (split_on "-" range) in
  let now := Finite hour 0 in
  match nth_error bounds 0, nth_error bounds 1 with
  | Some start, Some end_ =>
      orb (andb (number_le start now) (number_lt now end_))
          (andb (number_gt start end_)
                (orb (number_ge now start) (number_lt now end_)))
  | _, _ => false
  end.

(** [getTimeOfDayMultiplier()]; [hour] is [now.hours()]. *)
Fixpoint first_multiplier (ranges : list (string * R)) (hour : Z) : R :=
  match ranges with
  | [] => 1.0
  | (range, multiplier) :: rest =>
      if hour_in_range range hour then multiplier
      else first_multiplier rest hour
  end.

Definition getTimeOfDayMultiplier (config : Config) (hour : Z) : R :=
  first_multiplier (timeOfDayMultipliers config) hour.

Record Agreement : Type := mkAgreement {
  directions : Tally;
  totalDirectional : nat;
  majorityDirection : Direction;
  majorityCount : nat;
  agreementRatio : R
}.

(** [calculateDetectorAgreement(detectorResults)] *)
Definition calculateDetectorAgreement (detectorResults : list Verdict) : Agreement :=
  let directionalDetectors :=
    filter (fun d => negb (Direction_eqb (direction d) NEUTRAL)) detectorResults in
  let directions :=
    fold_left (fun dirs detector => increment dirs (direction detector))
      directionalDetectors (mkTally 0 0 0) in
  let totalDirectional := length directionalDetectors in
  let majorityDirection := majority_entry directions in
  mkAgreement directions totalDirectional
    (match majorityDirection with Some (d, _) => d | None => NEUTRAL end)
    (match majorityDirection with Some (_, n) => n | None => 0%nat end)
    (if Nat.ltb 0 totalDirectional
     then
       match majorityDirection with
       | Some (_, n) => INR n / INR totalDirectional
       | None => 0
       end
     else 0).

(** The three accumulators of the [forEach] in [calculateMetaScore]. *)
Record Accum : Type := mkAccum {
  weightedSum : R;
  totalWeight : R;
  detectorFamilyCount : list string
}.

(** One call of the [forEach] callback. *)
Definition accumulate (config : Config) (agreement : Agreement) (acc : Accum)
  (detector : Verdict) : completion Accum :=
  if andb (negb (Direction_eqb (direction detector) NEUTRAL))
          (Direction_eqb (direction detector) (majorityDirection agreement))
  then
    let weight :=
      or_default
        (lookup (dflt (name detector) "undefined"%string) (detectorWeights config))
        1.0 in
    fam <- family detector ;;
    Normal (mkAccum (weightedSum acc + score detector * weight)
                    (totalWeight acc + weight)
                    (set_add fam (detectorFamilyCount acc)))
  else Normal acc.

(** [calculateMetaScore(detectorResults, agreement)]; [hour] is the hour
    that [getTimeOfDayMultiplier] reads from the clock. *)
Definition calculateMetaScore (config : Config) (hour : Z)
  (detectorResults : list Verdict) (agreement : Agreement) : completion R :=
  acc <- fold_left
           (fun st detector => a <- st ;; accumulate config agreement a detector)
           detectorResults (Normal (mkAccum 0 0 [])) ;;
  if Reqb (totalWeight acc) 0 then Normal 0
  else
    let metaScore := weightedSum acc / totalWeight acc in
    let confluenceBonus := (INR (length (detectorFamilyCount acc)) - 1) * 5 in
    let metaScore := metaScore + Rmin 20 confluenceBonus in
    let timeMultiplier := getTimeOfDayMultiplier config hour in
    let metaScore := metaScore * timeMultiplier in
    Normal (Rmin 100 (Rmax 0 metaScore)).

(** [.sort((a, b) => b.score - a.score)]: stable, higher scores first. *)
Fixpoint insert_by_score (x : Verdict) (l : list Verdict) : list Verdict :=
  match l with
  | [] => [x]
  | y :: t =>
      if Rltb (score y) (score x) then x :: y :: t else y :: insert_by_score x t
  end.

Definition sort_by_score (l : list Verdict) : list Verdict :=
  fold_left (fun acc x => insert_by_score x acc) l [].

(** [array.find(p)] and [array.some(p)] for a predicate that may throw. *)
Fixpoint findM (p : Verdict -> completion bool) (l : list Verdict)
  : completion (option Verdict) :=
  match l with
  | [] => Normal None
  | d :: t => b <- p d ;; if b then Normal (Some d) else findM p t
  end.

Fixpoint someM (p : Verdict -> completion bool) (l : list Verdict)
  : completion bool :=
  match l with
  | [] => Normal false
  | d :: t => b <- p d ;; if b then Normal true else someM p t
  end.

(** [a || b] on two tests of the name. *)
Definition name_includes_either (s1 s2 : string) (d : Verdict) : completion bool :=
  b <- name_includes s1 d ;; if b then Normal true else name_includes s2 d.

(** A metadata field used as a condition: missing and [0] are falsy. *)
Definition truthy (o : option R) : option R :=
  match o with
  | Some v => if Reqb v 0 then None else Some v
  | None => None
  end.

(** [calculateAverageATR(data)] *)
Definition calculateAverageATR (data : Snapshot) : completion R :=
  acc <- fold_left
           (fun st candles =>
              a <- st ;;
              match candles with
              | Some cs =>
                  if Nat.ltb 14 (length cs)
                  then
                    atr <- TradingUtils.calculateATR (Some cs) 14 ;;
                    Normal (fst a + atr, S (snd a))
                  else Normal a
              | None => Normal a
              end)
           [tf15m data; tf1h data; tf4h data] (Normal (0, 0%nat)) ;;
  Normal (if Nat.ltb 0 (snd acc) then fst acc / INR (snd acc) else 0.02).

(** [generateLevels(direction, currentPrice, data, detectorResults)] *)
Definition generateLevels (direction : Direction) (currentPrice : R)
  (data : Snapshot) (detectorResults : list Verdict) : completion Levels :=
  atr <- calculateAverageATR data ;;
  let volatilityAdjustedATR := atr * currentPrice in
  let directionalDetectors :=
    sort_by_score
      (filter (fun d => andb (Direction_eqb (direction_of d) direction)
                             (Rgtb (score d) 50))
              detectorResults) in
  momentumDetector <-
    findM (name_includes_either "momentum" "breakout") directionalDetectors ;;
  let entryPrice :=
    match momentumDetector with
    | Some m =>
        match metadata m with
        | Some md =>
            match direction, truthy (lookup "recentHigh" md),
                  truthy (lookup "recentLow" md) with
            | LONG, Some recentHigh, _ => Rmin currentPrice (recentHigh * 1.001)
            | SHORT, _, Some recentLow => Rmax currentPrice (recentLow * 0.999)
            | _, _, _ => currentPrice
            end
        | None => currentPrice
        end
    | None => currentPrice
    end in
  let slDistance := volatilityAdjustedATR * 0.8 in
  let stopLoss :=
    if Direction_eqb direction LONG
    then entryPrice - slDistance
    else entryPrice + slDistance in
  let risk := Rabs (entryPrice - stopLoss) in
  let minTPDistance := risk * 1.5 in
  let takeProfit :=
    if Direction_eqb direction LONG
    then entryPrice + minTPDistance
    else entryPrice - minTPDistance in
  hasStrongMomentum <-
    someM (fun d =>
             if Rgtb (score d) 70
             then name_includes_either "momentum" "volume" d
             else Normal false)
          directionalDetectors ;;
  let finalTakeProfit :=
    if hasStrongMomentum
    then if Direction_eqb direction LONG then takeProfit * 1.1 else takeProfit * 0.9
    else takeProfit in
  let rrRatio := Rabs (finalTakeProfit - entryPrice) / risk in
  Normal (mkLevels (parseFloat (toFixed 6 entryPrice))
                   (parseFloat (toFixed 6 stopLoss))
                   (parseFloat (toFixed 6 finalTakeProfit))
                   (toFixed 2 rrRatio)).

Record Explain : Type := mkExplain {
  ex_detectorResults : list Verdict;
  ex_agreement : Agreement;
  ex_metaScore : R;
  ex_timeMultiplier : R;
  ex_requirementsMet : bool;
  ex_detectorFamilies : option (list string);
  ex_failureReasons : option (list text)
}.

Record Decision : Type := mkDecision {
  dec_direction : Signal;
  confidence : R;
  dec_reason : text;
  levels : option Levels;
  explain : Explain
}.

(** [analyze(detectorResults, data)] *)
Definition analyze (config : Config) (hour : Z) (detectorResults : list Verdict)
  (data : Snapshot) : completion Decision :=
  let agreement := calculateDetectorAgreement detectorResults in
  metaScore <- calculateMetaScore config hour detectorResults agreement ;;
  let hasMinimumAgreement :=
    Rgeb (INR (majorityCount agreement)) (minDetectorAgreement config) in
  let hasMinimumConfidence := Rgeb metaScore (minConfidence config) in
  let hasValidDirection :=
    negb (Direction_eqb (majorityDirection agreement) NEUTRAL) in
  if andb (andb hasMinimumAgreement hasMinimumConfidence) hasValidDirection
  then
    let currentPrice :=
      or_default (last_close (tf15m data)) (or_default (last_close (tf1h data)) 0) in
    levels <- generateLevels (majorityDirection agreement) currentPrice data
                detectorResults ;;
    families <- mapM family detectorResults ;;
    Normal
      (mkDecision (Trade (majorityDirection agreement)) (Math_round metaScore)
         [Txt "Ensemble signal: "; Val (INR (majorityCount agreement));
          Txt " detectors agree, "; Num (toFixed 1 metaScore); Txt "% confidence"]
         (Some levels)
         (mkExplain detectorResults agreement metaScore
            (getTimeOfDayMultiplier config hour) true
            (Some (fold_left (fun members x => set_add x members) families []))
            None))
  else
    Normal
      (mkDecision NO_TRADE 0 [Txt "No trading signal generated"] None
         (mkExplain detectorResults agreement metaScore
            (getTimeOfDayMultiplier config hour) false None
            (Some
               ((if hasMinimumAgreement then []
                 else [[Txt "Insufficient detector agreement: ";
                        Val (INR (majorityCount agreement)); Txt " < ";
                        Val (minDetectorAgreement config)]])
                ++ (if hasMinimumConfidence then []
                    else [[Txt "Low confidence: "; Num (toFixed 1 metaScore);
                           Txt "% < "; Val (minConfidence config); Txt "%"]])
                ++ (if hasValidDirection then []
                    else [[Txt "No clear directional bias"]]))))).

End EnsembleWeighted.

(** ** The meta-score in the words of the specification *)

Module MetaScoreSpec.

(** The verdicts that agree with the majority direction. *)
Definition agreeing (majority : Direction) (vs : list Verdict) : list Verdict :=
  filter (fun v => Direction_eqb (direction v) majority) vs.

Definition total (l : list R) : R := fold_right Rplus 0 l.

(** The mean of the scores under the weights [w]. *)
Definition weighted_mean (w : Verdict -> R) (vs : list Verdict) : R :=
  total (map (fun v => score v * w v) vs) / total (map w vs).

(** The family of a detector: its name up to the first underscore. *)
Definition family_name (v : Verdict) : string :=
  hd EmptyString (split_on "_" (dflt (name v) EmptyString)).

(** The number of distinct families among [vs]. *)
Definition distinct_families (vs : list Verdict) : nat :=
  length (nodup string_dec (map family_name vs)).

(** Five points for each family beyond the first, at most 20. *)
Definition confluence_bonus (vs : list Verdict) : R :=
  Rmin 20 (5 * (INR (distinct_families vs) - 1)).

(** The value of [x] brought into the interval from 0 to 100. *)
Definition clamp (x : R) : R :=
  if Rltb x 0 then 0 else if Rltb 100 x then 100 else x.

(** The weighted mean of the agreeing verdicts, plus the confluence bonus,
    times the time-of-day multiplier [m], clamped. *)
Definition formula (w : Verdict -> R) (m : R) (agree : list Verdict) : R :=
  clamp ((weighted_mean w agree + confluence_bonus agree) * m).

(** The weight configured for a detector, 1.0 when none is configured. *)
Definition configured_weight (config : EnsembleWeighted.Config) (v : Verdict) : R :=
  match lookup (dflt (name v) "undefined"%string)
          (EnsembleWeighted.detectorWeights config) with
  | Some w => if Reqb w 0 then 1.0 else w
  | None => 1.0
  end.

(** The weight that [runAllDetectors] attached to a verdict, 1.0 when it
    carries none. *)
Definition attached_weight (v : Verdict) : R :=
  match weight v with
  | Some w => if Reqb w 0 then 1.0 else w
  | None => 1.0
  end.

End MetaScoreSpec.

(* ================================================================== *)
(** * Sample snapshots *)
(* ================================================================== *)

Module Samples.

(** A bar that opens, peaks, bottoms and closes at [p] on volume [v]. *)
Definition flat (p v : R) : Candle := mkCandle 0 p p p p v.

Definition only15m (cs : list Candle) : Snapshot :=
  mkSnapshot None (Some (map Some cs)) None None None None.

(** 25 bars: 24 flat bars at 100 on volume 9, then a bar whose high, 102,
    is 2% above every earlier high, closing at 101 on volume 19. *)
Definition breakout_bars : list Candle :=
  repeat (flat 100 9) 24 ++ [mkCandle 0 100 102 100 101 19].

(** 25 bars: 24 flat bars at 100 on volume 9, then a bar that falls from
    100 to close at 95 on volume 19. *)
Definition breakdown_bars : list Candle :=
  repeat (flat 100 9) 24 ++ [mkCandle 0 100 100 95 95 19].

Definition only1h (cs : list Candle) : Snapshot :=
  mkSnapshot None None (Some (map Some cs)) None None None.

(** 26 hourly bars: 21 flat bars at 4, then closes 6, 3, 3, 4.5, 2.25, so
    that the last five returns are +0.5, -0.5, 0, +0.5, -0.5 after twenty
    returns of 0. *)
Definition regime_break_bars : list Candle :=
  repeat (flat 4 1) 21 ++ [flat 6 1; flat 3 1; flat 3 1; flat 4.5 1; flat 2.25 1].

(** The returns of [regime_break_bars]. *)
Definition regime_break_changes : list R :=
  repeat 0 20 ++ [1 / 2; - 1 / 2; 0; 1 / 2; - 1 / 2].

(** A snapshot without any history. *)
Definition no_history : Snapshot := mkSnapshot None None None None None None.

(** A verdict as [runAllDetectors] returns it. *)
Definition verdict_of (detector : string) (d : Direction) (s w : R) : Verdict :=
  mkVerdict (Some detector) s d [] None (Some w).

(** Two detectors of different families agree on LONG. *)
Definition two_long : list Verdict :=
  [verdict_of "momentum_breakout" LONG 80 1.2; verdict_of "volume_spike" LONG 70 1.0].

(** One LONG verdict with a low score. *)
Definition weak_long : list Verdict := [verdict_of "volume_spike" LONG 10 1.0].

(** One LONG verdict with a high score. *)
Definition lone_long : list Verdict := [verdict_of "volume_spike" LONG 80 1.0].

(** The two ensembles built without options. *)
Definition stable_defaults : EnsembleStable.Config :=
  EnsembleStable.constructor (EnsembleStable.mkOptions None None).

Definition weighted_defaults : EnsembleWeighted.Config :=
  EnsembleWeighted.constructor (EnsembleWeighted.mkOptions None None None None).

(** 25 bars: 24 flat bars at 100 on volume 9, then a bar that opens below
    them at 95.5, its high, and falls to close at 95, its low, on volume
    19. *)
Definition gap_down_bars : list Candle :=
  repeat (flat 100 9) 24 ++ [mkCandle 0 95.5 95.5 95 95 19].

(** One bar of 15m history at 100. *)
Definition one_bar : Snapshot := only15m [flat 100 9].

(** A table in which a range listed before [23-04] also holds hour 2. *)
Definition night_first : EnsembleWeighted.Config :=
  EnsembleWeighted.constructor
    (EnsembleWeighted.mkOptions None None None
       (Some [("00-06"%string, 2); ("23-04"%string, 0.3)])).

(** The time-of-day multipliers of [weighted_defaults], and no adjustment. *)
Definition usual_multipliers : list R := [1; 1.1; 1.0; 0.9; 0.8; 0.3].

End Samples.

(* ================================================================== *)
(** * Vocabulary of the further properties *)
(* ================================================================== *)

(** The true range of candle [c] after candle [p], and the true ranges of
    a series without holes. *)
Definition true_range (p c : Candle) : R :=
  Rmax (Rmax (high c - low c) (Rabs (high c - close p))) (Rabs (low c - close p)).

Fixpoint true_ranges (prev : Candle) (rest : list Candle) : list R :=
  match rest with
  | [] => []
  | c :: t => true_range prev c :: true_ranges c t
  end.

(** The typical price of a candle. *)
Definition typical_price (c : Candle) : R := (high c + low c + close c) / 3.

(** What a computation establishes when it returns normally. *)
Definition ensures {A : Type} (P : A -> Prop) (c : completion A) : Prop :=
  match c with
  | Normal a => P a
  | Throw _ => True
  end.

(** A verdict whose score is 0 when it is NEUTRAL and which has a name
    when it is LONG or SHORT. *)
Definition takes_side_by_name (v : Verdict) : Prop :=
  (direction v = NEUTRAL -> score v = 0)
  /\ (direction v <> NEUTRAL -> name v <> None).

(** A verdict that takes no side. *)
Definition silent (v : Verdict) : Prop := direction v = NEUTRAL /\ score v = 0.

(** The shortest 15m history that lets some detector reading the 15m frame
    go past its length check, under the options [c]. *)
Definition shortest_window (c : DetectorConfig) : nat :=
  Nat.min 15 (Nat.min (dflt (breakoutPeriod c) 20 + 5)
                      (dflt (bbPeriod c) 20 + 10))%nat.

(** A verdict that the simplified ensemble leaves out of its tallies. *)
Definition quiet (v : Verdict) : Prop := direction v = NEUTRAL \/ score v <= 40.

(* ================================================================== *)
(** * The analysis adapter ([src/signal/detectors.js], second part) *)
(* ================================================================== *)

Module AnalysisAdapter.

(** The object that [analyzeSymbol] resolves to: the early return without
    a trade, the full response, and the response built in the [catch]
    clause ([direction: 'NO_TRADE'], [confidence: 0], the reason
    [Analysis error: ] followed by the message). *)
Inductive Analysis (E : Type) : Type :=
| NoSignal (symbol : string) (direction : Signal) (confidence : R)
    (reason : text) (explain : E)
| Position (symbol : string) (direction : Signal) (confidence : R)
    (entry sl tp : R) (rr : fixedStr)
    (positionSize maxLoss : TradingUtils.sizeValue) (explain : E)
| Failed (symbol : string) (error : string).

Arguments NoSignal {E}.
Arguments Position {E}.
Arguments Failed {E}.

(** The key [direction] of the response. *)
Definition reported_direction {E : Type} (a : Analysis E) : Signal :=
  match a with
  | NoSignal _ d _ _ _ => d
  | Position _ d _ _ _ _ _ _ _ _ => d
  | Failed _ _ => NO_TRADE
  end.

(** The key [confidence] of the response. *)
Definition reported_confidence {E : Type} (a : Analysis E) : R :=
  match a with
  | NoSignal _ _ c _ _ => c
  | Position _ _ c _ _ _ _ _ _ _ => c
  | Failed _ _ => 0
  end.

Section Adapter.

(** The module [./signal/ensemble]: the decision that its [analyze]
    resolves to, and the keys that the adapter reads of it. *)
Variables Decision Explain : Type.
Variable analyze : list Verdict -> Snapshot -> completion Decision.
Variable decision_direction : Decision -> Signal.
Variable decision_confidence : Decision -> R.
Variable decision_reason : Decision -> text.
Variable decision_levels : Decision -> option Levels.
Variable decision_explain : Decision -> Explain.

Variable RSI_calculate : list R -> nat -> completion (list R).
Variable BollingerBands_calculate : list R -> nat -> R -> completion (list BBand).

(** [parseFloat(process.env.ACCOUNT_BALANCE)] and
    [parseFloat(process.env.RISK_PERCENT)]; [None] is NaN. *)
Variables ACCOUNT_BALANCE RISK_PERCENT : option R.

(** [analyzeSymbol(symbol)]; [fetched] is what
    [DataService.fetchMultiTimeframeData(symbol)] settles to and [random]
    what [Math.random()] answers. *)
Definition analyzeSymbol (random : R) (symbol : string)
  (fetched : completion Snapshot) : Analysis Explain :=
  match
    data <- fetched ;;
    detectorResults <-
      SignalDetectors.runAllDetectors RSI_calculate BollingerBands_calculate
        random (Some data) (Some empty_config) ;;
    ensembleDecision <- analyze detectorResults data ;;
    match decision_direction ensembleDecision with
    | NO_TRADE | Trade NEUTRAL =>
        Normal (NoSignal symbol (decision_direction ensembleDecision)
                  (decision_confidence ensembleDecision)
                  (decision_reason ensembleDecision)
                  (decision_explain ensembleDecision))
    | Trade _ =>
        let accountBalance := or_default ACCOUNT_BALANCE 1000 in
        let riskPercent := or_default RISK_PERCENT 2 in
        e <- read "entry" entry (decision_levels ensembleDecision) ;;
        s <- read "sl" sl (decision_levels ensembleDecision) ;;
        let positionData :=
          TradingUtils.calculatePositionSize accountBalance riskPercent e s in
        t <- read "tp" tp (decision_levels ensembleDecision) ;;
        r <- read "rr" rr (decision_levels ensembleDecision) ;;
        Normal (Position symbol (decision_direction ensembleDecision)
                  (decision_confidence ensembleDecision) e s t r
                  (TradingUtils.size positionData)
                  (TradingUtils.maxLoss positionData)
                  (decision_explain ensembleDecision))
    end
  with
  | Normal response => response
  | Throw msg => Failed symbol msg
  end.

End Adapter.

(** [ensembleConfig]; [MIN_CONFIDENCE] is [process.env.MIN_CONFIDENCE]
    read as a number, [None] when it is not set. *)
Definition stable_ensemble (MIN_CONFIDENCE : option R) : EnsembleStable.Config :=
  EnsembleStable.constructor
    (EnsembleStable.mkOptions (Some (dflt MIN_CONFIDENCE 60)) (Some 2)).

Definition weighted_ensemble (MIN_CONFIDENCE : option R) : EnsembleWeighted.Config :=
  EnsembleWeighted.constructor
    (EnsembleWeighted.mkOptions (Some (dflt MIN_CONFIDENCE 60)) (Some 2)
       (Some EnsembleWeighted.default_detectorWeights) None).

(** The adapter over the simplified ensemble ([src/unnamed/part_001]). *)
Definition analyzeSymbol_stable (MIN_CONFIDENCE : option R) :=
  analyzeSymbol EnsembleStable.Decision EnsembleStable.Explain
    (EnsembleStable.analyze (stable_ensemble MIN_CONFIDENCE))
    EnsembleStable.dec_direction EnsembleStable.confidence
    EnsembleStable.dec_reason EnsembleStable.levels EnsembleStable.explain.

(** The adapter over the ensemble with detector weights
    ([src/unnamed/part_002]); [hour] is the hour on the clock. *)
Definition analyzeSymbol_weighted (MIN_CONFIDENCE : option R) (hour : Z) :=
  analyzeSymbol EnsembleWeighted.Decision EnsembleWeighted.Explain
    (EnsembleWeighted.analyze (weighted_ensemble MIN_CONFIDENCE) hour)
    EnsembleWeighted.dec_direction EnsembleWeighted.confidence
    EnsembleWeighted.dec_reason EnsembleWeighted.levels EnsembleWeighted.explain.

End AnalysisAdapter.

(** The volume on the three best levels of one side of the book. *)
Definition top_volume (levels : list (R * R)) : R :=
  sum (map snd (firstn 3 levels)).

(** The other side. *)
Definition opposite (d : Direction) : Direction :=
  match d with
  | LONG => SHORT
  | SHORT => LONG
  | NEUTRAL => NEUTRAL
  end.

(** Inputs on which the further properties are exercised. *)
Module MoreSamples.

(** A snapshot that holds an order book and nothing else. *)
Definition book_only (bs aks : list (R * R)) : Snapshot :=
  mkSnapshot None None None None
    (Some (mkOrderbook (Some (map Some bs)) (Some (map Some aks)))) None.

(** Three candles: a flat bar at 100, a bar that peaks at 102 and closes at
    101, a flat bar at 101. *)
Definition three_bars : list Candle :=
  [Samples.flat 100 9; mkCandle 0 100 102 100 101 19; Samples.flat 101 9].

(** [technicalindicators] out of order. *)
Definition RSI_unavailable (values : list R) (period : nat)
  : completion (list R) := Throw "unavailable".

Definition BollingerBands_unavailable (values : list R) (period : nat)
  (stdDev : R) : completion (list BBand) := Throw "unavailable".

(** Thirty flat bars of 15m history and fifteen of 1h. *)
Definition long_history : Snapshot :=
  mkSnapshot None (Some (map Some (repeat (Samples.flat 100 9) 30)))
    (Some (map Some (repeat (Samples.flat 100 9) 15))) None None None.

(** A verdict as a detector returns it before it has looked at the data. *)
Definition insufficient : Verdict :=
  SignalDetectors.with_weight (SignalDetectors.early "Insufficient data") 1.1.

End MoreSamples.

(* ================================================================== *)
(** * Properties *)
(* ================================================================== *)

(** ** Comparisons *)

Lemma Rltb_true x y : x < y -> Rltb x y = true.
Proof. intros H; unfold Rltb; destruct (Rlt_dec x y); [reflexivity | contradiction]. Qed.

Lemma Rltb_false x y : y <= x -> Rltb x y = false.
Proof. intros H; unfold Rltb; destruct (Rlt_dec x y); [lra | reflexivity]. Qed.

Lemma Rleb_true x y : x <= y -> Rleb x y = true.
Proof. intros H; unfold Rleb; destruct (Rle_dec x y); [reflexivity | contradiction]. Qed.

Lemma Rleb_false x y : y < x -> Rleb x y = false.
Proof. intros H; unfold Rleb; destruct (Rle_dec x y); [lra | reflexivity]. Qed.

Lemma Reqb_true x y : x = y -> Reqb x y = true.
Proof. intros H; unfold Reqb; destruct (Req_dec_T x y); [reflexivity | contradiction]. Qed.

Lemma Reqb_false x y : x <> y -> Reqb x y = false.
Proof. intros H; unfold Reqb; destruct (Req_dec_T x y); [contradiction | reflexivity]. Qed.

Lemma Rleb_spec x y : Rleb x y = true <-> x <= y.
Proof. unfold Rleb; destruct (Rle_dec x y); split; intros; [assumption | reflexivity | discriminate | contradiction]. Qed.

(** Comparisons, minima and maxima of numerals are settled by [lra]. *)
Ltac rdecide :=
  try unfold Rgtb; try unfold Rgeb;
  repeat match goal with
  | |- context [Rltb ?a ?b] =>
      first [rewrite (Rltb_true a b) by lra | rewrite (Rltb_false a b) by lra]
  | |- context [Rleb ?a ?b] =>
      first [rewrite (Rleb_true a b) by lra | rewrite (Rleb_false a b) by lra]
  | |- context [Reqb ?a ?b] =>
      first [rewrite (Reqb_true a b) by lra | rewrite (Reqb_false a b) by lra]
  end.

Ltac rminmax :=
  repeat match goal with
  | |- context [Rmax ?a ?b] =>
      first [rewrite (Rmax_left a b) by lra | rewrite (Rmax_right a b) by lra]
  | |- context [Rmin ?a ?b] =>
      first [rewrite (Rmin_left a b) by lra | rewrite (Rmin_right a b) by lra]
  end.

(** ** Rounding *)

Lemma Math_round_eq (z : Z) (x : R) :
  IZR z <= x + / 2 < IZR z + 1 -> Math_round x = IZR z.
Proof. intros H. unfold Math_round. rewrite (Zfloor_eq z); [reflexivity | exact H]. Qed.

Lemma Math_round_IZR (z : Z) : Math_round (IZR z) = IZR z.
Proof. apply Math_round_eq. lra. Qed.

Lemma round_half_away_IZR (z : Z) : round_half_away (IZR z) = z.
Proof.
  unfold round_half_away, Rltb.
  destruct (Rlt_dec (IZR z) 0).
  - rewrite <- opp_IZR. rewrite (Zfloor_eq (- z)); [lia | lra].
  - apply Zfloor_eq. lra.
Qed.

Lemma toFixed_exact (d : nat) (x : R) (z : Z) :
  x * 10 ^ d = IZR z -> toFixed d x = Fixed d z.
Proof. intros H. unfold toFixed. rewrite H, round_half_away_IZR. reflexivity. Qed.

(** ** Lists, windows and folds *)

Lemma mapM_read_some {A : Type} (prop : string) (f : Candle -> A) (cs : list Candle) :
  mapM (read prop f) (map Some cs) = Normal (map f cs).
Proof.
  induction cs as [| c cs IH]; simpl.
  - reflexivity.
  - rewrite IH. reflexivity.
Qed.

Lemma fold_left_Rmax_init (l : list R) (a : R) : a <= fold_left Rmax l a.
Proof.
  revert a; induction l as [| x l IH]; intros a; simpl.
  - lra.
  - apply Rle_trans with (Rmax a x); [apply Rmax_l | apply IH].
Qed.

Lemma fold_left_Rmax_in (l : list R) (a x : R) : In x l -> x <= fold_left Rmax l a.
Proof.
  revert a; induction l as [| y l IH]; intros a Hin; simpl in *.
  - contradiction.
  - destruct Hin as [-> | Hin].
    + apply Rle_trans with (Rmax a x); [apply Rmax_r | apply fold_left_Rmax_init].
    + apply IH; assumption.
Qed.

Lemma Math_max_ge (l : list R) (x : R) : In x l -> x <= Math_max l.
Proof.
  destruct l as [| a l]; simpl; intros Hin.
  - contradiction.
  - destruct Hin as [-> | Hin];
      [apply fold_left_Rmax_init | apply fold_left_Rmax_in; assumption].
Qed.

Lemma last_skipn {A : Type} (l : list A) (k : nat) (d : A) :
  (k < length l)%nat -> last (skipn k l) d = last l d.
Proof.
  revert k; induction l as [| x l IH]; intros k Hk; simpl in Hk.
  - lia.
  - destruct k as [| k]; [reflexivity |].
    cbn [skipn]. rewrite IH by lia.
    destruct l; [simpl in Hk; lia | reflexivity].
Qed.

Lemma last_In {A : Type} (l : list A) (d : A) : l <> [] -> In (last l d) l.
Proof.
  induction l as [| x l IH]; intros Hne; [congruence |].
  destruct l as [| y l]; [left; reflexivity |].
  right. apply IH. discriminate.
Qed.

Lemma slice_last_nonempty {A : Type} (n : nat) (l : list A) :
  l <> [] -> slice_last n l <> [].
Proof.
  intros Hne. destruct n as [| n]; [exact Hne |].
  unfold slice_last. intros H.
  assert (Hlen : length (skipn (length l - S n) l) = 0%nat) by (rewrite H; reflexivity).
  rewrite length_skipn in Hlen.
  destruct l; [congruence | cbn [length] in Hlen; lia].
Qed.

Lemma last_slice_last {A : Type} (n : nat) (l : list A) (d : A) :
  l <> [] -> last (slice_last n l) d = last l d.
Proof.
  intros Hne. destruct n as [| n]; [reflexivity |].
  unfold slice_last. apply last_skipn.
  destruct l; [congruence | simpl; lia].
Qed.

Lemma last_in_slice_last {A : Type} (n : nat) (l : list A) (d : A) :
  l <> [] -> In (last l d) (slice_last n l).
Proof.
  intros Hne. rewrite <- (last_slice_last n l d Hne).
  apply last_In, slice_last_nonempty, Hne.
Qed.

Lemma fold_left_Rmin_init (l : list R) (a : R) : fold_left Rmin l a <= a.
Proof.
  revert a; induction l as [| x l IH]; intros a; simpl.
  - lra.
  - apply Rle_trans with (Rmin a x); [apply IH | apply Rmin_l].
Qed.

Lemma fold_left_Rmin_in (l : list R) (a x : R) : In x l -> fold_left Rmin l a <= x.
Proof.
  revert a; induction l as [| y l IH]; intros a Hin; simpl in *.
  - contradiction.
  - destruct Hin as [-> | Hin].
    + apply Rle_trans with (Rmin a x); [apply fold_left_Rmin_init | apply Rmin_r].
    + apply IH; assumption.
Qed.

Lemma Math_min_le (l : list R) (x : R) : In x l -> Math_min l <= x.
Proof.
  destruct l as [| a l]; simpl; intros Hin.
  - contradiction.
  - destruct Hin as [-> | Hin];
      [apply fold_left_Rmin_init | apply fold_left_Rmin_in; assumption].
Qed.

(** ** The z-score and the standard deviation *)

Lemma calculateZScore_cons (value x : R) (t : list R) :
  let array := x :: t in
  let mean := sum array / INR (length array) in
  let var := fold_left (fun sq n => sq + (n - mean) ^ 2) array 0 / INR (length array) in
  TradingUtils.calculateZScore value array
  = if Reqb (sqrt var) 0 then 0 else (value - mean) / sqrt var.
Proof. reflexivity. Qed.

(** A value further above the mean than one standard deviation. *)
Lemma calculateZScore_gt_1 (value mean var : R) (array : list R) :
  array <> [] ->
  sum array / INR (length array) = mean ->
  fold_left (fun sq n => sq + (n - mean) ^ 2) array 0 / INR (length array) = var ->
  0 < var -> 0 < value - mean -> var < (value - mean) ^ 2 ->
  1 < TradingUtils.calculateZScore value array.
Proof.
  intros Hne Hmean Hvar Hpos Hd Hlt.
  destruct array as [| x t]; [congruence |].
  rewrite calculateZScore_cons. cbv zeta. rewrite Hmean, Hvar.
  assert (Hs : 0 < sqrt var) by (apply sqrt_lt_R0; exact Hpos).
  rewrite Reqb_false by lra.
  assert (Hsd : sqrt var < value - mean).
  { rewrite <- (sqrt_pow2 (value - mean)) by lra.
    apply sqrt_lt_1; lra. }
  apply Rmult_lt_reg_r with (sqrt var); [exact Hs |].
  unfold Rdiv. rewrite Rmult_assoc, Rinv_l by lra. lra.
Qed.

Lemma Math_std_eq (mean var : R) (arr : list R) :
  arr <> [] ->
  sum arr / INR (length arr) = mean ->
  fold_left (fun sq n => sq + (n - mean) ^ 2) arr 0 / INR (length arr) = var ->
  Math_std arr = sqrt var.
Proof.
  intros Hne Hmean Hvar. destruct arr as [| x t]; [congruence |].
  unfold Math_std. cbv zeta. rewrite Hmean, Hvar. reflexivity.
Qed.

(** ** Momentum breakout: the resistance window holds the current bar *)

Section MomentumFacts.

Import SignalDetectors.
Import SignalDetectors.MomentumBreakout.

Variables (bp : nat) (vm mbp : R).
Variables (closes volumes highs : list R).

(** The window of [recentHigh] ends with the bar whose high is tested
    against it, so the current high never exceeds the resistance. *)
Lemma currentHigh_le_recentHigh :
  highs <> [] -> currentHigh highs <= recentHigh bp highs.
Proof.
  intros Hne. unfold currentHigh, recentHigh.
  apply Math_max_ge, last_in_slice_last, Hne.
Qed.

Lemma isBreakout_false :
  highs <> [] -> 0 < currentHigh highs -> 0 < mbp ->
  isBreakout bp mbp highs = false.
Proof.
  intros Hne Hpos Hm. unfold isBreakout, Rgeb.
  apply Rleb_false.
  pose proof (currentHigh_le_recentHigh Hne) as Hle.
  assert (0 < recentHigh bp highs) by lra.
  assert (0 < recentHigh bp highs * (mbp / 100)) by (apply Rmult_lt_0_compat; lra).
  lra.
Qed.

(** With positive prices and a positive breakout threshold the LONG branch
    is never taken. *)
Lemma verdict_never_LONG :
  highs <> [] -> 0 < currentHigh highs -> 0 < mbp ->
  direction (verdict bp vm mbp closes volumes highs) <> LONG.
Proof.
  intros Hne Hpos Hm. unfold verdict, outcome.
  rewrite (isBreakout_false Hne Hpos Hm). cbn [andb].
  destruct (Rltb (currentClose closes) (recentLow bp highs * 0.99)
            && hasVolumeSpike bp vm volumes)%bool; cbn; discriminate.
Qed.

End MomentumFacts.

(** ** Momentum breakout on arrays without holes *)

Section MomentumRuns.

Import SignalDetectors SignalDetectors.MomentumBreakout Samples.

Lemma momentumBreakout_try_clean (bp : nat) (vm mbp : R) (d : Snapshot) (cs : list Candle) :
  tf15m d = Some (map Some cs) -> (bp + 5 <= length cs)%nat ->
  momentumBreakout_try bp vm mbp (Some d)
  = Normal (verdict bp vm mbp (map close cs) (map volume cs) (map high cs)).
Proof.
  intros Hd Hlen. unfold momentumBreakout_try, frame. cbn [read bind].
  rewrite Hd. cbn [or_empty]. rewrite length_map.
  replace (Nat.ltb (length cs) (bp + 5)) with false
    by (symmetry; apply Nat.ltb_ge; exact Hlen).
  rewrite !mapM_read_some. reflexivity.
Qed.

Lemma momentumBreakoutDetector_clean (d : Snapshot) (cs : list Candle) :
  tf15m d = Some (map Some cs) -> (25 <= length cs)%nat ->
  momentumBreakoutDetector (Some d) (Some empty_config)
  = Normal (verdict 20 1.5 1.0 (map close cs) (map volume cs) (map high cs)).
Proof.
  intros Hd Hlen. unfold momentumBreakoutDetector. cbn [destructure bind empty_config
    breakoutPeriod volumeMultiplier minBreakoutPercent dflt].
  rewrite (momentumBreakout_try_clean _ _ _ d cs Hd) by (simpl; lia).
  reflexivity.
Qed.

Ltac window :=
  cbn [breakout_bars breakdown_bars flat repeat app map close volume high low open
       slice_last slice length Nat.sub Nat.add skipn firstn last
       Math_max Math_min fold_left sum].

Lemma breakout_bars_volumeZScore :
  1 < volumeZScore 20 (map volume breakout_bars).
Proof.
  unfold volumeZScore, currentVolume. window.
  apply calculateZScore_gt_1 with (mean := 9.5) (var := 4.75).
  - discriminate.
  - window. rewrite INR_IZR_INZ. cbn [Z.of_nat Pos.of_succ_nat Pos.succ]. lra.
  - window. rewrite INR_IZR_INZ. cbn [Z.of_nat Pos.of_succ_nat Pos.succ]. lra.
  - lra.
  - lra.
  - lra.
Qed.

Lemma breakdown_bars_volumeZScore :
  1 < volumeZScore 20 (map volume breakdown_bars).
Proof.
  unfold volumeZScore, currentVolume. window.
  apply calculateZScore_gt_1 with (mean := 9.5) (var := 4.75).
  - discriminate.
  - window. rewrite INR_IZR_INZ. cbn [Z.of_nat Pos.of_succ_nat Pos.succ]. lra.
  - window. rewrite INR_IZR_INZ. cbn [Z.of_nat Pos.of_succ_nat Pos.succ]. lra.
  - lra.
  - lra.
  - lra.
Qed.

Lemma sample_volumeMA :
  volumeMA 20 (map volume breakout_bars) = 9.5
  /\ volumeMA 20 (map volume breakdown_bars) = 9.5.
Proof.
  unfold volumeMA; split; window;
    rewrite INR_IZR_INZ; cbn [Z.of_nat Pos.of_succ_nat Pos.succ]; lra.
Qed.

(** C1.  The bar described by the claim: 25 bars of 15m history, the last
    high 2% above the highest of the 20 bars before it, the last volume
    twice the 20-bar mean and more than one standard deviation above it.
    Under the default options the detector answers NEUTRAL with score 0:
    the resistance [recentHigh] is taken over a window that ends with the
    current bar, so it is the current high itself and the test
    [currentHigh >= recentHigh * 1.01] fails. *)
Theorem momentumBreakout_misses_breakout :
  length breakout_bars = 25%nat
  /\ currentHigh (map high breakout_bars)
     = Math_max (map high (slice 4 24 breakout_bars)) * 1.02
  /\ currentVolume (map volume breakout_bars)
     = 2 * volumeMA 20 (map volume breakout_bars)
  /\ 1 < volumeZScore 20 (map volume breakout_bars)
  /\ exists v,
       momentumBreakoutDetector (Some (only15m breakout_bars)) (Some empty_config)
       = Normal v
       /\ direction v = NEUTRAL /\ score v = 0
       /\ reason v = [Txt "No breakout detected"].
Proof.
  split; [reflexivity |].
  split; [unfold currentHigh; window; rminmax; lra |].
  split; [rewrite (proj1 sample_volumeMA); unfold currentVolume; window; lra |].
  split; [exact breakout_bars_volumeZScore |].
  eexists. split.
  - apply momentumBreakoutDetector_clean with (cs := breakout_bars);
      [reflexivity | simpl; lia].
  - unfold verdict, outcome.
    rewrite isBreakout_false;
      [| discriminate | unfold currentHigh; window; lra | lra].
    cbn [andb].
    replace (Rltb (currentClose (map close breakout_bars))
               (recentLow 20 (map high breakout_bars) * 0.99)) with false.
    + cbn. rewrite (Math_round_IZR 0). repeat split; reflexivity.
    + symmetry. apply Rltb_false.
      unfold currentClose, recentLow. window. rminmax. lra.
Qed.

Lemma recentLow_le_currentHigh (bp : nat) (highs : list R) :
  highs <> [] -> recentLow bp highs <= currentHigh highs.
Proof.
  intros Hne. unfold recentLow, currentHigh.
  apply Math_min_le, last_in_slice_last, Hne.
Qed.

(** The [else if] branch: what the verdict is when it is taken. *)
Lemma verdict_breakdown (bp : nat) (vm mbp : R) (closes volumes highs : list R) :
  highs <> [] -> 0 < recentLow bp highs -> 0 < mbp ->
  currentClose closes < recentLow bp highs * 0.99 ->
  hasVolumeSpike bp vm volumes = true ->
  direction (verdict bp vm mbp closes volumes highs) = SHORT
  /\ score (verdict bp vm mbp closes volumes highs)
     = Math_round (Rmin 100 (breakdownStrength bp closes highs * 1.5)).
Proof.
  intros Hne Hlow Hm Hclose Hvol.
  pose proof (recentLow_le_currentHigh bp highs Hne) as Hle.
  unfold verdict, outcome.
  rewrite isBreakout_false by (try assumption; lra).
  rewrite Hvol, (Rltb_true _ _ Hclose). cbn. split; reflexivity.
Qed.

Lemma hasVolumeSpike_true (bp : nat) (vm : R) (volumes : list R) :
  1 < volumeZScore bp volumes ->
  volumeMA bp volumes * vm < currentVolume volumes ->
  hasVolumeSpike bp vm volumes = true.
Proof.
  intros Hz Hv. unfold hasVolumeSpike, Rgtb.
  rewrite (Rltb_true _ _ Hz), (Rltb_true _ _ Hv). reflexivity.
Qed.

Lemma map_nonempty {A B : Type} (f : A -> B) (l : list A) (n : nat) :
  (S n <= length l)%nat -> map f l <> [].
Proof. destruct l; simpl; [lia | discriminate]. Qed.

(** The [else if] branch as the code has it, under the default options:
    the level [recentLow] of the code is the smallest of the last twenty
    highs, the current one among them, not a low.  When the current close
    is below 0.99 times that level and the volume confirmation holds, the
    verdict is SHORT and its score is [min(100, breakdownStrength * 1.5)]
    rounded by [Math.round]. *)
Theorem momentumBreakout_breakdown_SHORT (d : Snapshot) (cs : list Candle) :
  tf15m d = Some (map Some cs) ->
  (25 <= length cs)%nat ->
  0 < recentLow 20 (map high cs) ->
  currentClose (map close cs) < recentLow 20 (map high cs) * 0.99 ->
  1 < volumeZScore 20 (map volume cs) ->
  volumeMA 20 (map volume cs) * 1.5 < currentVolume (map volume cs) ->
  exists v,
    momentumBreakoutDetector (Some d) (Some empty_config) = Normal v
    /\ direction v = SHORT
    /\ score v
       = Math_round
           (Rmin 100
              ((recentLow 20 (map high cs) - currentClose (map close cs))
               / recentLow 20 (map high cs) * 100 * 1.5)).
Proof.
  intros Hd Hlen Hlow Hclose Hz Hv.
  eexists. split; [apply momentumBreakoutDetector_clean with (cs := cs); assumption |].
  apply verdict_breakdown; try assumption.
  - apply map_nonempty with (n := 24%nat). exact Hlen.
  - lra.
  - apply hasVolumeSpike_true; assumption.
Qed.

(** With the default options the detector never answers LONG on a 15m
    series of positive highs, however long the series and whatever the
    volumes. *)
Lemma momentumBreakoutDetector_never_LONG (d : Snapshot) (cs : list Candle) :
  tf15m d = Some (map Some cs) ->
  (forall c, In c cs -> 0 < high c) ->
  exists v,
    momentumBreakoutDetector (Some d) (Some empty_config) = Normal v
    /\ direction v <> LONG.
Proof.
  intros Hd Hpos.
  destruct (Nat.ltb (length cs) 25) eqn:Hlen.
  - unfold momentumBreakoutDetector, momentumBreakout_try, frame.
    cbn [destructure bind read empty_config breakoutPeriod dflt].
    rewrite Hd. cbn [or_empty]. rewrite length_map.
    replace (20 + 5)%nat with 25%nat by reflexivity. rewrite Hlen.
    cbn [try_catch]. eexists. split; [reflexivity | discriminate].
  - apply Nat.ltb_ge in Hlen.
    eexists. split; [apply momentumBreakoutDetector_clean with (cs := cs); assumption |].
    assert (Hne : map high cs <> []) by (apply map_nonempty with (n := 24%nat); exact Hlen).
    apply verdict_never_LONG; [exact Hne | | lra].
    unfold currentHigh.
    destruct (proj1 (in_map_iff high cs (last (map high cs) 0))
                (last_In (map high cs) 0 Hne)) as (c & <- & Hc).
    apply Hpos. exact Hc.
Qed.

Lemma breakdown_bars_levels :
  recentLow 20 (map high breakdown_bars) = 100
  /\ currentClose (map close breakdown_bars) = 95
  /\ currentVolume (map volume breakdown_bars) = 19.
Proof.
  unfold recentLow, currentClose, currentVolume. window. rminmax.
  repeat split; reflexivity.
Qed.

Lemma momentumBreakout_breakdown_SHORT_witness :
  exists v,
    momentumBreakoutDetector (Some (only15m breakdown_bars)) (Some empty_config)
    = Normal v
    /\ direction v = SHORT
    /\ score v
       = Math_round
           (Rmin 100
              ((recentLow 20 (map high breakdown_bars)
                - currentClose (map close breakdown_bars))
               / recentLow 20 (map high breakdown_bars) * 100 * 1.5)).
Proof.
  destruct breakdown_bars_levels as (Hl & Hc & Hv).
  apply (momentumBreakout_breakdown_SHORT (only15m breakdown_bars) breakdown_bars).
  - reflexivity.
  - simpl; lia.
  - rewrite Hl; lra.
  - rewrite Hl, Hc; lra.
  - exact breakdown_bars_volumeZScore.
  - rewrite (proj2 sample_volumeMA), Hv; lra.
Defined.

(** The score is rounded: on [breakdown_bars] the close undercuts the level
    by 5 percent, [min(100, 5 * 1.5)] is 7.5, and the score of the verdict
    is 8. *)
Lemma momentumBreakout_breakdown_score_is_rounded :
  (25 <= length breakdown_bars)%nat
  /\ currentClose (map close breakdown_bars)
     < 0.99 * recentLow 20 (map high breakdown_bars)
  /\ 1 < volumeZScore 20 (map volume breakdown_bars)
  /\ volumeMA 20 (map volume breakdown_bars) * 1.5
     < currentVolume (map volume breakdown_bars)
  /\ Rmin 100 (breakdownStrength 20 (map close breakdown_bars)
                 (map high breakdown_bars) * 1.5) = 7.5
  /\ exists v,
       momentumBreakoutDetector (Some (only15m breakdown_bars)) (Some empty_config)
       = Normal v
       /\ direction v = SHORT
       /\ score v = 8
       /\ score v <> Rmin 100 (breakdownStrength 20 (map close breakdown_bars)
                                (map high breakdown_bars) * 1.5).
Proof.
  destruct breakdown_bars_levels as (Hl & Hc & Hv).
  assert (Hs : Rmin 100 (breakdownStrength 20 (map close breakdown_bars)
                           (map high breakdown_bars) * 1.5) = 7.5).
  { unfold breakdownStrength. rewrite Hl, Hc. rminmax. lra. }
  split; [simpl; lia |].
  split; [rewrite Hl, Hc; lra |].
  split; [exact breakdown_bars_volumeZScore |].
  split; [rewrite (proj2 sample_volumeMA), Hv; lra |].
  split; [exact Hs |].
  eexists. split.
  - apply momentumBreakoutDetector_clean with (cs := breakdown_bars);
      [reflexivity | simpl; lia].
  - destruct (verdict_breakdown 20 1.5 1.0 (map close breakdown_bars)
                (map volume breakdown_bars) (map high breakdown_bars))
      as [Hdir Hscore].
    + discriminate.
    + rewrite Hl; lra.
    + lra.
    + rewrite Hl, Hc; lra.
    + apply hasVolumeSpike_true;
        [exact breakdown_bars_volumeZScore
        | rewrite (proj2 sample_volumeMA), Hv; lra].
    + assert (H8 : score (verdict 20 1.5 1.0 (map close breakdown_bars)
                           (map volume breakdown_bars) (map high breakdown_bars)) = 8).
      { rewrite Hscore, Hs. apply (Math_round_eq 8). lra. }
      split; [exact Hdir |]. split; [exact H8 |].
      rewrite H8, Hs. lra.
Qed.

(** *** A breakdown that opens below the earlier bars *)

Lemma gap_down_bars_levels :
  Math_min (map low (slice 4 24 gap_down_bars)) = 100
  /\ recentLow 20 (map high gap_down_bars) = 95.5
  /\ currentClose (map close gap_down_bars) = 95
  /\ currentHigh (map high gap_down_bars) = 95.5
  /\ currentVolume (map volume gap_down_bars) = 19.
Proof.
  unfold recentLow, currentClose, currentHigh, currentVolume, gap_down_bars.
  window. rminmax. repeat split; reflexivity.
Qed.

(** C5.  The bar described by the claim: 25 bars of 15m history, the last
    close 5% below the lowest low of the 20 bars before it, the last volume
    twice the 20-bar mean and more than one standard deviation above it.
    Under the default options the detector answers NEUTRAL with score 0,
    not SHORT with score 7.5: the level [recentLow] is the smallest of the
    last twenty highs, the current high among them, so on a bar that opens
    below the earlier bars it is that bar's own high, 95.5, and the test
    [currentClose < recentLow * 0.99] fails. *)
Theorem momentumBreakout_misses_breakdown :
  length gap_down_bars = 25%nat
  /\ currentClose (map close gap_down_bars)
     = 0.95 * Math_min (map low (slice 4 24 gap_down_bars))
  /\ currentClose (map close gap_down_bars)
     < 0.99 * Math_min (map low (slice 4 24 gap_down_bars))
  /\ currentVolume (map volume gap_down_bars)
     = 2 * volumeMA 20 (map volume gap_down_bars)
  /\ 1 < volumeZScore 20 (map volume gap_down_bars)
  /\ recentLow 20 (map high gap_down_bars)
     = currentHigh (map high gap_down_bars)
  /\ exists v,
       momentumBreakoutDetector (Some (only15m gap_down_bars)) (Some empty_config)
       = Normal v
       /\ direction v = NEUTRAL /\ score v = 0
       /\ reason v = [Txt "No breakout detected"].
Proof.
  destruct gap_down_bars_levels as (Hlow & Hlevel & Hclose & Hhigh & Hvol).
  assert (Hma : volumeMA 20 (map volume gap_down_bars) = 9.5).
  { change (map volume gap_down_bars) with (map volume breakdown_bars).
    exact (proj2 sample_volumeMA). }
  split; [reflexivity |].
  split; [rewrite Hlow, Hclose; lra |].
  split; [rewrite Hlow, Hclose; lra |].
  split; [rewrite Hma, Hvol; lra |].
  split.
  { change (map volume gap_down_bars) with (map volume breakdown_bars).
    exact breakdown_bars_volumeZScore. }
  split; [rewrite Hlevel, Hhigh; reflexivity |].
  eexists. split.
  - apply momentumBreakoutDetector_clean with (cs := gap_down_bars);
      [reflexivity | simpl; lia].
  - unfold verdict, outcome.
    rewrite isBreakout_false; [| discriminate | rewrite Hhigh; lra | lra].
    cbn [andb].
    replace (Rltb (currentClose (map close gap_down_bars))
               (recentLow 20 (map high gap_down_bars) * 0.99)) with false
      by (symmetry; apply Rltb_false; rewrite Hlevel, Hclose; lra).
    cbn. rewrite (Math_round_IZR 0). repeat split; reflexivity.
Qed.

End MomentumRuns.

(** ** The detector suite *)

Section SuiteFacts.

Import SignalDetectors Samples.

Variable RSI_calculate : list R -> nat -> completion (list R).
Variable BollingerBands_calculate : list R -> nat -> R -> completion (list BBand).

Lemma run_one_pushed (data : option Snapshot) (config : option DetectorConfig)
  (detector : Registered) :
  run_one data config detector = Normal (pushed data config detector).
Proof.
  unfold run_one, pushed.
  destruct (fn detector data config); reflexivity.
Qed.

Lemma loop_pushed (data : option Snapshot) (config : option DetectorConfig)
  (dets : list Registered) (acc : list Verdict) :
  fold_left
    (fun results detector =>
       rs <- results ;; v <- run_one data config detector ;; Normal (rs ++ [v]))
    dets (Normal acc)
  = Normal (acc ++ map (pushed data config) dets).
Proof.
  revert acc; induction dets as [| det dets IH]; intros acc; cbn [fold_left map].
  - rewrite app_nil_r. reflexivity.
  - cbn [bind]. rewrite run_one_pushed. cbn [bind].
    rewrite IH, <- app_assoc. reflexivity.
Qed.

Lemma runAllDetectors_pushed (random : R) (data : option Snapshot)
  (config : option DetectorConfig) :
  runAllDetectors RSI_calculate BollingerBands_calculate random data config
  = Normal (map (pushed data config)
              (detectors RSI_calculate BollingerBands_calculate random)).
Proof. unfold runAllDetectors. apply loop_pushed. Qed.





(** *** The regime-break sample *)

Lemma regime_break_priceChanges :
  priceChanges (map Some regime_break_bars) = Normal regime_break_changes.
Proof.
  unfold regime_break_bars, regime_break_changes, flat.
  cbn [priceChanges priceChanges_from read bind map repeat app close].
  apply f_equal. repeat (apply f_equal2; [lra |]). reflexivity.
Qed.

Lemma regime_break_std :
  Math_std regime_break_changes = sqrt (1 / 25)
  /\ Math_std (slice_last 5 regime_break_changes) = sqrt (1 / 5).
Proof.
  split; apply Math_std_eq with (mean := 0); try discriminate;
    unfold regime_break_changes;
    cbn [repeat app slice_last length Nat.sub skipn sum fold_left];
    rewrite INR_IZR_INZ; cbn [Z.of_nat Pos.of_succ_nat Pos.succ]; lra.
Qed.

Lemma regime_break_volatility :
  Math_std regime_break_changes * 100 * 2
  < Math_std (slice_last 5 regime_break_changes) * 100.
Proof.
  destruct regime_break_std as [-> ->].
  assert (H1 : sqrt (1 / 25) = 1 / 5).
  { replace (1 / 25) with ((1 / 5) * (1 / 5)) by lra. apply sqrt_square. lra. }
  assert (H2 : sqrt (4 / 25) = 2 / 5).
  { replace (4 / 25) with ((2 / 5) * (2 / 5)) by lra. apply sqrt_square. lra. }
  assert (H3 : sqrt (4 / 25) < sqrt (1 / 5)) by (apply sqrt_lt_1; lra).
  lra.
Qed.

(** Whenever the regime break is flagged, the direction of the verdict is
    whatever [Math.random()] decides. *)
Lemma correlationBreak_follows_random (random : R) (d : Snapshot)
  (config : option DetectorConfig) (changes : list R) :
  (10 <= length (or_empty (tf1h d)))%nat ->
  priceChanges (or_empty (tf1h d)) = Normal changes ->
  Math_std changes * 100 * 2 < Math_std (slice_last 5 changes) * 100 ->
  exists v,
    correlationBreakDetector random (Some d) config = Normal v
    /\ direction v = if Rgtb random 0.5 then LONG else SHORT.
Proof.
  intros Hlen Hchanges Hvol.
  unfold correlationBreakDetector, correlationBreak_try, frame.
  cbn [read bind].
  replace (Nat.ltb (length (or_empty (tf1h d))) 10) with false
    by (symmetry; apply Nat.ltb_ge; exact Hlen).
  rewrite Hchanges. cbn [bind].
  unfold Rgtb at 1. rewrite (Rltb_true _ _ Hvol).
  cbn [try_catch]. eexists. split; reflexivity.
Qed.

(** On the sample the regime break is flagged. *)
Lemma correlationBreak_regime_break (random : R) (config : option DetectorConfig) :
  exists v,
    correlationBreakDetector random (Some (only1h regime_break_bars)) config
    = Normal v
    /\ direction v = if Rgtb random 0.5 then LONG else SHORT.
Proof.
  apply correlationBreak_follows_random with (changes := regime_break_changes).
  - simpl. lia.
  - exact regime_break_priceChanges.
  - exact regime_break_volatility.
Qed.

(** C10.  [correlationBreakDetector] is not a function of the snapshot
    alone.  On [regime_break_bars] (26 hourly bars, the volatility of the
    last five returns more than twice that of the whole history) the
    verdict is LONG when [Math.random()] answers 0.75 and SHORT when it
    answers 0.25, and two runs of [runAllDetectors] on that snapshot that
    meet these two draws return different lists. *)
Theorem correlationBreak_not_deterministic :
  (10 <= length regime_break_bars)%nat
  /\ (exists changes,
        priceChanges (map Some regime_break_bars) = Normal changes
        /\ Math_std changes * 100 * 2 < Math_std (slice_last 5 changes) * 100)
  /\ (exists v1 v2,
        correlationBreakDetector 0.75 (Some (only1h regime_break_bars))
          (Some empty_config) = Normal v1
        /\ correlationBreakDetector 0.25 (Some (only1h regime_break_bars))
             (Some empty_config) = Normal v2
        /\ direction v1 = LONG /\ direction v2 = SHORT)
  /\ (forall config,
        runAllDetectors RSI_calculate BollingerBands_calculate 0.75
          (Some (only1h regime_break_bars)) config
        <> runAllDetectors RSI_calculate BollingerBands_calculate 0.25
             (Some (only1h regime_break_bars)) config).
Proof.
  assert (Hhi : Rgtb 0.75 0.5 = true) by (apply Rltb_true; lra).
  assert (Hlo : Rgtb 0.25 0.5 = false) by (apply Rltb_false; lra).
  split; [simpl; lia |].
  split.
  { exists regime_break_changes.
    split; [exact regime_break_priceChanges | exact regime_break_volatility]. }
  split.
  { destruct (correlationBreak_regime_break 0.75 (Some empty_config)) as (v1 & E1 & D1).
    destruct (correlationBreak_regime_break 0.25 (Some empty_config)) as (v2 & E2 & D2).
    exists v1, v2. rewrite Hhi in D1. rewrite Hlo in D2. auto. }
  intros config Heq.
  rewrite !runAllDetectors_pushed in Heq.
  unfold detectors in Heq. cbn [map] in Heq.
  injection Heq as Hlast.
  unfold pushed in Hlast. cbn [fn fn_weight] in Hlast.
  destruct (correlationBreak_regime_break 0.75 config) as (v1 & E1 & D1).
  destruct (correlationBreak_regime_break 0.25 config) as (v2 & E2 & D2).
  rewrite E1, E2 in Hlast. rewrite Hhi in D1. rewrite Hlo in D2.
  apply (f_equal direction) in Hlast. cbn [with_weight direction] in Hlast.
  congruence.
Qed.

End SuiteFacts.

(** ** Position sizing *)

(** C8.  When [entry] equals [stopLoss] the result is [{size: 0, maxLoss: 0}],
    in particular for [(1000, 2, 100, 100)]; and in every call either that
    object is returned or the divisor [|entry - stopLoss|] of the quotient
    that is formed is not zero. *)
Theorem calculatePositionSize_zero_risk :
  (forall accountBalance riskPercent entry,
      TradingUtils.calculatePositionSize accountBalance riskPercent entry entry
      = TradingUtils.mkPositionSizing (TradingUtils.SizeNum 0) (TradingUtils.SizeNum 0))
  /\ TradingUtils.calculatePositionSize 1000 2 100 100
     = TradingUtils.mkPositionSizing (TradingUtils.SizeNum 0) (TradingUtils.SizeNum 0)
  /\ (forall accountBalance riskPercent entry stopLoss,
        TradingUtils.calculatePositionSize accountBalance riskPercent entry stopLoss
        = TradingUtils.mkPositionSizing (TradingUtils.SizeNum 0) (TradingUtils.SizeNum 0)
        \/ (Rabs (entry - stopLoss) <> 0
            /\ TradingUtils.calculatePositionSize accountBalance riskPercent entry stopLoss
               = TradingUtils.mkPositionSizing
                   (TradingUtils.SizeStr
                      (toFixed 8 (accountBalance * (riskPercent / 100)
                                  / Rabs (entry - stopLoss))))
                   (TradingUtils.SizeStr
                      (toFixed 2 (accountBalance * (riskPercent / 100)))))).
Proof.
  assert (Hzero : forall b r e,
             TradingUtils.calculatePositionSize b r e e
             = TradingUtils.mkPositionSizing (TradingUtils.SizeNum 0)
                 (TradingUtils.SizeNum 0)).
  { intros b r e. unfold TradingUtils.calculatePositionSize.
    replace (e - e) with 0 by lra. rewrite Rabs_R0, Reqb_true; reflexivity. }
  split; [exact Hzero |]. split; [apply Hzero |].
  intros b r e s0. unfold TradingUtils.calculatePositionSize.
  destruct (Reqb (Rabs (e - s0)) 0) eqn:E.
  - left; reflexivity.
  - right. split; [| reflexivity].
    intros H. rewrite (Reqb_true _ _ H) in E. discriminate.
Qed.

(** ** Agreement: the majority entry *)

Lemma majority_entry_eq (t : Tally) :
  majority_entry t
  = if Nat.ltb (n_LONG t) (n_SHORT t)
    then Some (SHORT, n_SHORT t) else Some (LONG, n_LONG t).
Proof.
  unfold majority_entry, entries, sort_desc.
  cbn [filter fst Direction_eqb negb fold_left insert_desc snd].
  destruct (Nat.ltb (n_LONG t) (n_SHORT t)); reflexivity.
Qed.

(** ** The simplified and stable ensemble *)

Section StableFacts.

Import EnsembleStable Samples.

Lemma tally_fold (vs : list Verdict) (t0 : Tally) :
  let t :=
    fold_left
      (fun dirs detector =>
         if andb (negb (Direction_eqb (direction detector) NEUTRAL))
                 (Rgtb (score detector) 40)
         then increment dirs (direction detector)
         else dirs)
      vs t0 in
  n_LONG t = (n_LONG t0 + length (filter (material LONG) vs))%nat
  /\ n_SHORT t = (n_SHORT t0 + length (filter (material SHORT) vs))%nat
  /\ n_NEUTRAL t = n_NEUTRAL t0.
Proof.
  revert t0; induction vs as [| v vs IH]; intros t0; cbn [fold_left filter].
  - cbn. repeat split; lia.
  - specialize (IH (if andb (negb (Direction_eqb (direction v) NEUTRAL))
                             (Rgtb (score v) 40)
                    then increment t0 (direction v) else t0)).
    cbv zeta in IH. destruct IH as (HL & HS & HN).
    rewrite HL, HS, HN. unfold material.
    destruct (direction v); cbn [Direction_eqb negb andb];
      destruct (Rgtb (score v) 40); cbn [increment n_LONG n_SHORT n_NEUTRAL length];
      repeat split; lia.
Qed.

(** The tallies of the simplified ensemble. *)
Lemma stable_agreement_counts (vs : list Verdict) :
  n_LONG (directions (calculateDetectorAgreement vs))
  = length (filter (material LONG) vs)
  /\ n_SHORT (directions (calculateDetectorAgreement vs))
     = length (filter (material SHORT) vs)
  /\ n_NEUTRAL (directions (calculateDetectorAgreement vs)) = 0%nat.
Proof.
  unfold calculateDetectorAgreement. cbn [directions].
  destruct (tally_fold vs (mkTally 0 0 0)) as (HL & HS & HN).
  cbn [n_LONG n_SHORT n_NEUTRAL] in *. repeat split; assumption.
Qed.

Lemma majorityDirection_not_NEUTRAL (vs : list Verdict) :
  majorityDirection (calculateDetectorAgreement vs) <> NEUTRAL.
Proof.
  unfold calculateDetectorAgreement. cbn [majorityDirection].
  rewrite majority_entry_eq.
  destruct (Nat.ltb _ _); discriminate.
Qed.

Lemma metaScore_below_agreement (config : Config) (vs : list Verdict) (a : Agreement) :
  INR (majorityCount a) < minDetectorAgreement config ->
  calculateMetaScore config vs a = 0.
Proof.
  intros H. unfold calculateMetaScore. rewrite (Rltb_true _ _ H). reflexivity.
Qed.

(** The gate of the simplified ensemble. *)
Lemma stable_gate (config : Config) (vs : list Verdict) (data : Snapshot) :
  let agreement := calculateDetectorAgreement vs in
  let metaScore := calculateMetaScore config vs agreement in
  (forall dec d,
      analyze config vs data = Normal dec -> dec_direction dec = Trade d ->
      d = majorityDirection agreement
      /\ majorityDirection agreement <> NEUTRAL
      /\ minDetectorAgreement config <= INR (majorityCount agreement)
      /\ minConfidence config <= metaScore)
  /\ (INR (majorityCount agreement) < minDetectorAgreement config ->
      metaScore = 0
      /\ exists dec,
           analyze config vs data = Normal dec /\ dec_direction dec = NO_TRADE).
Proof.
  intros agreement metaScore. split.
  - intros dec d Hrun Hdir. unfold analyze in Hrun.
    fold agreement in Hrun. fold metaScore in Hrun.
    destruct (Rgeb metaScore (minConfidence config)) eqn:Hc;
      destruct (Rgeb (INR (majorityCount agreement)) (minDetectorAgreement config)) eqn:Ha;
      cbn [andb] in Hrun;
      try (injection Hrun as <-; cbn in Hdir; discriminate).
    destruct (generateLevels _ _ data) as [lv | msg]; cbn [bind] in Hrun;
      [| discriminate].
    injection Hrun as <-. cbn in Hdir. injection Hdir as <-.
    apply Rleb_spec in Hc. apply Rleb_spec in Ha.
    repeat split; try assumption.
    apply majorityDirection_not_NEUTRAL.
  - intros Hlow. split.
    + apply metaScore_below_agreement. exact Hlow.
    + unfold analyze. fold agreement.
      replace (Rgeb (INR (majorityCount agreement)) (minDetectorAgreement config))
        with false by (symmetry; apply Rleb_false; exact Hlow).
      rewrite andb_false_r. eexists. split; reflexivity.
Qed.

Lemma generateDefaultLevels_LONG_100 :
  generateDefaultLevels LONG 100 = mkLevels 100 98 103.6 (Fixed 2 180).
Proof.
  unfold generateDefaultLevels. cbn [Direction_eqb].
  replace (100 * (1 - 0.02)) with 98 by lra.
  replace (Rabs (100 - 98)) with 2 by (rewrite Rabs_pos_eq; lra).
  replace (100 + 2 * 1.8) with 103.6 by lra.
  replace (Rabs (103.6 - 100)) with 3.6 by (rewrite Rabs_pos_eq; lra).
  rewrite (toFixed_exact 4 100 1000000) by (simpl pow; lra).
  rewrite (toFixed_exact 4 98 980000) by (simpl pow; lra).
  rewrite (toFixed_exact 4 103.6 1036000) by (simpl pow; lra).
  rewrite (toFixed_exact 2 (3.6 / 2) 180) by (simpl pow; lra).
  unfold parseFloat. cbn [scaled digits].
  f_equal; simpl pow; lra.
Qed.

(** C6 (amended).  In the simplified ensemble: with fewer than 10 bars of
    15m history, [generateLevels] for LONG at price 100 puts the stop at
    98, a 2% risk band, the target at 1.8 times the risk, and reports the
    ratio as the string of 1.8 with two decimals. *)
Theorem stable_fallback_levels (data : Snapshot) :
  (length (or_empty (tf15m data)) < 10)%nat ->
  exists lv,
    generateLevels LONG 100 data = Normal lv
    /\ sl lv = 98
    /\ (entry lv - sl lv) / entry lv = 0.02
    /\ rr lv = toFixed 2 1.8
    /\ (tp lv - entry lv) / (entry lv - sl lv) = 1.8.
Proof.
  intros Hlen. unfold generateLevels.
  replace (Nat.ltb (length (or_empty (tf15m data))) 10) with true
    by (symmetry; apply Nat.ltb_lt; exact Hlen).
  rewrite generateDefaultLevels_LONG_100. eexists. split; [reflexivity |].
  cbn [sl entry tp rr].
  rewrite (toFixed_exact 2 1.8 180) by (simpl pow; lra).
  repeat split; try reflexivity; lra.
Qed.

Lemma stable_fallback_levels_witness :
  exists lv,
    generateLevels LONG 100 no_history = Normal lv
    /\ sl lv = 98
    /\ (entry lv - sl lv) / entry lv = 0.02
    /\ rr lv = toFixed 2 1.8
    /\ (tp lv - entry lv) / (entry lv - sl lv) = 1.8.
Proof. apply (stable_fallback_levels no_history). simpl. lia. Defined.

End StableFacts.

(** ** The ensemble with weights and time of day *)

Section WeightedFacts.
Import EnsembleWeighted MetaScoreSpec Samples.

(** [Number] on strings of several shapes: digits, a fraction, an
    exponent, a radix prefix, white space around the literal, the empty
    string, and strings that are no number. *)
Lemma Number_reads :
  Number "04" = Finite 1 2
  /\ Number "23" = Finite 23 0
  /\ Number "1.5" = Finite 3 (-1)
  /\ Number "1e1" = Finite 5 1
  /\ Number "0x17" = Finite 23 0
  /\ Number " 4 " = Finite 1 2
  /\ Number "" = Finite 0 0
  /\ Number "-4" = Finite (-1) 2
  /\ Number "Infinity" = Infinite false
  /\ Number "4h" = NaN
  /\ Number "night" = NaN.
Proof. repeat split; vm_compute; reflexivity. Qed.

(** [Number] rounds to the nearest double: one tenth, a numeral just above
    2, the tie at [2^53 + 1], the largest double and the first numeral that
    is Infinity, the smallest double and a numeral that is 0. *)
Lemma Number_rounds :
  Number "0.1" = Finite 3602879701896397 (-55)
  /\ Number "2.00000000000000000001" = Finite 1 1
  /\ Number "9007199254740993" = Finite 1 53
  /\ Number "1.7976931348623157e308" = Finite 9007199254740991 971
  /\ Number "1.7976931348623159e308" = Infinite false
  /\ Number "1e400" = Infinite false
  /\ Number "5e-324" = Finite 1 (-1074)
  /\ Number "3e-324" = Finite 1 (-1074)
  /\ Number "2e-324" = Finite 0 0
  /\ Number "1e-400" = Finite 0 0.
Proof. repeat split; vm_compute; reflexivity. Qed.

(** A bound with a fraction is read as it is written, and a bound that
    rounds to a whole number is that number. *)
Lemma hour_in_range_fraction :
  hour_in_range "1.5-3.5" 2 = true
  /\ hour_in_range "1.5-3.5" 1 = false
  /\ hour_in_range "2.00000000000000000001-3" 2 = true.
Proof. repeat split; vm_compute; reflexivity. Qed.

Lemma compare_scaled (a b e1 e2 e : Z) :
  (e <= e1)%Z -> (e <= e2)%Z -> (0 <= e)%Z ->
  Z.compare (a * 2 ^ (e1 - e)) (b * 2 ^ (e2 - e))
  = Z.compare (a * 2 ^ e1) (b * 2 ^ e2).
Proof.
  intros H1 H2 H0.
  replace (2 ^ e1)%Z with (2 ^ (e1 - e) * 2 ^ e)%Z
    by (rewrite <- Z.pow_add_r by lia; f_equal; lia).
  replace (2 ^ e2)%Z with (2 ^ (e2 - e) * 2 ^ e)%Z
    by (rewrite <- Z.pow_add_r by lia; f_equal; lia).
  rewrite !Z.mul_assoc.
  assert (Hp : (0 < 2 ^ e)%Z) by (apply Z.pow_pos_nonneg; lia).
  set (p := (2 ^ e)%Z) in *.
  set (x := (a * 2 ^ (e1 - e))%Z). set (y := (b * 2 ^ (e2 - e))%Z).
  destruct (Z.compare_spec x y), (Z.compare_spec (x * p) (y * p));
    try reflexivity; nia.
Qed.

(** Two whole numbers compare as doubles as they do as integers. *)
Lemma compare_numbers_integers (m1 e1 m2 e2 : Z) :
  (0 <= e1)%Z -> (0 <= e2)%Z ->
  compare_numbers (Finite m1 e1) (Finite m2 e2)
  = Some (Z.compare (m1 * 2 ^ e1) (m2 * 2 ^ e2)).
Proof.
  intros H1 H2. unfold compare_numbers. f_equal.
  apply compare_scaled; lia.
Qed.

(** A range whose two bounds are whole numbers. *)
Lemma hour_in_range_integers (range : string) (m1 e1 m2 e2 hour : Z) :
  map Number (split_on "-" range) = [Finite m1 e1; Finite m2 e2] ->
  (0 <= e1)%Z -> (0 <= e2)%Z ->
  hour_in_range range hour
  = orb (andb (Z.leb (m1 * 2 ^ e1) hour) (Z.ltb hour (m2 * 2 ^ e2)))
        (andb (Z.gtb (m1 * 2 ^ e1) (m2 * 2 ^ e2))
           (orb (Z.geb hour (m1 * 2 ^ e1)) (Z.ltb hour (m2 * 2 ^ e2)))).
Proof.
  intros H H1 H2. unfold hour_in_range. rewrite H. cbn [nth_error].
  unfold number_ge, number_gt, number_le, number_lt.
  rewrite !compare_numbers_integers by lia.
  rewrite Z.pow_0_r, Z.mul_1_r.
  rewrite Z.gtb_ltb, Z.geb_leb.
  unfold Z.leb, Z.ltb.
  destruct (Z.compare (m1 * 2 ^ e1) hour), (Z.compare hour (m2 * 2 ^ e2)),
    (Z.compare (m2 * 2 ^ e2) (m1 * 2 ^ e1)); reflexivity.
Qed.

Lemma hour_in_range_23_04 (hour : Z) :
  hour_in_range "23-04" hour
  = orb (andb (Z.leb 23 hour) (Z.ltb hour 4))
        (andb true (orb (Z.geb hour 23) (Z.ltb hour 4))).
Proof.
  exact (hour_in_range_integers "23-04" 23 0 1 2 hour
           ltac:(vm_compute; reflexivity) ltac:(lia) ltac:(lia)).
Qed.

Lemma first_multiplier_skip (before rest : list (string * R)) (hour : Z) :
  (forall r m, In (r, m) before -> hour_in_range r hour = false) ->
  first_multiplier (before ++ rest) hour = first_multiplier rest hour.
Proof.
  induction before as [| [r m] before IH]; intros H; cbn [app first_multiplier].
  - reflexivity.
  - rewrite (H r m) by (left; reflexivity).
    apply IH. intros r' m' Hin. apply (H r' m'). right; exact Hin.
Qed.

(** C9 (amended).  When the entries of [timeOfDayMultipliers] hold the
    range [23-04] with multiplier 0.3 and no entry before it matches the
    hour, every hour from 23 on and every hour before 4, hour 2 among them,
    gets the multiplier 0.3. *)
Theorem timeOfDay_wraparound (config : Config) (before rest : list (string * R))
  (hour : Z) :
  timeOfDayMultipliers config = before ++ ("23-04"%string, 0.3) :: rest ->
  (forall r m, In (r, m) before -> hour_in_range r hour = false) ->
  (23 <= hour \/ hour < 4)%Z ->
  getTimeOfDayMultiplier config hour = 0.3.
Proof.
  intros Hcfg Hbefore Hhour. unfold getTimeOfDayMultiplier.
  rewrite Hcfg, first_multiplier_skip by exact Hbefore.
  cbn [first_multiplier]. rewrite hour_in_range_23_04.
  replace (orb (Z.geb hour 23) (Z.ltb hour 4)) with true.
  - rewrite orb_true_r. reflexivity.
  - symmetry. apply orb_true_iff. destruct Hhour as [H | H].
    + left. apply Z.geb_le. exact H.
    + right. apply Z.ltb_lt. exact H.
Qed.

Lemma timeOfDay_wraparound_witness :
  getTimeOfDayMultiplier (constructor (mkOptions None None None None)) 2 = 0.3.
Proof.
  apply (timeOfDay_wraparound (constructor (mkOptions None None None None))
           [("04-10"%string, 1.1); ("10-16"%string, 1.0);
            ("16-20"%string, 0.9); ("20-23"%string, 0.8)] [] 2).
  - reflexivity.
  - intros r m Hin. cbn [In] in Hin.
    destruct Hin as [H | [H | [H | [H | []]]]]; injection H as <- _; reflexivity.
  - right. lia.
Defined.

(** C9 as stated fails: the first entry that matches decides.  In the
    table of [night_first] the range [00-06], mapped to 2, stands before
    [23-04], mapped to 0.3, and hour 2 gets the multiplier 2. *)
Lemma timeOfDay_first_match_wins :
  In ("23-04"%string, 0.3) (timeOfDayMultipliers night_first)
  /\ getTimeOfDayMultiplier night_first 2 = 2
  /\ 2 <> 0.3.
Proof.
  split; [right; left; reflexivity |].
  split; [reflexivity | lra].
Qed.

Lemma clamp_eq (x : R) : Rmin 100 (Rmax 0 x) = clamp x.
Proof.
  unfold clamp, Rltb.
  destruct (Rlt_dec x 0) as [H | H].
  - rewrite (Rmax_left 0 x) by lra. rewrite Rmin_right by lra. reflexivity.
  - rewrite (Rmax_right 0 x) by lra.
    destruct (Rlt_dec 100 x); [rewrite Rmin_left by lra | rewrite Rmin_right by lra];
      reflexivity.
Qed.

Lemma weighted_majorityDirection_not_NEUTRAL (vs : list Verdict) :
  majorityDirection (calculateDetectorAgreement vs) <> NEUTRAL.
Proof.
  unfold calculateDetectorAgreement. cbn [majorityDirection].
  rewrite majority_entry_eq.
  destruct (Nat.ltb _ _); discriminate.
Qed.

Lemma set_add_In (x y : string) (members : list string) :
  In y (set_add x members) <-> y = x \/ In y members.
Proof.
  unfold set_add. destruct (existsb (String.eqb x) members) eqn:E.
  - split; [intros H; right; exact H |].
    intros [-> | H]; [| exact H].
    apply existsb_exists in E. destruct E as (z & Hz & Heq).
    apply String.eqb_eq in Heq. subst z. exact Hz.
  - rewrite in_app_iff. cbn [In]. split.
    + intros [H | [H | []]]; [right; exact H | left; symmetry; exact H].
    + intros [-> | H]; [right; left; reflexivity | left; exact H].
Qed.

Lemma set_add_NoDup (x : string) (members : list string) :
  NoDup members -> NoDup (set_add x members).
Proof.
  intros Hnd. unfold set_add. destruct (existsb (String.eqb x) members) eqn:E.
  - exact Hnd.
  - apply NoDup_app; [exact Hnd | repeat constructor; intros [] |].
    intros y Hy [-> | []].
    assert (Hex : existsb (String.eqb y) members = true).
    { apply existsb_exists. exists y. split; [exact Hy | apply String.eqb_refl]. }
    congruence.
Qed.

Lemma set_fold_spec (l members : list string) :
  NoDup members ->
  let result := fold_left (fun m x => set_add x m) l members in
  NoDup result /\ (forall y, In y result <-> In y members \/ In y l).
Proof.
  revert members; induction l as [| x l IH]; intros members Hnd; cbn [fold_left].
  - split; [exact Hnd |]. intros y. cbn [In]. tauto.
  - destruct (IH (set_add x members) (set_add_NoDup x members Hnd)) as [Hnd' Hin].
    split; [exact Hnd' |]. intros y. rewrite Hin, set_add_In. cbn [In].
    split; [intros [[-> | H] | H] | intros [H | [-> | H]]]; auto.
Qed.

Lemma set_fold_length (l : list string) :
  length (fold_left (fun m x => set_add x m) l []) = length (nodup string_dec l).
Proof.
  destruct (set_fold_spec l [] (NoDup_nil _)) as [Hnd Hin]. cbv zeta in *.
  apply Nat.le_antisymm; apply NoDup_incl_length.
  - exact Hnd.
  - intros y Hy. apply nodup_In. apply Hin in Hy. destruct Hy as [[] | Hy]. exact Hy.
  - apply NoDup_nodup.
  - intros y Hy. apply nodup_In in Hy. apply Hin. right; exact Hy.
Qed.

Lemma accumulate_agreeing (config : Config) (a : Agreement) (acc : Accum)
  (v : Verdict) :
  majorityDirection a <> NEUTRAL ->
  Direction_eqb (direction v) (majorityDirection a) = true ->
  name v <> None ->
  accumulate config a acc v
  = Normal (mkAccum (weightedSum acc + score v * configured_weight config v)
                    (totalWeight acc + configured_weight config v)
                    (set_add (family_name v) (detectorFamilyCount acc))).
Proof.
  intros Hmaj E Hname. unfold accumulate, family, configured_weight, family_name, or_default.
  assert (Hn : Direction_eqb (direction v) NEUTRAL = false).
  { apply Direction_eqb_spec in E.
    destruct (Direction_eqb (direction v) NEUTRAL) eqn:E'; [| reflexivity].
    apply Direction_eqb_spec in E'. congruence. }
  rewrite E, Hn. cbn [negb andb].
  destruct (name v) as [n |]; [reflexivity | congruence].
Qed.

Lemma accumulate_other (config : Config) (a : Agreement) (acc : Accum) (v : Verdict) :
  Direction_eqb (direction v) (majorityDirection a) = false ->
  accumulate config a acc v = Normal acc.
Proof. intros E. unfold accumulate. rewrite E, andb_false_r. reflexivity. Qed.

Lemma accumulate_fold (config : Config) (a : Agreement) (vs : list Verdict)
  (acc : Accum) :
  majorityDirection a <> NEUTRAL ->
  Forall (fun v => name v <> None) (agreeing (majorityDirection a) vs) ->
  fold_left (fun st detector => x <- st ;; accumulate config a x detector)
    vs (Normal acc)
  = Normal
      (mkAccum
         (weightedSum acc
          + total (map (fun v => score v * configured_weight config v) (agreeing (majorityDirection a) vs)))
         (totalWeight acc + total (map (configured_weight config) (agreeing (majorityDirection a) vs)))
         (fold_left (fun m x => set_add x m) (map family_name (agreeing (majorityDirection a) vs))
            (detectorFamilyCount acc))).
Proof.
  intros Hmaj. revert acc.
  induction vs as [| v vs IH]; intros acc Hnamed; cbn [fold_left bind].
  - cbn. destruct acc; cbn. f_equal. f_equal; lra.
  - unfold agreeing in Hnamed |- *. cbn [filter] in Hnamed |- *.
    destruct (Direction_eqb (direction v) (majorityDirection a)) eqn:E.
    + inversion Hnamed as [| ? ? Hv Hrest]; subst.
      rewrite (accumulate_agreeing config a acc v Hmaj E Hv).
      unfold agreeing in IH. rewrite IH by exact Hrest.
      cbn [map total fold_right fold_left weightedSum totalWeight detectorFamilyCount].
      f_equal. f_equal; unfold total; lra.
    + rewrite (accumulate_other config a acc v E).
      apply IH. exact Hnamed.
Qed.

(** What [calculateMetaScore] computes when the agreeing verdicts carry a
    name and their weights do not sum to zero. *)
Lemma weighted_metaScore_eq (config : Config) (hour : Z) (vs : list Verdict) :
  let a := calculateDetectorAgreement vs in
  let agree := agreeing (majorityDirection a) vs in
  Forall (fun v => name v <> None) agree ->
  total (map (configured_weight config) agree) <> 0 ->
  calculateMetaScore config hour vs a
  = Normal
      (clamp ((weighted_mean (configured_weight config) agree
               + confluence_bonus agree)
              * getTimeOfDayMultiplier config hour)).
Proof.
  intros a agree Hnamed Hw. unfold calculateMetaScore.
  rewrite (accumulate_fold config a vs (mkAccum 0 0 []))
    by (try apply weighted_majorityDirection_not_NEUTRAL; exact Hnamed).
  fold agree. cbn [bind weightedSum totalWeight detectorFamilyCount].
  rewrite Reqb_false by lra.
  rewrite clamp_eq, set_fold_length.
  unfold weighted_mean, confluence_bonus, distinct_families.
  f_equal. f_equal. f_equal. rewrite !Rplus_0_l.
  f_equal. f_equal. lra.
Qed.

(** It returns, with or without a positive total weight. *)
Lemma weighted_metaScore_returns (config : Config) (hour : Z) (vs : list Verdict) :
  let a := calculateDetectorAgreement vs in
  Forall (fun v => name v <> None) (agreeing (majorityDirection a) vs) ->
  exists m, calculateMetaScore config hour vs a = Normal m.
Proof.
  intros a Hnamed. unfold calculateMetaScore.
  rewrite (accumulate_fold config a vs (mkAccum 0 0 []))
    by (try apply weighted_majorityDirection_not_NEUTRAL; exact Hnamed).
  cbn [bind]. destruct (Reqb _ 0); eexists; reflexivity.
Qed.

(** C4 (amended).  In the ensemble with detector weights and time-of-day
    multipliers: for every verdict list that passes the agreement
    threshold, whose agreeing verdicts carry a name and whose weights do
    not sum to zero, the meta-score is the weighted mean of the scores of
    the verdicts that agree with the majority direction (the configured
    weight of the detector, 1.0 by default), plus 5 points for each
    distinct detector family beyond the first, at most 20, times the
    multiplier of the hour, clamped to the interval from 0 to 100. *)
Theorem weighted_metaScore_formula (config : Config) (hour : Z) (vs : list Verdict) :
  let a := calculateDetectorAgreement vs in
  let agree := agreeing (majorityDirection a) vs in
  Forall (fun v => name v <> None) agree ->
  minDetectorAgreement config <= INR (majorityCount a) ->
  total (map (configured_weight config) agree) <> 0 ->
  calculateMetaScore config hour vs a
  = Normal
      (clamp ((weighted_mean (configured_weight config) agree
               + confluence_bonus agree)
              * getTimeOfDayMultiplier config hour)).
Proof.
  intros a agree Hnamed _ Hw. apply weighted_metaScore_eq; assumption.
Qed.

End WeightedFacts.

(** ** The two ensembles side by side *)

Section Variants.

Import MetaScoreSpec Samples.

Lemma clamp_inside (x : R) : 0 <= x <= 100 -> clamp x = x.
Proof. intros H. unfold clamp. rewrite !Rltb_false by lra. reflexivity. Qed.

Lemma stable_two_long_agreement :
  EnsembleStable.calculateDetectorAgreement two_long
  = EnsembleStable.mkAgreement (mkTally 2 0 0) LONG 2.
Proof.
  unfold EnsembleStable.calculateDetectorAgreement, two_long, verdict_of.
  cbn [fold_left direction score Direction_eqb negb andb]. rdecide.
  cbn [andb increment n_LONG n_SHORT n_NEUTRAL].
  rewrite majority_entry_eq. reflexivity.
Qed.

Lemma stable_two_long :
  EnsembleStable.calculateMetaScore stable_defaults two_long
    (EnsembleStable.calculateDetectorAgreement two_long) = 93.
Proof.
  rewrite stable_two_long_agreement.
  unfold EnsembleStable.calculateMetaScore, two_long, verdict_of, stable_defaults.
  cbn [EnsembleStable.majorityCount EnsembleStable.majorityDirection
       EnsembleStable.minDetectorAgreement EnsembleStable.constructor dflt
       EnsembleStable.opt_minDetectorAgreement INR].
  rdecide.
  cbn [fold_left direction score weight Direction_eqb andb fst snd or_default].
  rdecide. cbn [andb fst snd Nat.eqb INR].
  rminmax. lra.
Qed.

Lemma two_long_formula (m : R) :
  formula attached_weight m two_long = clamp ((166 / 2.2 + 5) * m).
Proof.
  unfold formula, weighted_mean, confluence_bonus.
  replace (distinct_families two_long) with 2%nat by reflexivity.
  unfold two_long, verdict_of, attached_weight, total.
  cbn [map fold_right score weight INR]. rdecide.
  rminmax. f_equal. f_equal. lra.
Qed.

(** C4 as stated fails on the simplified ensemble: two LONG verdicts, 80
    with weight 1.2 and 70 with weight 1.0, of two families, pass the
    threshold 2; the meta-score is (80 * 1.2 + 70) / 2 + 10 = 93, while
    the weighted mean plus the confluence bonus is 166 / 2.2 + 5, which is
    not 93 under any of the usual multipliers. *)
Lemma stable_metaScore_differs :
  let a := EnsembleStable.calculateDetectorAgreement two_long in
  EnsembleStable.minDetectorAgreement stable_defaults
  <= INR (EnsembleStable.majorityCount a)
  /\ EnsembleStable.calculateMetaScore stable_defaults two_long a = 93
  /\ Forall
       (fun m =>
          formula attached_weight m
            (agreeing (EnsembleStable.majorityDirection a) two_long) <> 93)
       usual_multipliers.
Proof.
  cbv zeta. split; [rewrite stable_two_long_agreement; cbn; lra |].
  split; [exact stable_two_long |]. rewrite stable_two_long_agreement.
  change (agreeing _ two_long) with two_long.
  unfold usual_multipliers.
  repeat constructor; rewrite two_long_formula, clamp_inside; lra.
Qed.

(** *** Agreement in the ensemble with weights *)

Lemma weighted_tally_fold (vs : list Verdict) (t0 : Tally) :
  let t :=
    fold_left (fun dirs detector => increment dirs (direction detector))
      (filter (fun d => negb (Direction_eqb (direction d) NEUTRAL)) vs) t0 in
  n_LONG t
  = (n_LONG t0 + length (filter (fun v => Direction_eqb (direction v) LONG) vs))%nat
  /\ n_SHORT t
     = (n_SHORT t0 + length (filter (fun v => Direction_eqb (direction v) SHORT) vs))%nat
  /\ n_NEUTRAL t = n_NEUTRAL t0.
Proof.
  revert t0; induction vs as [| v vs IH]; intros t0; cbn [filter].
  - cbn. repeat split; lia.
  - destruct (direction v) eqn:E; cbn [Direction_eqb negb fold_left]; rewrite ?E;
      [specialize (IH (increment t0 LONG))
      | specialize (IH (increment t0 SHORT))
      | specialize (IH t0)];
      cbv zeta in IH; destruct IH as (HL & HS & HN);
      rewrite HL, HS, HN; cbn [increment n_LONG n_SHORT n_NEUTRAL length];
      repeat split; lia.
Qed.

Lemma weighted_agreement_counts (vs : list Verdict) :
  let t := EnsembleWeighted.directions (EnsembleWeighted.calculateDetectorAgreement vs) in
  n_LONG t = length (filter (fun v => Direction_eqb (direction v) LONG) vs)
  /\ n_SHORT t = length (filter (fun v => Direction_eqb (direction v) SHORT) vs)
  /\ n_NEUTRAL t = 0%nat.
Proof.
  unfold EnsembleWeighted.calculateDetectorAgreement.
  cbn [EnsembleWeighted.directions].
  destruct (weighted_tally_fold vs (mkTally 0 0 0)) as (HL & HS & HN).
  cbn [n_LONG n_SHORT n_NEUTRAL] in *. repeat split; assumption.
Qed.

(** C3 as stated fails on the ensemble with weights: a LONG verdict of
    score 10 is counted in the LONG tally. *)
Lemma weighted_agreement_counts_low_score :
  Forall (fun v => direction v = LONG /\ score v <= 40) weak_long
  /\ length (filter (material LONG) weak_long) = 0%nat
  /\ n_LONG (EnsembleWeighted.directions
               (EnsembleWeighted.calculateDetectorAgreement weak_long)) = 1%nat.
Proof.
  split; [repeat constructor; cbn; lra |].
  split; [| reflexivity].
  unfold weak_long, verdict_of, material. cbn [filter direction score Direction_eqb andb].
  rdecide. reflexivity.
Qed.

(** *** The gate of the ensemble with weights *)

Lemma weighted_gate (config : EnsembleWeighted.Config) (hour : Z)
  (vs : list Verdict) (data : Snapshot) (dec : EnsembleWeighted.Decision)
  (d : Direction) :
  let a := EnsembleWeighted.calculateDetectorAgreement vs in
  EnsembleWeighted.analyze config hour vs data = Normal dec ->
  EnsembleWeighted.dec_direction dec = Trade d ->
  exists m,
    EnsembleWeighted.calculateMetaScore config hour vs a = Normal m
    /\ d = EnsembleWeighted.majorityDirection a
    /\ EnsembleWeighted.majorityDirection a <> NEUTRAL
    /\ EnsembleWeighted.minDetectorAgreement config
       <= INR (EnsembleWeighted.majorityCount a)
    /\ EnsembleWeighted.minConfidence config <= m.
Proof.
  intros a Hrun Hdir. unfold EnsembleWeighted.analyze in Hrun. fold a in Hrun.
  destruct (EnsembleWeighted.calculateMetaScore config hour vs a) as [m | msg];
    cbn [bind] in Hrun; [| discriminate].
  exists m. split; [reflexivity |].
  destruct (Rgeb (INR (EnsembleWeighted.majorityCount a))
              (EnsembleWeighted.minDetectorAgreement config)) eqn:Ha;
    destruct (Rgeb m (EnsembleWeighted.minConfidence config)) eqn:Hc;
    destruct (negb (Direction_eqb (EnsembleWeighted.majorityDirection a) NEUTRAL)) eqn:Hv;
    cbn [andb] in Hrun;
    try (injection Hrun as <-; cbn in Hdir; discriminate).
  destruct (EnsembleWeighted.generateLevels _ _ data vs) as [lv | ?];
    cbn [bind] in Hrun; [| discriminate].
  destruct (mapM family vs) as [fams | ?]; cbn [bind] in Hrun; [| discriminate].
  injection Hrun as <-. cbn in Hdir. injection Hdir as <-.
  apply Rleb_spec in Ha. apply Rleb_spec in Hc.
  repeat split; try assumption.
  apply weighted_majorityDirection_not_NEUTRAL.
Qed.

Lemma weighted_no_trade (config : EnsembleWeighted.Config) (hour : Z)
  (vs : list Verdict) (data : Snapshot) :
  let a := EnsembleWeighted.calculateDetectorAgreement vs in
  INR (EnsembleWeighted.majorityCount a) < EnsembleWeighted.minDetectorAgreement config ->
  (forall dec,
      EnsembleWeighted.analyze config hour vs data = Normal dec ->
      EnsembleWeighted.dec_direction dec = NO_TRADE)
  /\ (Forall (fun v => name v <> None)
        (agreeing (EnsembleWeighted.majorityDirection a) vs) ->
      exists dec,
        EnsembleWeighted.analyze config hour vs data = Normal dec
        /\ EnsembleWeighted.dec_direction dec = NO_TRADE).
Proof.
  intros a Hlow.
  assert (Ha : Rgeb (INR (EnsembleWeighted.majorityCount a))
                 (EnsembleWeighted.minDetectorAgreement config) = false)
    by (apply Rleb_false; exact Hlow).
  split.
  - intros dec Hrun. unfold EnsembleWeighted.analyze in Hrun. fold a in Hrun.
    destruct (EnsembleWeighted.calculateMetaScore config hour vs a) as [m | msg];
      cbn [bind] in Hrun; [| discriminate].
    rewrite Ha in Hrun. cbn [andb] in Hrun. injection Hrun as <-. reflexivity.
  - intros Hnamed.
    destruct (weighted_metaScore_returns config hour vs Hnamed) as [m Hm].
    unfold EnsembleWeighted.analyze. rewrite Hm. cbn [bind].
    unfold a in Ha. rewrite Ha. cbn [andb]. eexists. split; reflexivity.
Qed.

(** C2 as stated fails on the ensemble with weights: one LONG verdict of
    score 80 is below the agreement threshold 2, and the meta-score is 80. *)
Lemma weighted_metaScore_below_agreement :
  let a := EnsembleWeighted.calculateDetectorAgreement lone_long in
  INR (EnsembleWeighted.majorityCount a)
  < EnsembleWeighted.minDetectorAgreement weighted_defaults
  /\ EnsembleWeighted.calculateMetaScore weighted_defaults 12 lone_long a = Normal 80
  /\ 80 <> 0.
Proof.
  cbv zeta. split; [cbn; lra |]. split; [| lra].
  rewrite (weighted_metaScore_eq weighted_defaults 12 lone_long).
  - change (agreeing _ lone_long) with lone_long.
    replace (EnsembleWeighted.getTimeOfDayMultiplier weighted_defaults 12) with 1.0
      by reflexivity.
    unfold weighted_mean, confluence_bonus.
    replace (distinct_families lone_long) with 1%nat by reflexivity.
    unfold lone_long, verdict_of, configured_weight, total.
    cbn [map fold_right score name dflt lookup weighted_defaults
         EnsembleWeighted.detectorWeights EnsembleWeighted.constructor
         EnsembleWeighted.opt_detectorWeights EnsembleWeighted.default_detectorWeights
         String.eqb Ascii.eqb Bool.eqb INR].
    rdecide. rminmax. rewrite clamp_inside by lra. f_equal. lra.
  - repeat constructor; discriminate.
  - change (agreeing _ lone_long) with lone_long.
    unfold lone_long, verdict_of, configured_weight, total.
    cbn. rdecide. lra.
Qed.

(** C6 as stated fails on the ensemble with weights, which has no path for
    short 15m history: without any history the ATR defaults to 2% of the
    price, the stop is 0.8 of it away, at 98.4, and the target ratio is 1.5. *)
Lemma weighted_levels_without_history :
  (length (or_empty (tf15m no_history)) < 10)%nat
  /\ EnsembleWeighted.generateLevels LONG 100 no_history []
     = Normal (mkLevels 100 98.4 102.4 (Fixed 2 150))
  /\ 98.4 <> 98
  /\ Fixed 2 150 <> toFixed 2 1.8.
Proof.
  split; [simpl; lia |].
  split; [| split; [lra |]].
  - unfold EnsembleWeighted.generateLevels, EnsembleWeighted.calculateAverageATR,
      no_history.
    cbn [tf15m tf1h tf4h fold_left bind fst snd Nat.ltb Nat.leb filter
         EnsembleWeighted.sort_by_score EnsembleWeighted.findM
         EnsembleWeighted.someM Direction_eqb].
    replace (100 - 0.02 * 100 * 0.8) with 98.4 by lra.
    replace (Rabs (100 - 98.4)) with 1.6 by (rewrite Rabs_pos_eq; lra).
    replace (100 + 1.6 * 1.5) with 102.4 by lra.
    replace (Rabs (102.4 - 100)) with 2.4 by (rewrite Rabs_pos_eq; lra).
    rewrite (toFixed_exact 6 100 100000000) by (simpl pow; lra).
    rewrite (toFixed_exact 6 98.4 98400000) by (simpl pow; lra).
    rewrite (toFixed_exact 6 102.4 102400000) by (simpl pow; lra).
    rewrite (toFixed_exact 2 (2.4 / 1.6) 150) by (simpl pow; lra).
    unfold parseFloat. cbn [scaled digits].
    f_equal. f_equal; simpl pow; lra.
  - rewrite (toFixed_exact 2 1.8 180) by (simpl pow; lra). discriminate.
Qed.

(** *** The meta-score of the simplified ensemble *)

Lemma stable_score_fold (maj : Direction) (vs : list Verdict) (acc : R * nat) :
  let r :=
    fold_left
      (fun (acc : R * nat) detector =>
         if andb (Direction_eqb (direction detector) maj) (Rgtb (score detector) 40)
         then (fst acc + score detector * or_default (weight detector) 1.0,
               S (snd acc))
         else acc)
      vs acc in
  fst r
  = fst acc + total (map (fun v => score v * attached_weight v) (filter (material maj) vs))
  /\ snd r = (snd acc + length (filter (material maj) vs))%nat.
Proof.
  revert acc; induction vs as [| v vs IH]; intros acc; cbn [fold_left filter].
  - unfold total. cbn [map fold_right length]. split; [lra | lia].
  - change (material maj v)
      with (andb (Direction_eqb (direction v) maj) (Rgtb (score v) 40)).
    change (or_default (weight v) 1.0) with (attached_weight v).
    destruct (andb (Direction_eqb (direction v) maj) (Rgtb (score v) 40)).
    + specialize (IH (fst acc + score v * attached_weight v, S (snd acc))).
      cbv zeta in IH. destruct IH as [H1 H2]. rewrite H1, H2.
      unfold total. cbn [fst snd map fold_right length].
      split; [lra | lia].
    + apply IH.
Qed.

(** What the simplified [calculateMetaScore] computes once the agreement
    threshold is passed: the sum of [score * weight] over the material
    verdicts of the majority direction divided by their number, plus 10
    points for each agreeing detector beyond the first, at most 20, capped
    at 100. *)
Lemma stable_metaScore_eq (config : EnsembleStable.Config) (vs : list Verdict) :
  let a := EnsembleStable.calculateDetectorAgreement vs in
  let agree := filter (material (EnsembleStable.majorityDirection a)) vs in
  EnsembleStable.minDetectorAgreement config <= INR (EnsembleStable.majorityCount a) ->
  agree <> [] ->
  EnsembleStable.calculateMetaScore config vs a
  = Rmin 100
      (total (map (fun v => score v * attached_weight v) agree) / INR (length agree)
       + Rmin 20 ((INR (EnsembleStable.majorityCount a) - 1) * 10)).
Proof.
  intros a agree Hpass Hne. unfold EnsembleStable.calculateMetaScore.
  rewrite Rltb_false by exact Hpass.
  destruct (stable_score_fold (EnsembleStable.majorityDirection a) vs (0, 0%nat))
    as [H1 H2].
  cbv zeta in H1, H2. cbn [fst snd] in H1, H2. fold agree in H1, H2.
  destruct (fold_left _ vs (0, 0%nat)) as [totalScore count].
  cbn [fst snd] in H1, H2. subst count.
  destruct (length agree) eqn:El.
  - destruct agree; [congruence | discriminate].
  - cbn [Nat.add Nat.eqb]. rewrite H1, Rplus_0_l. reflexivity.
Qed.

(** *** What holds of both *)

(** C3 (amended).  In the simplified ensemble, for every verdict list, the
    LONG tally is the number of verdicts whose direction is LONG and whose
    score is strictly above 40, the SHORT tally likewise, and nothing is
    counted as NEUTRAL: a NEUTRAL verdict, and a LONG or SHORT verdict
    with score at most 40, adds to neither tally.  In the ensemble with
    weights each tally is the number of verdicts of that direction,
    whatever their score. *)
Theorem agreement_tallies (vs : list Verdict) :
  (n_LONG (EnsembleStable.directions (EnsembleStable.calculateDetectorAgreement vs))
   = length (filter (material LONG) vs)
   /\ n_SHORT (EnsembleStable.directions (EnsembleStable.calculateDetectorAgreement vs))
      = length (filter (material SHORT) vs)
   /\ n_NEUTRAL (EnsembleStable.directions (EnsembleStable.calculateDetectorAgreement vs))
      = 0%nat)
  /\ (n_LONG (EnsembleWeighted.directions
                (EnsembleWeighted.calculateDetectorAgreement vs))
      = length (filter (fun v => Direction_eqb (direction v) LONG) vs)
      /\ n_SHORT (EnsembleWeighted.directions
                    (EnsembleWeighted.calculateDetectorAgreement vs))
         = length (filter (fun v => Direction_eqb (direction v) SHORT) vs)
      /\ n_NEUTRAL (EnsembleWeighted.directions
                      (EnsembleWeighted.calculateDetectorAgreement vs))
         = 0%nat).
Proof.
  split; [apply stable_agreement_counts | apply weighted_agreement_counts].
Qed.

(** C2 (amended).  In both ensembles [analyze] answers a trade only when
    the majority direction is not NEUTRAL, the majority count reaches
    [minDetectorAgreement] and the meta-score reaches [minConfidence], and
    a majority count below [minDetectorAgreement] gives the decision
    NO_TRADE.  In the simplified ensemble the meta-score is then 0. *)
Theorem trade_gate (vs : list Verdict) (data : Snapshot) :
  (forall config : EnsembleStable.Config,
      let a := EnsembleStable.calculateDetectorAgreement vs in
      let metaScore := EnsembleStable.calculateMetaScore config vs a in
      (forall dec d,
          EnsembleStable.analyze config vs data = Normal dec ->
          EnsembleStable.dec_direction dec = Trade d ->
          d = EnsembleStable.majorityDirection a
          /\ EnsembleStable.majorityDirection a <> NEUTRAL
          /\ EnsembleStable.minDetectorAgreement config
             <= INR (EnsembleStable.majorityCount a)
          /\ EnsembleStable.minConfidence config <= metaScore)
      /\ (INR (EnsembleStable.majorityCount a)
          < EnsembleStable.minDetectorAgreement config ->
          metaScore = 0
          /\ exists dec,
               EnsembleStable.analyze config vs data = Normal dec
               /\ EnsembleStable.dec_direction dec = NO_TRADE))
  /\ (forall (config : EnsembleWeighted.Config) (hour : Z),
         let a := EnsembleWeighted.calculateDetectorAgreement vs in
         (forall dec d,
             EnsembleWeighted.analyze config hour vs data = Normal dec ->
             EnsembleWeighted.dec_direction dec = Trade d ->
             exists metaScore,
               EnsembleWeighted.calculateMetaScore config hour vs a = Normal metaScore
               /\ d = EnsembleWeighted.majorityDirection a
               /\ EnsembleWeighted.majorityDirection a <> NEUTRAL
               /\ EnsembleWeighted.minDetectorAgreement config
                  <= INR (EnsembleWeighted.majorityCount a)
               /\ EnsembleWeighted.minConfidence config <= metaScore)
         /\ (INR (EnsembleWeighted.majorityCount a)
             < EnsembleWeighted.minDetectorAgreement config ->
             (forall dec,
                 EnsembleWeighted.analyze config hour vs data = Normal dec ->
                 EnsembleWeighted.dec_direction dec = NO_TRADE)
             /\ (Forall (fun v => name v <> None)
                   (agreeing (EnsembleWeighted.majorityDirection a) vs) ->
                 exists dec,
                   EnsembleWeighted.analyze config hour vs data = Normal dec
                   /\ EnsembleWeighted.dec_direction dec = NO_TRADE))).
Proof.
  split.
  - intros config. apply stable_gate.
  - intros config hour a. split.
    + intros dec d. apply weighted_gate.
    + apply weighted_no_trade.
Qed.

(** *** A list that trades and a list that does not *)

Lemma one_bar_price :
  or_default (last_close (tf15m one_bar)) (or_default (ticker_last one_bar) 0) = 100
  /\ or_default (last_close (tf15m one_bar)) (or_default (last_close (tf1h one_bar)) 0)
     = 100.
Proof.
  unfold one_bar, only15m, flat, last_close, from_end.
  cbn [tf15m tf1h ticker_last map length Nat.ltb Nat.leb Nat.sub nth_error close
       or_default].
  rdecide. split; reflexivity.
Qed.

Lemma stable_two_long_trades :
  exists dec,
    EnsembleStable.analyze stable_defaults two_long one_bar = Normal dec
    /\ EnsembleStable.dec_direction dec = Trade LONG
    /\ EnsembleStable.confidence dec = 93
    /\ EnsembleStable.levels dec = Some (mkLevels 100 98 103.6 (Fixed 2 180)).
Proof.
  unfold EnsembleStable.analyze. cbv zeta.
  rewrite stable_two_long, stable_two_long_agreement, (proj1 one_bar_price).
  cbn [EnsembleStable.majorityCount EnsembleStable.majorityDirection
       EnsembleStable.minConfidence EnsembleStable.minDetectorAgreement
       stable_defaults EnsembleStable.constructor dflt
       EnsembleStable.opt_minConfidence EnsembleStable.opt_minDetectorAgreement INR].
  rdecide. cbn [andb].
  unfold EnsembleStable.generateLevels. cbv zeta.
  replace (Nat.ltb (length (or_empty (tf15m one_bar))) 10) with true by reflexivity.
  rewrite generateDefaultLevels_LONG_100. cbn [bind].
  eexists. split; [reflexivity |].
  cbn [EnsembleStable.dec_direction EnsembleStable.confidence EnsembleStable.levels].
  rewrite (Math_round_IZR 93). repeat split; reflexivity.
Qed.

Lemma weighted_two_long_score :
  exists m,
    EnsembleWeighted.calculateMetaScore weighted_defaults 12 two_long
      (EnsembleWeighted.calculateDetectorAgreement two_long) = Normal m
    /\ 80 < m < 81.
Proof.
  rewrite (weighted_metaScore_eq weighted_defaults 12 two_long).
  - eexists. split; [reflexivity |].
    change (agreeing _ two_long) with two_long.
    replace (EnsembleWeighted.getTimeOfDayMultiplier weighted_defaults 12) with 1.0
      by reflexivity.
    unfold weighted_mean, confluence_bonus.
    replace (distinct_families two_long) with 2%nat by reflexivity.
    unfold two_long, verdict_of, configured_weight, total.
    cbn [map fold_right score name dflt lookup weighted_defaults
         EnsembleWeighted.detectorWeights EnsembleWeighted.constructor
         EnsembleWeighted.opt_detectorWeights EnsembleWeighted.default_detectorWeights
         String.eqb Ascii.eqb Bool.eqb INR].
    rdecide. rminmax.
    rewrite clamp_inside by lra. lra.
  - repeat constructor; discriminate.
  - change (agreeing _ two_long) with two_long.
    unfold two_long, verdict_of, configured_weight, total.
    cbn. rdecide. lra.
Qed.

Lemma weighted_two_long_agreement :
  EnsembleWeighted.majorityDirection (EnsembleWeighted.calculateDetectorAgreement two_long)
  = LONG
  /\ EnsembleWeighted.majorityCount (EnsembleWeighted.calculateDetectorAgreement two_long)
     = 2%nat.
Proof.
  unfold EnsembleWeighted.calculateDetectorAgreement, two_long, verdict_of.
  cbn [filter direction Direction_eqb negb fold_left increment n_LONG n_SHORT n_NEUTRAL
       EnsembleWeighted.majorityDirection EnsembleWeighted.majorityCount].
  rewrite majority_entry_eq. split; reflexivity.
Qed.

Lemma weighted_two_long_levels :
  exists lv, EnsembleWeighted.generateLevels LONG 100 one_bar two_long = Normal lv.
Proof.
  unfold EnsembleWeighted.generateLevels.
  replace (EnsembleWeighted.calculateAverageATR one_bar) with (Normal 0.02)
    by reflexivity.
  cbn [bind]. cbv zeta.
  unfold two_long, verdict_of, direction_of.
  cbn [filter direction score Direction_eqb andb]. rdecide. cbn [andb].
  unfold EnsembleWeighted.sort_by_score.
  cbn [fold_left EnsembleWeighted.insert_by_score score]. rdecide.
  cbn [EnsembleWeighted.findM EnsembleWeighted.name_includes_either name_includes
       name bind].
  replace (includes "momentum" "volume_spike") with false by reflexivity.
  replace (includes "breakout" "volume_spike") with false by reflexivity.
  replace (includes "momentum" "momentum_breakout") with true by reflexivity.
  cbn [bind metadata].
  cbn [EnsembleWeighted.someM EnsembleWeighted.name_includes_either name_includes
       name bind score].
  rdecide.
  replace (includes "momentum" "momentum_breakout") with true by reflexivity.
  cbn [bind]. eexists. reflexivity.
Qed.

Lemma weighted_two_long_trades :
  exists dec,
    EnsembleWeighted.analyze weighted_defaults 12 two_long one_bar = Normal dec
    /\ EnsembleWeighted.dec_direction dec = Trade LONG.
Proof.
  destruct weighted_two_long_score as (m & Hm & Hrange).
  destruct weighted_two_long_agreement as (Hd & Hc).
  unfold EnsembleWeighted.analyze. cbv zeta.
  rewrite Hm, Hd, Hc, (proj2 one_bar_price). cbn [bind].
  cbn [EnsembleWeighted.minConfidence EnsembleWeighted.minDetectorAgreement
       weighted_defaults EnsembleWeighted.constructor dflt
       EnsembleWeighted.opt_minConfidence EnsembleWeighted.opt_minDetectorAgreement
       INR Direction_eqb negb].
  unfold Rgeb. rewrite (Rleb_true 60 m) by lra. rdecide. cbn [andb].
  destruct weighted_two_long_levels as (lv & ->). cbn [bind].
  replace (mapM family two_long) with (Normal ["momentum"%string; "volume"%string])
    by reflexivity.
  cbn [bind]. eexists. split; reflexivity.
Qed.

Lemma stable_lone_long_agreement :
  EnsembleStable.calculateDetectorAgreement lone_long
  = EnsembleStable.mkAgreement (mkTally 1 0 0) LONG 1.
Proof.
  unfold EnsembleStable.calculateDetectorAgreement, lone_long, verdict_of.
  cbn [fold_left direction score Direction_eqb negb andb]. rdecide.
  cbn [andb increment n_LONG n_SHORT n_NEUTRAL].
  rewrite majority_entry_eq. reflexivity.
Qed.

Lemma trade_gate_witness :
  (exists dec,
      EnsembleStable.analyze stable_defaults two_long one_bar = Normal dec
      /\ EnsembleStable.dec_direction dec = Trade LONG
      /\ LONG = EnsembleStable.majorityDirection
                  (EnsembleStable.calculateDetectorAgreement two_long)
      /\ EnsembleStable.majorityDirection
           (EnsembleStable.calculateDetectorAgreement two_long) <> NEUTRAL
      /\ EnsembleStable.minDetectorAgreement stable_defaults
         <= INR (EnsembleStable.majorityCount
                   (EnsembleStable.calculateDetectorAgreement two_long))
      /\ EnsembleStable.minConfidence stable_defaults
         <= EnsembleStable.calculateMetaScore stable_defaults two_long
              (EnsembleStable.calculateDetectorAgreement two_long))
  /\ (exists dec,
         EnsembleWeighted.analyze weighted_defaults 12 two_long one_bar = Normal dec
         /\ EnsembleWeighted.dec_direction dec = Trade LONG
         /\ exists metaScore,
              EnsembleWeighted.calculateMetaScore weighted_defaults 12 two_long
                (EnsembleWeighted.calculateDetectorAgreement two_long)
              = Normal metaScore
              /\ LONG = EnsembleWeighted.majorityDirection
                          (EnsembleWeighted.calculateDetectorAgreement two_long)
              /\ EnsembleWeighted.majorityDirection
                   (EnsembleWeighted.calculateDetectorAgreement two_long) <> NEUTRAL
              /\ EnsembleWeighted.minDetectorAgreement weighted_defaults
                 <= INR (EnsembleWeighted.majorityCount
                           (EnsembleWeighted.calculateDetectorAgreement two_long))
              /\ EnsembleWeighted.minConfidence weighted_defaults <= metaScore)
  /\ (EnsembleStable.calculateMetaScore stable_defaults lone_long
        (EnsembleStable.calculateDetectorAgreement lone_long) = 0
      /\ exists dec,
           EnsembleStable.analyze stable_defaults lone_long one_bar = Normal dec
           /\ EnsembleStable.dec_direction dec = NO_TRADE)
  /\ (exists dec,
         EnsembleWeighted.analyze weighted_defaults 12 lone_long one_bar = Normal dec
         /\ EnsembleWeighted.dec_direction dec = NO_TRADE).
Proof.
  split; [| split; [| split]].
  - destruct stable_two_long_trades as (dec & Hdec & Hdir & _).
    exists dec. split; [exact Hdec |]. split; [exact Hdir |].
    exact (proj1 (proj1 (trade_gate two_long one_bar) stable_defaults)
             dec LONG Hdec Hdir).
  - destruct weighted_two_long_trades as (dec & Hdec & Hdir).
    exists dec. split; [exact Hdec |]. split; [exact Hdir |].
    exact (proj1 (proj2 (trade_gate two_long one_bar) weighted_defaults 12%Z)
             dec LONG Hdec Hdir).
  - apply (proj2 (proj1 (trade_gate lone_long one_bar) stable_defaults)).
    rewrite stable_lone_long_agreement. cbn. lra.
  - refine (proj2 (proj2 (proj2 (trade_gate lone_long one_bar) weighted_defaults 12%Z)
                      _) _).
    + cbn. lra.
    + repeat constructor; discriminate.
Defined.

Lemma weighted_metaScore_formula_witness :
  EnsembleWeighted.calculateMetaScore weighted_defaults 12 two_long
    (EnsembleWeighted.calculateDetectorAgreement two_long)
  = Normal
      (clamp ((weighted_mean (configured_weight weighted_defaults) two_long
               + confluence_bonus two_long)
              * EnsembleWeighted.getTimeOfDayMultiplier weighted_defaults 12)).
Proof.
  apply (weighted_metaScore_formula weighted_defaults 12 two_long).
  - repeat constructor; discriminate.
  - cbn. lra.
  - change (agreeing _ two_long) with two_long.
    unfold two_long, verdict_of, configured_weight, total.
    cbn. rdecide. lra.
Defined.

End Variants.

(* ================================================================== *)
(** * Further properties of the code *)
(* ================================================================== *)

(** ** Sums *)

Lemma fold_left_Rplus_init (l : list R) (a : R) :
  fold_left Rplus l a = a + fold_left Rplus l 0.
Proof.
  revert a; induction l as [| x l IH]; intros a; cbn [fold_left].
  - lra.
  - rewrite (IH (a + x)), (IH (0 + x)). lra.
Qed.

Lemma sum_cons (x : R) (l : list R) : sum (x :: l) = x + sum l.
Proof. unfold sum. cbn [fold_left]. rewrite fold_left_Rplus_init. lra. Qed.

Lemma sum_nil : sum [] = 0.
Proof. reflexivity. Qed.

(** ** The average true range *)

Lemma trValues_clean (prev : Candle) (rest : list Candle) :
  TradingUtils.trValues (Some prev) (map Some rest) = Normal (true_ranges prev rest).
Proof.
  revert prev; induction rest as [| c t IH]; intros prev; cbn [map TradingUtils.trValues].
  - reflexivity.
  - cbn [read bind]. rewrite IH. reflexivity.
Qed.

Lemma true_ranges_length (prev : Candle) (rest : list Candle) :
  length (true_ranges prev rest) = length rest.
Proof.
  revert prev; induction rest as [| c t IH]; intros prev; cbn [true_ranges length];
    [reflexivity | rewrite IH; reflexivity].
Qed.

Lemma true_range_nonneg (p c : Candle) : 0 <= true_range p c.
Proof.
  unfold true_range.
  apply Rle_trans with (Rabs (low c - close p)); [apply Rabs_pos | apply Rmax_r].
Qed.

Lemma true_ranges_nonneg (prev : Candle) (rest : list Candle) :
  Forall (fun x => 0 <= x) (true_ranges prev rest).
Proof.
  revert prev; induction rest as [| c t IH]; intros prev; cbn [true_ranges];
    constructor; [apply true_range_nonneg | apply IH].
Qed.

Lemma sum_between (lo hi : R) (l : list R) :
  Forall (fun x => lo <= x <= hi) l ->
  INR (length l) * lo <= sum l <= INR (length l) * hi.
Proof.
  induction 1 as [| x l Hx _ IH].
  - rewrite sum_nil. cbn [length INR]. lra.
  - rewrite sum_cons. cbn [length]. rewrite S_INR. lra.
Qed.

Lemma wilder_between (lo hi p : R) (l : list R) (a : R) :
  1 <= p -> lo <= a <= hi ->
  Forall (fun x => lo <= x <= hi) l ->
  lo <= fold_left (fun atr tr => (atr * (p - 1) + tr) / p) l a <= hi.
Proof.
  intros Hp Ha H. revert a Ha.
  induction H as [| x l Hx _ IH]; intros a Ha; cbn [fold_left]; [exact Ha |].
  apply IH.
  assert (Hinv : 0 < / p) by (apply Rinv_0_lt_compat; lra).
  assert (Heq : forall b, (b * (p - 1) + b) / p = b) by (intros b; field; lra).
  split.
  - rewrite <- (Heq lo). unfold Rdiv. apply Rmult_le_compat_r; [lra | nra].
  - rewrite <- (Heq hi). unfold Rdiv. apply Rmult_le_compat_r; [lra | nra].
Qed.

Lemma Forall_firstn {A : Type} (P : A -> Prop) (n : nat) (l : list A) :
  Forall P l -> Forall P (firstn n l).
Proof.
  intros H. apply Forall_forall. intros x Hx.
  rewrite Forall_forall in H. apply H.
  rewrite <- (firstn_skipn n l). apply in_or_app. left; exact Hx.
Qed.

Lemma Forall_skipn {A : Type} (P : A -> Prop) (n : nat) (l : list A) :
  Forall P l -> Forall P (skipn n l).
Proof.
  intros H. apply Forall_forall. intros x Hx.
  rewrite Forall_forall in H. apply H.
  rewrite <- (firstn_skipn n l). apply in_or_app. right; exact Hx.
Qed.

Lemma atr_between (lo hi : R) (period : nat) (trs : list R) :
  (1 <= period <= length trs)%nat ->
  Forall (fun x => lo <= x <= hi) trs ->
  lo <= fold_left (fun atr tr => (atr * (INR period - 1) + tr) / INR period)
          (skipn period trs) (sum (firstn period trs) / INR period) <= hi.
Proof.
  intros Hp H.
  assert (Hpos : 1 <= INR period).
  { change 1 with (INR 1). apply le_INR. lia. }
  apply wilder_between; [exact Hpos | | apply Forall_skipn; exact H].
  pose proof (sum_between lo hi (firstn period trs) (Forall_firstn _ period trs H)) as Hs.
  rewrite length_firstn, Nat.min_l in Hs by lia.
  assert (Hinv : 0 < / INR period) by (apply Rinv_0_lt_compat; lra).
  split.
  - replace lo with (INR period * lo / INR period) by (field; lra).
    unfold Rdiv. apply Rmult_le_compat_r; lra.
  - replace hi with (INR period * hi / INR period) by (field; lra).
    unfold Rdiv. apply Rmult_le_compat_r; lra.
Qed.

Lemma Math_bounds (l : list R) :
  Forall (fun x => Math_min l <= x <= Math_max l) l.
Proof.
  apply Forall_forall. intros x Hx. split; [apply Math_min_le | apply Math_max_ge]; exact Hx.
Qed.

(** On a series without holes that is longer than the period, the value
    is the Wilder smoothing of the true ranges. *)
Lemma calculateATR_clean (c0 : Candle) (rest : list Candle) (period : nat) :
  (period <= length rest)%nat ->
  TradingUtils.calculateATR (Some (map Some (c0 :: rest))) period
  = Normal (fold_left (fun atr tr => (atr * (INR period - 1) + tr) / INR period)
              (skipn period (true_ranges c0 rest))
              (sum (firstn period (true_ranges c0 rest)) / INR period)).
Proof.
  intros Hp. unfold TradingUtils.calculateATR.
  rewrite length_map. cbn [length].
  replace (Nat.ltb (S (length rest)) (period + 1)) with false
    by (symmetry; apply Nat.ltb_ge; lia).
  cbn [map]. rewrite trValues_clean. reflexivity.
Qed.

Lemma true_ranges_between_0_max (c0 : Candle) (rest : list Candle) :
  Forall (fun x => 0 <= x <= Math_max (true_ranges c0 rest)) (true_ranges c0 rest).
Proof.
  apply Forall_forall. intros x Hx. split.
  - pose proof (true_ranges_nonneg c0 rest) as Hn.
    rewrite Forall_forall in Hn. apply Hn. exact Hx.
  - apply Math_max_ge. exact Hx.
Qed.

(** X2.  [calculateATR]: on a series without holes that is longer than
    the period, the average true range is a number, it is not negative,
    and it lies between the smallest and the largest true range of the
    series. *)
Theorem calculateATR_between_true_ranges (c0 : Candle) (rest : list Candle)
  (period : nat) :
  (1 <= period <= length rest)%nat ->
  exists atr,
    TradingUtils.calculateATR (Some (map Some (c0 :: rest))) period = Normal atr
    /\ 0 <= atr
    /\ Math_min (true_ranges c0 rest) <= atr <= Math_max (true_ranges c0 rest).
Proof.
  intros Hp. rewrite calculateATR_clean by lia.
  eexists. split; [reflexivity |].
  assert (Hlen : (1 <= period <= length (true_ranges c0 rest))%nat)
    by (rewrite true_ranges_length; exact Hp).
  split.
  - apply (atr_between 0 (Math_max (true_ranges c0 rest))); [exact Hlen |].
    apply true_ranges_between_0_max.
  - apply atr_between; [exact Hlen | apply Math_bounds].
Qed.

Lemma calculateATR_between_true_ranges_witness :
  exists atr,
    TradingUtils.calculateATR (Some (map Some MoreSamples.three_bars)) 1 = Normal atr
    /\ 0 <= atr
    /\ Math_min (true_ranges (Samples.flat 100 9)
                   [mkCandle 0 100 102 100 101 19; Samples.flat 101 9]) <= atr
       <= Math_max (true_ranges (Samples.flat 100 9)
                      [mkCandle 0 100 102 100 101 19; Samples.flat 101 9]).
Proof.
  apply (calculateATR_between_true_ranges (Samples.flat 100 9)
           [mkCandle 0 100 102 100 101 19; Samples.flat 101 9] 1).
  cbn [length]. lia.
Defined.

(** Fewer than [period + 1] candles: 0, whatever the entries are. *)
Lemma calculateATR_short (cs : Candles) (period : nat) :
  (length cs < period + 1)%nat ->
  TradingUtils.calculateATR (Some cs) period = Normal 0.
Proof.
  intros H. unfold TradingUtils.calculateATR.
  replace (Nat.ltb (length cs) (period + 1)) with true
    by (symmetry; apply Nat.ltb_lt; exact H).
  reflexivity.
Qed.

(** ** VWAP *)

Lemma vwap_fold (lo hi : R) (cs : list Candle) (a b : R) :
  Forall (fun c => 0 <= volume c /\ lo <= typical_price c <= hi) cs ->
  0 <= b -> lo * b <= a <= hi * b ->
  let acc :=
    fold_left
      (fun (a : R * R) c =>
         let typicalPrice := (high c + low c + close c) / 3 in
         (fst a + typicalPrice * volume c, snd a + volume c))
      cs (a, b) in
  b <= snd acc /\ lo * snd acc <= fst acc <= hi * snd acc
  /\ (Exists (fun c => 0 < volume c) cs -> 0 < snd acc).
Proof.
  intros H. revert a b.
  induction H as [| c cs [Hv Hc] _ IH]; intros a b Hb Hab; cbn [fold_left].
  - cbn [fst snd]. split; [lra | split; [exact Hab |]].
    intros Hex. inversion Hex.
  - cbv zeta in IH |- *. cbn [fst snd].
    fold (typical_price c).
    destruct (IH (a + typical_price c * volume c) (b + volume c)) as (H1 & H2 & H3).
    + lra.
    + nra.
    + split; [lra | split; [exact H2 |]].
      intros Hex. inversion Hex as [? ? Hpos | ? ? Hrest]; subst.
      * lra.
      * apply H3. exact Hrest.
Qed.

(** X3.  [calculateVWAP]: when no volume is negative and some volume is
    positive, the VWAP lies within every interval that holds the typical
    prices of all the candles. *)
Theorem calculateVWAP_between (lo hi : R) (cs : list Candle) :
  Forall (fun c => 0 <= volume c /\ lo <= typical_price c <= hi) cs ->
  Exists (fun c => 0 < volume c) cs ->
  exists vwap,
    TradingUtils.calculateVWAP (Some (map Some cs)) = Normal vwap
    /\ lo <= vwap <= hi.
Proof.
  intros H Hex. unfold TradingUtils.calculateVWAP.
  destruct cs as [| c0 t]; [inversion Hex |].
  change (map Some (c0 :: t)) with (Some c0 :: map Some t).
  change (Some c0 :: map Some t) with (map Some (c0 :: t)).
  rewrite mapM_read_some, map_id. cbn [bind].
  pose proof (vwap_fold lo hi (c0 :: t) 0 0 H (Rle_refl 0)) as Hf.
  cbv zeta in Hf.
  destruct Hf as (_ & Hb & Hpos); [lra |].
  specialize (Hpos Hex).
  eexists. split; [reflexivity |].
  unfold Rgtb. rewrite Rltb_true by exact Hpos.
  set (acc := fold_left _ _ _) in *.
  assert (Hinv : 0 < / snd acc) by (apply Rinv_0_lt_compat; exact Hpos).
  split.
  - replace lo with (lo * snd acc / snd acc) by (field; lra).
    unfold Rdiv. apply Rmult_le_compat_r; lra.
  - replace hi with (hi * snd acc / snd acc) by (field; lra).
    unfold Rdiv. apply Rmult_le_compat_r; lra.
Qed.

Lemma calculateVWAP_between_witness :
  exists vwap,
    TradingUtils.calculateVWAP
      (Some (map Some [Samples.flat 100 9; Samples.flat 101 1])) = Normal vwap
    /\ 99 <= vwap <= 102.
Proof.
  apply (calculateVWAP_between 99 102 [Samples.flat 100 9; Samples.flat 101 1]).
  - repeat (apply Forall_cons; [unfold typical_price; cbn; lra |]). apply Forall_nil.
  - apply Exists_cons_hd. cbn. lra.
Defined.

(** ** Correlation *)

Lemma fold_left_map_sum {A : Type} (f : A -> R) (l : list A) (a : R) :
  fold_left (fun acc x => acc + f x) l a = a + sum (map f l).
Proof.
  revert a; induction l as [| x l IH]; intros a; cbn [fold_left map].
  - rewrite sum_nil. lra.
  - rewrite IH, sum_cons. lra.
Qed.

Lemma combine_swap_sum (f : R * R -> R) (g : R * R -> R) (a b : list R) :
  (forall x y, f (x, y) = g (y, x)) ->
  sum (map f (combine a b)) = sum (map g (combine b a)).
Proof.
  intros H. revert b; induction a as [| x a IH]; intros [| y b]; cbn [combine map];
    try reflexivity.
  rewrite !sum_cons, IH, H. reflexivity.
Qed.

(** X5.  [calculateCorrelation] does not depend on the order of its two
    arguments. *)
Theorem calculateCorrelation_symmetric (array1 array2 : list R) :
  TradingUtils.calculateCorrelation array1 array2
  = TradingUtils.calculateCorrelation array2 array1.
Proof.
  destruct (Nat.eq_dec (length array1) (length array2)) as [Hlen | Hlen].
  - unfold TradingUtils.calculateCorrelation.
    rewrite <- Hlen, Nat.eqb_refl. cbn [negb orb].
    destruct (Nat.ltb (length array1) 2); [reflexivity |].
    cbv zeta. rewrite !fold_left_map_sum.
    rewrite (combine_swap_sum (fun p => fst p * snd p) (fun p => fst p * snd p) array1 array2)
      by (intros; cbn [fst snd]; ring).
    rewrite (Rmult_comm (sum array1) (sum array2)).
    rewrite (Rmult_comm (0 + sum (map (fun x => x * x) array1) - _)).
    reflexivity.
  - unfold TradingUtils.calculateCorrelation.
    replace (Nat.eqb (length array1) (length array2)) with false
      by (symmetry; apply Nat.eqb_neq; exact Hlen).
    replace (Nat.eqb (length array2) (length array1)) with false
      by (symmetry; apply Nat.eqb_neq; intros E; apply Hlen; symmetry; exact E).
    reflexivity.
Qed.

(** ** Scores, hours, sizes *)

(** X7.  [normalizeScore] answers a number between 0 and 100 whatever the
    bounds are, and when [min < max] it does not decrease as the value
    grows. *)
Theorem normalizeScore_range (value value' min max : R) :
  0 <= TradingUtils.normalizeScore value min max <= 100
  /\ (min < max -> value <= value' ->
      TradingUtils.normalizeScore value min max
      <= TradingUtils.normalizeScore value' min max).
Proof.
  unfold TradingUtils.normalizeScore. split.
  - destruct (Reqb max min); [lra |].
    split; [apply Rmax_l |].
    apply Rmax_lub; [lra | apply Rmin_l].
  - intros Hlt Hle. rewrite Reqb_false by lra.
    assert (Hinv : 0 < / (max - min)) by (apply Rinv_0_lt_compat; lra).
    assert (H : (value - min) / (max - min) * 100 <= (value' - min) / (max - min) * 100).
    { unfold Rdiv. apply Rmult_le_compat_r; [lra |].
      apply Rmult_le_compat_r; lra. }
    apply Rle_max_compat_l. apply Rle_min_compat_l. exact H.
Qed.

(** X8.  [isTradingHours]: for an hour from 0 to 23 and a minute from 0
    to 59, the answer is true exactly from 04:00 to 23:30, both ends
    included. *)
Theorem isTradingHours_window (hour minute : Z) :
  (0 <= hour <= 23)%Z -> (0 <= minute <= 59)%Z ->
  TradingUtils.isTradingHours hour minute = true
  <-> (4 * 60 <= 60 * hour + minute <= 23 * 60 + 30)%Z.
Proof.
  intros Hh Hm. unfold TradingUtils.isTradingHours.
  destruct (Z.ltb_spec hour 4) as [H4 | H4].
  - split; [discriminate | lia].
  - destruct (Z.eqb_spec hour 23) as [H23 | H23]; cbn [andb].
    + unfold Z.gtb. destruct (Z.compare_spec minute 30) as [E | E | E];
        (split; [intros; try discriminate; lia | intros; try reflexivity; lia]).
    + split; [intros _; lia | reflexivity].
Qed.

Lemma isTradingHours_window_witness :
  TradingUtils.isTradingHours 23 30 = true
  <-> (4 * 60 <= 60 * 23 + 30 <= 23 * 60 + 30)%Z.
Proof. apply isTradingHours_window; lia. Defined.

Lemma round_half_away_error (y : R) : Rabs (IZR (round_half_away y) - y) <= / 2.
Proof.
  unfold round_half_away.
  destruct (Rlt_dec y 0) as [Hy | Hy].
  - rewrite Rltb_true by exact Hy. rewrite opp_IZR.
    pose proof (Zfloor_bound (- y + / 2)) as B.
    apply Rabs_le. lra.
  - rewrite Rltb_false by lra.
    pose proof (Zfloor_bound (y + / 2)) as B.
    apply Rabs_le. lra.
Qed.

Lemma toFixed_error (d : nat) (x : R) :
  Rabs (parseFloat (toFixed d x) - x) <= / (2 * 10 ^ d).
Proof.
  unfold toFixed, parseFloat. cbn [scaled digits].
  assert (Hp : 0 < 10 ^ d) by (apply pow_lt; lra).
  pose proof (round_half_away_error (x * 10 ^ d)) as E.
  replace (IZR (round_half_away (x * 10 ^ d)) / 10 ^ d - x)
    with ((IZR (round_half_away (x * 10 ^ d)) - x * 10 ^ d) * / 10 ^ d)
    by (field; lra).
  rewrite Rabs_mult, (Rabs_pos_eq (/ 10 ^ d))
    by (left; apply Rinv_0_lt_compat; exact Hp).
  rewrite Rinv_mult.
  apply Rmult_le_compat_r; [left; apply Rinv_0_lt_compat; exact Hp | exact E].
Qed.

(** X9.  [calculatePositionSize]: when the entry differs from the stop,
    both fields are strings, the size with 8 decimals and the maximal loss
    with 2; the loss at the stop on the reported size differs from the
    risk amount by at most half a unit of the eighth decimal times the stop
    distance, and the reported maximal loss differs from the risk amount by
    at most half a cent. *)
Theorem calculatePositionSize_risk (accountBalance riskPercent entry stopLoss : R) :
  entry <> stopLoss ->
  exists s m,
    TradingUtils.calculatePositionSize accountBalance riskPercent entry stopLoss
    = TradingUtils.mkPositionSizing (TradingUtils.SizeStr s) (TradingUtils.SizeStr m)
    /\ digits s = 8%nat /\ digits m = 2%nat
    /\ Rabs (parseFloat s * Rabs (entry - stopLoss) - accountBalance * (riskPercent / 100))
       <= Rabs (entry - stopLoss) / (2 * 10 ^ 8)
    /\ Rabs (parseFloat m - accountBalance * (riskPercent / 100)) <= / (2 * 10 ^ 2).
Proof.
  intros Hne. unfold TradingUtils.calculatePositionSize. cbv zeta.
  assert (Hr : 0 < Rabs (entry - stopLoss)) by (apply Rabs_pos_lt; lra).
  rewrite Reqb_false by lra.
  eexists. eexists. split; [reflexivity |].
  split; [reflexivity | split; [reflexivity |]].
  split; [| apply toFixed_error].
  set (risk := accountBalance * (riskPercent / 100)).
  set (r := Rabs (entry - stopLoss)) in *.
  pose proof (toFixed_error 8 (risk / r)) as E.
  replace (parseFloat (toFixed 8 (risk / r)) * r - risk)
    with ((parseFloat (toFixed 8 (risk / r)) - risk / r) * r) by (field; lra).
  rewrite Rabs_mult, (Rabs_pos_eq r) by lra.
  replace (r / (2 * 10 ^ 8)) with (/ (2 * 10 ^ 8) * r) by (unfold Rdiv; ring).
  apply Rmult_le_compat_r; [lra | exact E].
Qed.

Lemma calculatePositionSize_risk_witness :
  exists s m,
    TradingUtils.calculatePositionSize 1000 1 100 98
    = TradingUtils.mkPositionSizing (TradingUtils.SizeStr s) (TradingUtils.SizeStr m)
    /\ digits s = 8%nat /\ digits m = 2%nat
    /\ Rabs (parseFloat s * Rabs (100 - 98) - 1000 * (1 / 100))
       <= Rabs (100 - 98) / (2 * 10 ^ 8)
    /\ Rabs (parseFloat m - 1000 * (1 / 100)) <= / (2 * 10 ^ 2).
Proof. apply (calculatePositionSize_risk 1000 1 100 98). lra. Defined.

Lemma ensures_bind {A B : Type} (P : B -> Prop) (c : completion A)
  (k : A -> completion B) :
  (forall a, ensures P (k a)) -> ensures P (bind c k).
Proof. intros H. destruct c as [a | m]; [apply H | exact I]. Qed.

Lemma Math_round_le_100 (x : R) : Math_round (Rmin 100 x) <= 100.
Proof.
  unfold Math_round. change 100 with (IZR 100) at 2. apply IZR_le.
  assert (H : (Zfloor (Rmin 100 x + / 2) < 100 + 1)%Z); [| lia].
  apply lt_IZR. pose proof (Zfloor_bound (Rmin 100 x + / 2)) as B.
  pose proof (Rmin_l 100 x). rewrite plus_IZR. lra.
Qed.

Lemma Math_round_0 : Math_round 0 = 0.
Proof. exact (Math_round_IZR 0). Qed.

Lemma sided_takes_side (n : string) (s : R) (d : Direction) (r : text)
  (m : option (list (string * R))) (w : option R) :
  d <> NEUTRAL ->
  takes_side_by_name (mkVerdict (Some n) s d r m w).
Proof.
  intros Hd. unfold takes_side_by_name. cbn [score direction name].
  split; [intros E; contradiction | intros _; discriminate].
Qed.

Lemma neutral_rounded_zero (n : option string) (r : text)
  (m : option (list (string * R))) (w : option R) :
  takes_side_by_name (mkVerdict n (Math_round 0) NEUTRAL r m w).
Proof.
  unfold takes_side_by_name. cbn [score direction name].
  split; [intros _; apply Math_round_0 | intros H; contradiction].
Qed.

Lemma neutral_zero (n : option string) (r : text)
  (m : option (list (string * R))) (w : option R) :
  takes_side_by_name (mkVerdict n 0 NEUTRAL r m w).
Proof.
  unfold takes_side_by_name. cbn [score direction name].
  split; [reflexivity | intros H; contradiction].
Qed.

Ltac sound_leaf :=
  first [ apply neutral_rounded_zero
        | apply neutral_zero
        | apply sided_takes_side; discriminate
        | exact I ].

Ltac sound_step :=
  match goal with
  | |- ensures _ (bind _ _) => apply ensures_bind; intro
  | |- ensures _ (if ?b then _ else _) => destruct b
  | |- ensures _ (match ?x with _ => _ end) =>
      match x with
      | context [if ?b then _ else _] => destruct b
      | _ => destruct x
      end
  | |- ensures _ (Normal _) => cbn [ensures]
  | |- ensures _ (Throw _) => exact I
  | |- takes_side_by_name ?t =>
      match t with context [if ?b then _ else _] => destruct b end
  end.

Section SuiteScores.

Import SignalDetectors.

Variable RSI_calculate : list R -> nat -> completion (list R).
Variable BollingerBands_calculate : list R -> nat -> R -> completion (list BBand).

Lemma momentumBreakout_sound (data : option Snapshot) (config : option DetectorConfig) :
  ensures takes_side_by_name (momentumBreakoutDetector data config).
Proof.
  unfold momentumBreakoutDetector. apply ensures_bind; intros c.
  unfold try_catch.
  assert (H : ensures takes_side_by_name
                (momentumBreakout_try (dflt (breakoutPeriod c) 20%nat)
                   (dflt (volumeMultiplier c) 1.5) (dflt (minBreakoutPercent c) 1.0) data)).
  { unfold momentumBreakout_try, early.
    repeat sound_step; try sound_leaf.
    unfold MomentumBreakout.verdict, MomentumBreakout.outcome.
    repeat sound_step; sound_leaf. }
  destruct (momentumBreakout_try _ _ _ data); [exact H | apply neutral_zero].
Qed.

Lemma vwapPullback_sound (data : option Snapshot) (config : option DetectorConfig) :
  ensures takes_side_by_name (vwapPullbackDetector data config).
Proof.
  unfold vwapPullbackDetector. apply ensures_bind; intros c.
  unfold try_catch.
  assert (H : ensures takes_side_by_name
                (vwapPullback_try (dflt (vwapDelta c) 0.002) (dflt (volumeUptick c) 1.2) data)).
  { unfold vwapPullback_try, early. repeat sound_step; sound_leaf. }
  destruct (vwapPullback_try _ _ data); [exact H | apply neutral_zero].
Qed.

Lemma volumeSpike_sound (data : option Snapshot) (config : option DetectorConfig) :
  ensures takes_side_by_name (volumeSpikeDetector data config).
Proof.
  unfold volumeSpikeDetector. apply ensures_bind; intros c.
  unfold try_catch.
  assert (H : ensures takes_side_by_name
                (volumeSpike_try (dflt (volumeZScoreThreshold c) 2.0) data)).
  { unfold volumeSpike_try, early. repeat sound_step; sound_leaf. }
  destruct (volumeSpike_try _ data); [exact H | apply neutral_zero].
Qed.

Lemma orderbookSweep_sound (data : option Snapshot) (config : option DetectorConfig) :
  ensures takes_side_by_name (orderbookSweepDetector data config).
Proof.
  unfold orderbookSweepDetector, try_catch.
  assert (H : ensures takes_side_by_name (orderbookSweep_try data)).
  { unfold orderbookSweep_try, early. repeat sound_step; sound_leaf. }
  destruct (orderbookSweep_try data); [exact H | apply neutral_zero].
Qed.

Lemma correlationBreak_sound (random : R) (data : option Snapshot)
  (config : option DetectorConfig) :
  ensures takes_side_by_name (correlationBreakDetector random data config).
Proof.
  unfold correlationBreakDetector, try_catch.
  assert (H : ensures takes_side_by_name (correlationBreak_try random data)).
  { unfold correlationBreak_try, early. repeat sound_step; try sound_leaf.
    all: apply sided_takes_side; destruct (Rgtb random 0.5); discriminate. }
  destruct (correlationBreak_try random data); [exact H | apply neutral_zero].
Qed.

Lemma volatilitySqueeze_sound (data : option Snapshot) (config : option DetectorConfig) :
  ensures takes_side_by_name
    (volatilitySqueezeDetector BollingerBands_calculate data config).
Proof.
  unfold volatilitySqueezeDetector. apply ensures_bind; intros c.
  unfold try_catch.
  assert (H : ensures takes_side_by_name
                (volatilitySqueeze_try BollingerBands_calculate
                   (dflt (bbPeriod c) 20%nat) (dflt (bbStdDev c) 2)
                   (dflt (squeezePercentile c) 10) data)).
  { unfold volatilitySqueeze_try, early. repeat sound_step; try sound_leaf.
    all: apply sided_takes_side; match goal with |- (if ?b then _ else _) <> _ => destruct b end;
      discriminate. }
  destruct (volatilitySqueeze_try _ _ _ _ data); [exact H | apply neutral_zero].
Qed.

Lemma rsiMomentum_sound (data : option Snapshot) (config : option DetectorConfig) :
  ensures takes_side_by_name (rsiMomentumDetector RSI_calculate data config).
Proof.
  unfold rsiMomentumDetector. apply ensures_bind; intros c.
  unfold try_catch.
  assert (H : ensures takes_side_by_name
                (rsiMomentum_try RSI_calculate (dflt (rsiOverbought c) 70)
                   (dflt (rsiOversold c) 30) data)).
  { unfold rsiMomentum_try, early. repeat sound_step; sound_leaf. }
  destruct (rsiMomentum_try _ _ _ data); [exact H | apply neutral_zero].
Qed.

Lemma pushed_sound (data : option Snapshot) (config : option DetectorConfig)
  (detector : Registered) :
  ensures takes_side_by_name (fn detector data config) ->
  takes_side_by_name (pushed data config detector).
Proof.
  unfold pushed. destruct (fn detector data config) as [r | m]; cbn [ensures].
  - intros H. exact H.
  - intros _. apply neutral_zero.
Qed.

(** X10.  [runAllDetectors]: on every snapshot, with every options object
    and whatever [technicalindicators] answers, a verdict that is NEUTRAL
    has score 0, and a verdict that is LONG or SHORT carries a name.
    Nothing is said of the score of a LONG or SHORT verdict. *)
Theorem runAllDetectors_neutral_scores (random : R) (data : option Snapshot)
  (config : option DetectorConfig) :
  exists results,
    runAllDetectors RSI_calculate BollingerBands_calculate random data config
    = Normal results
    /\ Forall takes_side_by_name results.
Proof.
  rewrite runAllDetectors_pushed. eexists. split; [reflexivity |].
  unfold detectors. cbn [map].
  repeat (apply Forall_cons; [apply pushed_sound; cbn [fn] |]); [.. | apply Forall_nil].
  - apply momentumBreakout_sound.
  - apply vwapPullback_sound.
  - apply volatilitySqueeze_sound.
  - apply orderbookSweep_sound.
  - apply rsiMomentum_sound.
  - apply volumeSpike_sound.
  - apply correlationBreak_sound.
Qed.

End SuiteScores.

Section ThinHistory.

Import SignalDetectors.

Variable RSI_calculate : list R -> nat -> completion (list R).
Variable BollingerBands_calculate : list R -> nat -> R -> completion (list BBand).

Lemma silent_with_weight (why : string) (w : R) : silent (with_weight (early why) w).
Proof. split; reflexivity. Qed.

(** Every detector takes its first return. *)
Lemma thin_pushed (random : R) (data : Snapshot) (c : DetectorConfig) :
  (length (or_empty (tf15m data)) < shortest_window c)%nat ->
  (length (or_empty (tf1h data)) < 10)%nat ->
  orderbook data = None ->
  Forall silent
    (map (pushed (Some data) (Some c))
       (detectors RSI_calculate BollingerBands_calculate random)).
Proof.
  unfold shortest_window. intros H15 H1h Hob.
  unfold detectors. cbn [map]. unfold pushed. cbn [fn fn_weight].
  assert (E1 : Nat.ltb (length (or_empty (tf15m data))) (dflt (breakoutPeriod c) 20 + 5)%nat = true)
    by (apply Nat.ltb_lt; lia).
  assert (E2 : Nat.ltb (length (or_empty (tf15m data))) 20 = true)
    by (apply Nat.ltb_lt; lia).
  assert (E3 : Nat.ltb (length (or_empty (tf15m data))) (dflt (bbPeriod c) 20 + 10)%nat = true)
    by (apply Nat.ltb_lt; lia).
  assert (E4 : Nat.ltb (length (or_empty (tf15m data))) 15 = true)
    by (apply Nat.ltb_lt; lia).
  assert (E5 : Nat.ltb (length (or_empty (tf1h data))) 10 = true)
    by (apply Nat.ltb_lt; lia).
  repeat apply Forall_cons; [.. | apply Forall_nil].
  - unfold momentumBreakoutDetector, momentumBreakout_try, frame.
    cbn [destructure bind read]. rewrite E1. apply silent_with_weight.
  - unfold vwapPullbackDetector, vwapPullback_try, frame.
    cbn [destructure bind read]. rewrite E2, orb_true_r. apply silent_with_weight.
  - unfold volatilitySqueezeDetector, volatilitySqueeze_try, frame.
    cbn [destructure bind read]. rewrite E3. apply silent_with_weight.
  - unfold orderbookSweepDetector, orderbookSweep_try.
    cbn [bind read]. rewrite Hob. apply silent_with_weight.
  - unfold rsiMomentumDetector, rsiMomentum_try, frame.
    cbn [destructure bind read]. rewrite E4. apply silent_with_weight.
  - unfold volumeSpikeDetector, volumeSpike_try, frame.
    cbn [destructure bind read]. rewrite E2. apply silent_with_weight.
  - unfold correlationBreakDetector, correlationBreak_try, frame.
    cbn [bind read]. rewrite E5. apply silent_with_weight.
Qed.

(** X11.  [runAllDetectors]: with a 15m history too short for every
    detector that reads it, fewer than 10 hourly candles and no order
    book, all seven verdicts are NEUTRAL with score 0, whatever the candle
    arrays hold. *)
Theorem runAllDetectors_thin_history (random : R) (data : Snapshot)
  (c : DetectorConfig) :
  (length (or_empty (tf15m data)) < shortest_window c)%nat ->
  (length (or_empty (tf1h data)) < 10)%nat ->
  orderbook data = None ->
  exists results,
    runAllDetectors RSI_calculate BollingerBands_calculate random (Some data) (Some c)
    = Normal results
    /\ length results = 7%nat
    /\ Forall silent results.
Proof.
  intros H15 H1h Hob. rewrite runAllDetectors_pushed.
  eexists. split; [reflexivity |]. split; [reflexivity |].
  apply thin_pushed; assumption.
Qed.

End ThinHistory.

Lemma runAllDetectors_thin_history_witness :
  exists results,
    SignalDetectors.runAllDetectors MoreSamples.RSI_unavailable
      MoreSamples.BollingerBands_unavailable
      (1 / 2) (Some (Samples.only15m (repeat (Samples.flat 100 9) 14)))
      (Some empty_config)
    = Normal results
    /\ length results = 7%nat
    /\ Forall silent results.
Proof.
  apply runAllDetectors_thin_history.
  - cbn. lia.
  - cbn. lia.
  - reflexivity.
Defined.

(** ** Majorities *)

Lemma stable_majority (vs : list Verdict) :
  let a := EnsembleStable.calculateDetectorAgreement vs in
  let longs := length (filter (material LONG) vs) in
  let shorts := length (filter (material SHORT) vs) in
  EnsembleStable.majorityDirection a = (if Nat.ltb longs shorts then SHORT else LONG)
  /\ EnsembleStable.majorityCount a = Nat.max longs shorts.
Proof.
  cbv zeta. unfold EnsembleStable.calculateDetectorAgreement. cbv zeta.
  cbn [EnsembleStable.majorityDirection EnsembleStable.majorityCount].
  rewrite majority_entry_eq.
  pose proof (tally_fold vs (mkTally 0 0 0)) as T. cbv zeta in T.
  destruct T as (TL & TS & _). cbn [n_LONG n_SHORT] in TL, TS.
  rewrite TL, TS. cbn [Nat.add].
  destruct (Nat.ltb_spec (length (filter (material LONG) vs))
              (length (filter (material SHORT) vs))); split; (reflexivity || lia).
Qed.

Lemma weighted_majority (vs : list Verdict) :
  let a := EnsembleWeighted.calculateDetectorAgreement vs in
  let longs := length (filter (fun v => Direction_eqb (direction v) LONG) vs) in
  let shorts := length (filter (fun v => Direction_eqb (direction v) SHORT) vs) in
  EnsembleWeighted.majorityDirection a = (if Nat.ltb longs shorts then SHORT else LONG)
  /\ EnsembleWeighted.majorityCount a = Nat.max longs shorts.
Proof.
  cbv zeta. unfold EnsembleWeighted.calculateDetectorAgreement. cbv zeta.
  cbn [EnsembleWeighted.majorityDirection EnsembleWeighted.majorityCount].
  rewrite majority_entry_eq.
  pose proof (weighted_tally_fold vs (mkTally 0 0 0)) as T. cbv zeta in T.
  destruct T as (TL & TS & _). cbn [n_LONG n_SHORT] in TL, TS.
  rewrite TL, TS. cbn [Nat.add].
  destruct (Nat.ltb_spec (length (filter (fun v => Direction_eqb (direction v) LONG) vs))
              (length (filter (fun v => Direction_eqb (direction v) SHORT) vs)));
    split; (reflexivity || lia).
Qed.

(** X12.  [calculateDetectorAgreement], both files: [majorityCount] is the
    larger of the LONG and the SHORT tally, [majorityDirection] is SHORT only
    when the SHORT tally is strictly larger, and a tie, the tie of two empty
    tallies included, is resolved as LONG. *)
Theorem majority_is_larger_tally (vs : list Verdict) :
  let s := EnsembleStable.calculateDetectorAgreement vs in
  let w := EnsembleWeighted.calculateDetectorAgreement vs in
  let count (p : Verdict -> bool) := length (filter p vs) in
  EnsembleStable.majorityCount s
  = Nat.max (count (material LONG)) (count (material SHORT))
  /\ (EnsembleStable.majorityDirection s = SHORT
      <-> (count (material LONG) < count (material SHORT))%nat)
  /\ (EnsembleStable.majorityDirection s = LONG
      <-> (count (material SHORT) <= count (material LONG))%nat)
  /\ EnsembleWeighted.majorityCount w
     = Nat.max (count (fun v => Direction_eqb (direction v) LONG))
               (count (fun v => Direction_eqb (direction v) SHORT))
  /\ (EnsembleWeighted.majorityDirection w = SHORT
      <-> (count (fun v => Direction_eqb (direction v) LONG)
           < count (fun v => Direction_eqb (direction v) SHORT))%nat)
  /\ (EnsembleWeighted.majorityDirection w = LONG
      <-> (count (fun v => Direction_eqb (direction v) SHORT)
           <= count (fun v => Direction_eqb (direction v) LONG))%nat).
Proof.
  cbv zeta.
  destruct (stable_majority vs) as (SD & SC). cbv zeta in SD, SC.
  destruct (weighted_majority vs) as (WD & WC). cbv zeta in WD, WC.
  rewrite SD, SC, WD, WC.
  repeat split;
    repeat match goal with
           | |- context [Nat.ltb ?a ?b] => destruct (Nat.ltb_spec a b)
           end;
    intros; try reflexivity; try discriminate; try lia.
Qed.

(** ** Verdicts that take no side *)

Lemma quiet_not_material (d : Direction) (vs : list Verdict) :
  d <> NEUTRAL -> Forall quiet vs -> filter (material d) vs = [].
Proof.
  intros Hd H. induction H as [| v vs Hv _ IH]; [reflexivity |].
  cbn [filter]. rewrite IH.
  replace (material d v) with false; [reflexivity |].
  symmetry. unfold material. destruct Hv as [Hv | Hv].
  - rewrite Hv. destruct d; try reflexivity. contradiction.
  - unfold Rgtb. rewrite Rltb_false by lra. apply andb_false_r.
Qed.

Lemma stable_quiet_gate (config : EnsembleStable.Config) (vs : list Verdict) :
  Forall quiet vs ->
  EnsembleStable.calculateMetaScore config vs
    (EnsembleStable.calculateDetectorAgreement vs) = 0
  /\ EnsembleStable.majorityCount (EnsembleStable.calculateDetectorAgreement vs)
     = 0%nat.
Proof.
  intros Hq.
  destruct (stable_majority vs) as (SD & SC). cbv zeta in SD, SC.
  rewrite !quiet_not_material in SD, SC by (exact Hq || discriminate).
  cbn [length Nat.ltb Nat.leb Nat.max] in SD, SC.
  split; [| exact SC].
  unfold EnsembleStable.calculateMetaScore.
  destruct (Rltb _ _); [reflexivity |].
  pose proof (stable_score_fold
                (EnsembleStable.majorityDirection
                   (EnsembleStable.calculateDetectorAgreement vs)) vs (0, 0%nat)) as F.
  cbv zeta in F. destruct F as (_ & F2).
  rewrite SD, quiet_not_material in F2 by (exact Hq || discriminate).
  cbn [snd length Nat.add] in F2. rewrite SD.
  destruct (fold_left _ vs (0, 0%nat)) as [totalScore count].
  cbn [snd] in F2. rewrite F2. reflexivity.
Qed.

(** The gate of [analyze] when it is closed. *)
Lemma stable_closed_gate (config : EnsembleStable.Config) (vs : list Verdict)
  (data : Snapshot) :
  let a := EnsembleStable.calculateDetectorAgreement vs in
  let m := EnsembleStable.calculateMetaScore config vs a in
  m < EnsembleStable.minConfidence config
  \/ INR (EnsembleStable.majorityCount a) < EnsembleStable.minDetectorAgreement config ->
  exists dec,
    EnsembleStable.analyze config vs data = Normal dec
    /\ EnsembleStable.dec_direction dec = NO_TRADE
    /\ EnsembleStable.confidence dec = Math_round m
    /\ EnsembleStable.levels dec = None.
Proof.
  cbv zeta. intros Hgate. unfold EnsembleStable.analyze. cbv zeta.
  replace (andb (Rgeb _ (EnsembleStable.minConfidence config))
                (Rgeb _ (EnsembleStable.minDetectorAgreement config))) with false.
  - eexists. split; [reflexivity |]. repeat split.
  - symmetry. unfold Rgeb. destruct Hgate as [H | H].
    + rewrite Rleb_false by lra. reflexivity.
    + rewrite (Rleb_false (EnsembleStable.minDetectorAgreement config)) by lra.
      apply andb_false_r.
Qed.

(** X13.  [analyze] of the simplified ensemble: when no verdict is both
    directional and above score 40, and one of the two thresholds is
    positive, the decision is NO_TRADE with confidence 0 and without
    levels. *)
Theorem stable_analyze_quiet_verdicts (config : EnsembleStable.Config)
  (vs : list Verdict) (data : Snapshot) :
  Forall quiet vs ->
  0 < EnsembleStable.minConfidence config
  \/ 0 < EnsembleStable.minDetectorAgreement config ->
  exists dec,
    EnsembleStable.analyze config vs data = Normal dec
    /\ EnsembleStable.dec_direction dec = NO_TRADE
    /\ EnsembleStable.confidence dec = 0
    /\ EnsembleStable.levels dec = None.
Proof.
  intros Hq Hcfg.
  destruct (stable_quiet_gate config vs Hq) as (Hm & Hc).
  destruct (stable_closed_gate config vs data) as (dec & Hdec & Hdir & Hconf & Hlv).
  { rewrite Hm, Hc. cbn [INR]. exact Hcfg. }
  exists dec. rewrite Hm, Math_round_0 in Hconf. repeat split; assumption.
Qed.

Lemma stable_analyze_quiet_verdicts_witness :
  exists dec,
    EnsembleStable.analyze Samples.stable_defaults Samples.weak_long Samples.no_history
    = Normal dec
    /\ EnsembleStable.dec_direction dec = NO_TRADE
    /\ EnsembleStable.confidence dec = 0
    /\ EnsembleStable.levels dec = None.
Proof.
  apply stable_analyze_quiet_verdicts.
  - apply Forall_cons; [right; cbn; lra | apply Forall_nil].
  - left. cbn. lra.
Defined.

Lemma neutral_filter (vs : list Verdict) :
  Forall (fun v => direction v = NEUTRAL) vs ->
  filter (fun d => negb (Direction_eqb (direction d) NEUTRAL)) vs = [].
Proof.
  induction 1 as [| v vs Hv _ IH]; [reflexivity |].
  cbn [filter]. rewrite Hv, IH. reflexivity.
Qed.

Lemma neutral_accumulate (config : EnsembleWeighted.Config)
  (a : EnsembleWeighted.Agreement) (vs : list Verdict) (acc : EnsembleWeighted.Accum) :
  Forall (fun v => direction v = NEUTRAL) vs ->
  fold_left (fun st detector => x <- st ;; EnsembleWeighted.accumulate config a x detector)
    vs (Normal acc)
  = Normal acc.
Proof.
  induction 1 as [| v vs Hv _ IH]; [reflexivity |].
  cbn [fold_left bind]. unfold EnsembleWeighted.accumulate at 2.
  rewrite Hv. cbn [Direction_eqb negb andb]. exact IH.
Qed.

Lemma weighted_neutral_gate (config : EnsembleWeighted.Config) (hour : Z)
  (vs : list Verdict) :
  Forall (fun v => direction v = NEUTRAL) vs ->
  EnsembleWeighted.calculateMetaScore config hour vs
    (EnsembleWeighted.calculateDetectorAgreement vs) = Normal 0
  /\ EnsembleWeighted.majorityCount (EnsembleWeighted.calculateDetectorAgreement vs)
     = 0%nat.
Proof.
  intros Hn. split.
  - unfold EnsembleWeighted.calculateMetaScore.
    rewrite neutral_accumulate by exact Hn.
    cbn [bind EnsembleWeighted.totalWeight]. rewrite Reqb_true by reflexivity.
    reflexivity.
  - unfold EnsembleWeighted.calculateDetectorAgreement. cbv zeta.
    rewrite neutral_filter by exact Hn.
    cbn [fold_left EnsembleWeighted.majorityCount].
    rewrite majority_entry_eq. reflexivity.
Qed.

(** The gate of [analyze] when it is closed. *)
Lemma weighted_closed_gate (config : EnsembleWeighted.Config) (hour : Z)
  (vs : list Verdict) (data : Snapshot) (m : R) :
  let a := EnsembleWeighted.calculateDetectorAgreement vs in
  EnsembleWeighted.calculateMetaScore config hour vs a = Normal m ->
  m < EnsembleWeighted.minConfidence config
  \/ INR (EnsembleWeighted.majorityCount a)
     < EnsembleWeighted.minDetectorAgreement config ->
  exists dec,
    EnsembleWeighted.analyze config hour vs data = Normal dec
    /\ EnsembleWeighted.dec_direction dec = NO_TRADE
    /\ EnsembleWeighted.confidence dec = 0
    /\ EnsembleWeighted.levels dec = None.
Proof.
  cbv zeta. intros Hm Hgate. unfold EnsembleWeighted.analyze. cbv zeta.
  rewrite Hm. cbn [bind].
  replace (andb (andb (Rgeb _ (EnsembleWeighted.minDetectorAgreement config))
                      (Rgeb m (EnsembleWeighted.minConfidence config))) _)
    with false.
  - eexists. split; [reflexivity |]. repeat split.
  - symmetry. unfold Rgeb. destruct Hgate as [H | H].
    + rewrite (Rleb_false (EnsembleWeighted.minConfidence config)) by lra.
      rewrite andb_false_r. reflexivity.
    + rewrite Rleb_false by lra. reflexivity.
Qed.

(** X14.  [analyze] of the ensemble with detector weights: when every
    verdict is NEUTRAL and one of the two thresholds is positive, the
    decision is NO_TRADE with confidence 0 and without levels; no name is
    read, so verdicts without a name do no harm here. *)
Theorem weighted_analyze_neutral_verdicts (config : EnsembleWeighted.Config)
  (hour : Z) (vs : list Verdict) (data : Snapshot) :
  Forall (fun v => direction v = NEUTRAL) vs ->
  0 < EnsembleWeighted.minConfidence config
  \/ 0 < EnsembleWeighted.minDetectorAgreement config ->
  exists dec,
    EnsembleWeighted.analyze config hour vs data = Normal dec
    /\ EnsembleWeighted.dec_direction dec = NO_TRADE
    /\ EnsembleWeighted.confidence dec = 0
    /\ EnsembleWeighted.levels dec = None.
Proof.
  intros Hn Hcfg.
  destruct (weighted_neutral_gate config hour vs Hn) as (Hm & Hc).
  apply (weighted_closed_gate config hour vs data 0 Hm).
  rewrite Hc. cbn [INR]. exact Hcfg.
Qed.

Lemma weighted_analyze_neutral_verdicts_witness :
  exists dec,
    EnsembleWeighted.analyze Samples.weighted_defaults 12
      [MoreSamples.insufficient] Samples.no_history
    = Normal dec
    /\ EnsembleWeighted.dec_direction dec = NO_TRADE
    /\ EnsembleWeighted.confidence dec = 0
    /\ EnsembleWeighted.levels dec = None.
Proof.
  apply weighted_analyze_neutral_verdicts.
  - apply Forall_cons; [reflexivity | apply Forall_nil].
  - left. cbn. lra.
Defined.

(** ** Verdicts without a name *)

Lemma family_nameless (v : Verdict) (vs : list Verdict) :
  In v vs -> name v = None ->
  mapM family vs = Throw (undefined_read "split").
Proof.
  intros Hin Hname. induction vs as [| u vs IH]; [destruct Hin |].
  cbn [mapM]. destruct Hin as [-> | Hin].
  - unfold family at 1. rewrite Hname. reflexivity.
  - unfold family at 1. destruct (name u); [| reflexivity].
    cbn [bind]. rewrite IH by exact Hin. reflexivity.
Qed.

(** X15.  [analyze] of the ensemble with detector weights never returns a
    trade when some verdict has no name: the explanation of a trade splits
    the name of every verdict, so the call throws where it would have
    traded.  The early returns of the detectors have no name. *)
Theorem weighted_analyze_nameless_verdict (config : EnsembleWeighted.Config)
  (hour : Z) (vs : list Verdict) (data : Snapshot) (v : Verdict) :
  In v vs -> name v = None ->
  ensures (fun dec => EnsembleWeighted.dec_direction dec = NO_TRADE)
    (EnsembleWeighted.analyze config hour vs data).
Proof.
  intros Hin Hname. unfold EnsembleWeighted.analyze. cbv zeta.
  apply ensures_bind; intros m.
  destruct (andb _ _); [| reflexivity].
  apply ensures_bind; intros lv.
  rewrite (family_nameless v vs Hin Hname). exact I.
Qed.

Lemma weighted_analyze_nameless_verdict_witness :
  ensures (fun dec => EnsembleWeighted.dec_direction dec = NO_TRADE)
    (EnsembleWeighted.analyze Samples.weighted_defaults 12
       (MoreSamples.insufficient :: Samples.two_long) Samples.no_history).
Proof.
  apply (weighted_analyze_nameless_verdict Samples.weighted_defaults 12
           (MoreSamples.insufficient :: Samples.two_long) Samples.no_history
           MoreSamples.insufficient).
  - left. reflexivity.
  - reflexivity.
Defined.

(** ** Confidence *)

Lemma Math_round_range (x : R) : 0 <= x <= 100 -> 0 <= Math_round x <= 100.
Proof.
  intros H. unfold Math_round.
  pose proof (Zfloor_bound (x + / 2)) as B.
  assert (H0 : (0 <= Zfloor (x + / 2))%Z) by (apply Zfloor_lub; lra).
  assert (H1 : (Zfloor (x + / 2) < 100 + 1)%Z) by (apply lt_IZR; rewrite plus_IZR; lra).
  split; [apply (IZR_le 0); exact H0 | apply (IZR_le _ 100); lia].
Qed.

Lemma weighted_metaScore_range (config : EnsembleWeighted.Config) (hour : Z)
  (vs : list Verdict) (a : EnsembleWeighted.Agreement) :
  ensures (fun m => 0 <= m <= 100)
    (EnsembleWeighted.calculateMetaScore config hour vs a).
Proof.
  unfold EnsembleWeighted.calculateMetaScore.
  apply ensures_bind; intros acc.
  destruct (Reqb _ _); cbn [ensures]; [lra |].
  cbv zeta. split.
  - apply Rmin_glb; [lra | apply Rmax_l].
  - apply Rmin_l.
Qed.

(** X16.  The confidence of a decision is a whole number; it lies between
    0 and 100 in the ensemble with detector weights and is at most 100 in
    the simplified one. *)
Theorem confidence_range :
  (forall config hour vs data,
      ensures (fun dec =>
                 0 <= EnsembleWeighted.confidence dec <= 100
                 /\ exists z : Z, EnsembleWeighted.confidence dec = IZR z)
        (EnsembleWeighted.analyze config hour vs data))
  /\ (forall config vs data,
         ensures (fun dec =>
                    EnsembleStable.confidence dec <= 100
                    /\ exists z : Z, EnsembleStable.confidence dec = IZR z)
           (EnsembleStable.analyze config vs data)).
Proof.
  split.
  - intros config hour vs data. unfold EnsembleWeighted.analyze. cbv zeta.
    pose proof (weighted_metaScore_range config hour vs
                  (EnsembleWeighted.calculateDetectorAgreement vs)) as Hm.
    destruct (EnsembleWeighted.calculateMetaScore _ _ _ _) as [m | msg]; [| exact I].
    cbn [ensures bind] in *.
    destruct (andb _ _).
    + apply ensures_bind; intros lv. apply ensures_bind; intros fams.
      cbn [ensures EnsembleWeighted.confidence].
      split; [apply Math_round_range; exact Hm | eexists; reflexivity].
    + cbn [ensures EnsembleWeighted.confidence].
      split; [lra | exists 0%Z; reflexivity].
  - intros config vs data. unfold EnsembleStable.analyze. cbv zeta.
    assert (Hm : EnsembleStable.calculateMetaScore config vs
                   (EnsembleStable.calculateDetectorAgreement vs) <= 100).
    { unfold EnsembleStable.calculateMetaScore.
      destruct (Rltb _ _); [lra |].
      destruct (fold_left _ _ _) as [totalScore count].
      destruct (Nat.eqb count 0); [lra | apply Rmin_l]. }
    assert (Hr : forall x, x <= 100 -> Math_round x <= 100).
    { intros x Hx. unfold Math_round.
      pose proof (Zfloor_bound (x + / 2)) as B.
      assert (H1 : (Zfloor (x + / 2) < 100 + 1)%Z)
        by (apply lt_IZR; rewrite plus_IZR; lra).
      apply (IZR_le _ 100). lia. }
    destruct (andb _ _).
    + apply ensures_bind; intros lv. cbn [ensures EnsembleStable.confidence].
      split; [apply Hr; exact Hm | eexists; reflexivity].
    + cbn [ensures EnsembleStable.confidence].
      split; [apply Hr; exact Hm | eexists; reflexivity].
Qed.

(** ** Rounding keeps the order *)

Lemma round_half_away_mono (x y : R) :
  x <= y -> (round_half_away x <= round_half_away y)%Z.
Proof.
  intros H. unfold round_half_away.
  destruct (Rlt_dec x 0) as [Hx | Hx]; destruct (Rlt_dec y 0) as [Hy | Hy].
  - rewrite !Rltb_true by assumption.
    assert ((Zfloor (- y + / 2) <= Zfloor (- x + / 2))%Z) by (apply Zfloor_le; lra).
    lia.
  - rewrite Rltb_true, Rltb_false by lra.
    assert ((0 <= Zfloor (- x + / 2))%Z) by (apply Zfloor_lub; lra).
    assert ((0 <= Zfloor (y + / 2))%Z) by (apply Zfloor_lub; lra).
    lia.
  - lra.
  - rewrite !Rltb_false by lra. apply Zfloor_le. lra.
Qed.

Lemma parseFloat_toFixed_mono (d : nat) (x y : R) :
  x <= y -> parseFloat (toFixed d x) <= parseFloat (toFixed d y).
Proof.
  intros H. unfold parseFloat, toFixed. cbn [scaled digits].
  assert (Hp : 0 < 10 ^ d) by (apply pow_lt; lra).
  unfold Rdiv. apply Rmult_le_compat_r.
  - left. apply Rinv_0_lt_compat. exact Hp.
  - apply IZR_le. apply round_half_away_mono.
    apply Rmult_le_compat_r; lra.
Qed.

(** ** The average true range is never negative *)

Lemma calculateATR_nonneg (cs : list Candle) (period : nat) :
  (1 <= period)%nat ->
  exists atr,
    TradingUtils.calculateATR (Some (map Some cs)) period = Normal atr /\ 0 <= atr.
Proof.
  intros Hp.
  destruct (le_lt_dec (period + 1) (length cs)) as [Hlen | Hlen].
  - destruct cs as [| c0 rest]; [cbn [length] in Hlen; lia |].
    cbn [length] in Hlen. rewrite calculateATR_clean by lia.
    eexists. split; [reflexivity |].
    apply (atr_between 0 (Math_max (true_ranges c0 rest))).
    + rewrite true_ranges_length. lia.
    + apply true_ranges_between_0_max.
  - exists 0. split; [| lra].
    apply calculateATR_short. rewrite length_map. exact Hlen.
Qed.

(** ** The levels of the simplified ensemble *)

Section StableLevels.

Import EnsembleStable.

(** The levels built from an entry price and a stop distance. *)
Lemma levels_order (d : Direction) (p dist : R) :
  0 <= dist ->
  let stopLoss := if Direction_eqb d LONG then p - dist else p + dist in
  let risk := Rabs (p - stopLoss) in
  let takeProfit := if Direction_eqb d LONG then p + risk * 1.8 else p - risk * 1.8 in
  (d = LONG -> stopLoss <= p <= takeProfit)
  /\ (d <> LONG -> takeProfit <= p <= stopLoss)
  /\ (dist <> 0 -> Rabs (takeProfit - p) / risk = 1.8)
  /\ (dist = 0 -> stopLoss = p /\ takeProfit = p).
Proof.
  intros Hd. cbv zeta.
  destruct d; cbn [Direction_eqb].
  - replace (Rabs (p - (p - dist))) with dist by (rewrite Rabs_pos_eq; lra).
    replace (Rabs (p + dist * 1.8 - p)) with (dist * 1.8) by (rewrite Rabs_pos_eq; lra).
    repeat split; try lra; try congruence.
    intros; field; assumption.
  - replace (Rabs (p - (p + dist))) with dist
      by (rewrite <- Rabs_Ropp, Rabs_pos_eq; lra).
    replace (Rabs (p - dist * 1.8 - p)) with (dist * 1.8)
      by (rewrite <- Rabs_Ropp, Rabs_pos_eq; lra).
    repeat split; try lra; try discriminate.
    intros; field; assumption.
  - replace (Rabs (p - (p + dist))) with dist
      by (rewrite <- Rabs_Ropp, Rabs_pos_eq; lra).
    replace (Rabs (p - dist * 1.8 - p)) with (dist * 1.8)
      by (rewrite <- Rabs_Ropp, Rabs_pos_eq; lra).
    repeat split; try lra; try discriminate.
    intros; field; assumption.
Qed.

Lemma toFixed_2_180 : toFixed 2 1.8 = Fixed 2 180.
Proof. apply toFixed_exact. simpl pow. lra. Qed.

(** The stop distance that [generateLevels] works with. *)
Lemma generateLevels_eq (d : Direction) (p : R) (cs : list Candle) (data : Snapshot) :
  or_empty (tf15m data) = map Some cs ->
  0 <= p ->
  exists dist,
    0 <= dist
    /\ ((length cs < 10)%nat -> dist = p * 0.02)
    /\ ((10 <= length cs < 15)%nat -> dist = 0)
    /\ generateLevels d p data
       = let stopLoss := if Direction_eqb d LONG then p - dist else p + dist in
         let risk := Rabs (p - stopLoss) in
         let takeProfit :=
           if Direction_eqb d LONG then p + risk * 1.8 else p - risk * 1.8 in
         Normal (mkLevels (parseFloat (toFixed 4 p))
                          (parseFloat (toFixed 4 stopLoss))
                          (parseFloat (toFixed 4 takeProfit))
                          (toFixed 2 (Rabs (takeProfit - p) / risk))).
Proof.
  intros Hcs Hp. unfold generateLevels. cbv zeta. rewrite Hcs, length_map.
  destruct (Nat.ltb_spec (length cs) 10) as [Hlen | Hlen].
  - exists (p * 0.02). split; [nra |]. split; [reflexivity |]. split; [lia |].
    unfold generateDefaultLevels. cbv zeta.
    replace (p * (1 - 0.02)) with (p - p * 0.02) by lra.
    replace (p * (1 + 0.02)) with (p + p * 0.02) by lra.
    reflexivity.
  - destruct (calculateATR_nonneg cs 14) as (atr & E & Hatr); [lia |].
    rewrite E. cbn [bind].
    exists (atr * p * 0.8). split; [nra |]. split; [lia |]. split; [| reflexivity].
    intros Hshort.
    rewrite calculateATR_short in E by (rewrite length_map; lia).
    injection E as <-. lra.
Qed.

(** X17.  [generateLevels] of the simplified ensemble: on a 15m series
    without holes and a price that is not negative, the stop is not above
    the entry and the target not below it for LONG, and the other way
    round for any other direction. *)
Theorem stable_levels_sides (d : Direction) (p : R) (cs : list Candle)
  (data : Snapshot) :
  or_empty (tf15m data) = map Some cs ->
  0 <= p ->
  exists lv,
    generateLevels d p data = Normal lv
    /\ (d = LONG -> sl lv <= entry lv <= tp lv)
    /\ (d <> LONG -> tp lv <= entry lv <= sl lv).
Proof.
  intros Hcs Hp.
  destruct (generateLevels_eq d p cs data Hcs Hp) as (dist & Hd & _ & _ & E).
  rewrite E. cbv zeta. eexists. split; [reflexivity |].
  cbn [sl entry tp].
  pose proof (levels_order d p dist Hd) as L. cbv zeta in L.
  destruct L as (L1 & L2 & _).
  split; intros H.
  - specialize (L1 H). split; apply parseFloat_toFixed_mono; lra.
  - specialize (L2 H). split; apply parseFloat_toFixed_mono; lra.
Qed.

Lemma stable_levels_sides_witness :
  exists lv,
    generateLevels LONG 100 (Samples.only15m MoreSamples.three_bars) = Normal lv
    /\ (LONG = LONG -> sl lv <= entry lv <= tp lv)
    /\ (LONG <> LONG -> tp lv <= entry lv <= sl lv).
Proof.
  apply (stable_levels_sides LONG 100 MoreSamples.three_bars).
  - reflexivity.
  - lra.
Defined.

(** X18.  [generateLevels] of the simplified ensemble: with 10 to 14
    candles of 15m history [calculateATR] answers 0, so the stop and the
    target both equal the entry, and [calculatePositionSize] on these
    levels answers size 0 and maximal loss 0. *)
Theorem stable_levels_degenerate (d : Direction) (p : R) (cs : list Candle)
  (data : Snapshot) :
  or_empty (tf15m data) = map Some cs ->
  0 <= p ->
  (10 <= length cs < 15)%nat ->
  exists lv,
    generateLevels d p data = Normal lv
    /\ sl lv = entry lv /\ tp lv = entry lv
    /\ forall accountBalance riskPercent,
         TradingUtils.calculatePositionSize accountBalance riskPercent
           (entry lv) (sl lv)
         = TradingUtils.mkPositionSizing (TradingUtils.SizeNum 0)
             (TradingUtils.SizeNum 0).
Proof.
  intros Hcs Hp Hlen.
  destruct (generateLevels_eq d p cs data Hcs Hp) as (dist & Hd & _ & H0 & E).
  specialize (H0 Hlen). subst dist.
  rewrite E. cbv zeta. eexists. split; [reflexivity |].
  cbn [sl entry tp].
  pose proof (levels_order d p 0 (Rle_refl 0)) as L. cbv zeta in L.
  destruct L as (_ & _ & _ & L). destruct (L eq_refl) as (Ls & Lt).
  rewrite Lt, Ls. split; [reflexivity |]. split; [reflexivity |].
  intros accountBalance riskPercent.
  unfold TradingUtils.calculatePositionSize. cbv zeta.
  rewrite Reqb_true; [reflexivity |].
  rewrite Rminus_diag. apply Rabs_R0.
Qed.

Lemma stable_levels_degenerate_witness :
  exists lv,
    generateLevels LONG 100 (Samples.only15m (repeat (Samples.flat 100 9) 12))
    = Normal lv
    /\ sl lv = entry lv /\ tp lv = entry lv
    /\ forall accountBalance riskPercent,
         TradingUtils.calculatePositionSize accountBalance riskPercent
           (entry lv) (sl lv)
         = TradingUtils.mkPositionSizing (TradingUtils.SizeNum 0)
             (TradingUtils.SizeNum 0).
Proof.
  apply (stable_levels_degenerate LONG 100 (repeat (Samples.flat 100 9) 12)).
  - reflexivity.
  - lra.
  - cbn. lia.
Defined.

(** X19.  [generateLevels] of the simplified ensemble: whenever the stop
    differs from the entry, the reward to risk ratio is reported as
    1.80, on the fallback path and on the ATR path, for every
    direction. *)
Theorem stable_levels_reward_ratio (d : Direction) (p : R) (cs : list Candle)
  (data : Snapshot) :
  or_empty (tf15m data) = map Some cs ->
  0 <= p ->
  exists lv,
    generateLevels d p data = Normal lv
    /\ (sl lv <> entry lv -> rr lv = Fixed 2 180).
Proof.
  intros Hcs Hp.
  destruct (generateLevels_eq d p cs data Hcs Hp) as (dist & Hd & _ & _ & E).
  rewrite E. cbv zeta. eexists. split; [reflexivity |].
  cbn [rr sl entry].
  pose proof (levels_order d p dist Hd) as L. cbv zeta in L.
  destruct L as (_ & _ & L & L0).
  intros Hne. rewrite L; [apply toFixed_2_180 |].
  intros Hz. apply Hne. destruct (L0 Hz) as (Ls & _). rewrite Ls. reflexivity.
Qed.

Lemma stable_levels_reward_ratio_witness :
  exists lv,
    generateLevels SHORT 100 Samples.no_history = Normal lv
    /\ (sl lv <> entry lv -> rr lv = Fixed 2 180).
Proof.
  apply (stable_levels_reward_ratio SHORT 100 []).
  - reflexivity.
  - lra.
Defined.

End StableLevels.

Section Schedule.

Import EnsembleWeighted.

Lemma hour_in_range_04_10 (hour : Z) :
  hour_in_range "04-10" hour
  = orb (andb (Z.leb 4 hour) (Z.ltb hour 10))
        (andb false (orb (Z.geb hour 4) (Z.ltb hour 10))).
Proof.
  exact (hour_in_range_integers "04-10" 1 2 5 1 hour
           ltac:(vm_compute; reflexivity) ltac:(lia) ltac:(lia)).
Qed.

Lemma hour_in_range_10_16 (hour : Z) :
  hour_in_range "10-16" hour
  = orb (andb (Z.leb 10 hour) (Z.ltb hour 16))
        (andb false (orb (Z.geb hour 10) (Z.ltb hour 16))).
Proof.
  exact (hour_in_range_integers "10-16" 5 1 1 4 hour
           ltac:(vm_compute; reflexivity) ltac:(lia) ltac:(lia)).
Qed.

Lemma hour_in_range_16_20 (hour : Z) :
  hour_in_range "16-20" hour
  = orb (andb (Z.leb 16 hour) (Z.ltb hour 20))
        (andb false (orb (Z.geb hour 16) (Z.ltb hour 20))).
Proof.
  exact (hour_in_range_integers "16-20" 1 4 5 2 hour
           ltac:(vm_compute; reflexivity) ltac:(lia) ltac:(lia)).
Qed.

Lemma hour_in_range_20_23 (hour : Z) :
  hour_in_range "20-23" hour
  = orb (andb (Z.leb 20 hour) (Z.ltb hour 23))
        (andb false (orb (Z.geb hour 20) (Z.ltb hour 23))).
Proof.
  exact (hour_in_range_integers "20-23" 5 2 23 0 hour
           ltac:(vm_compute; reflexivity) ltac:(lia) ltac:(lia)).
Qed.

(** X20.  [getTimeOfDayMultiplier] with the default table: every hour
    has a multiplier from the table, 0.3 before 4 and from 23 on, 1.1
    from 4, 1.0 from 10, 0.9 from 16 and 0.8 from 20; the fall-through
    value 1.0 is never used. *)
Theorem default_timeOfDay_schedule (minConfidence minDetectorAgreement : option R)
  (detectorWeights : option (list (string * R))) (hour : Z) :
  getTimeOfDayMultiplier
    (constructor (mkOptions minConfidence minDetectorAgreement detectorWeights None))
    hour
  = if Z.ltb hour 4 then 0.3
    else if Z.ltb hour 10 then 1.1
    else if Z.ltb hour 16 then 1.0
    else if Z.ltb hour 20 then 0.9
    else if Z.ltb hour 23 then 0.8
    else 0.3.
Proof.
  unfold getTimeOfDayMultiplier, constructor.
  cbn [timeOfDayMultipliers opt_timeOfDayMultipliers dflt].
  unfold default_timeOfDayMultipliers. cbn [first_multiplier].
  rewrite hour_in_range_04_10, hour_in_range_10_16, hour_in_range_16_20,
    hour_in_range_20_23, hour_in_range_23_04.
  cbn [andb orb]. rewrite !orb_false_r. unfold Z.geb.
  destruct (Z.ltb_spec hour 4), (Z.ltb_spec hour 10), (Z.ltb_spec hour 16),
    (Z.ltb_spec hour 20), (Z.ltb_spec hour 23);
    try lia;
    repeat match goal with
           | |- context [Z.leb ?a hour] => destruct (Z.leb_spec a hour); try lia
           end;
    cbn [andb orb]; try reflexivity.
  all: destruct (Z.compare_spec hour 23); try lia; reflexivity.
Qed.

End Schedule.

Section AdapterFacts.

Import SignalDetectors AnalysisAdapter.

Variable RSI_calculate : list R -> nat -> completion (list R).
Variable BollingerBands_calculate : list R -> nat -> R -> completion (list BBand).

Lemma silent_quiet (vs : list Verdict) : Forall silent vs -> Forall quiet vs.
Proof.
  intros H. eapply Forall_impl; [| exact H]. intros v [Hd _]. left. exact Hd.
Qed.

Lemma silent_neutral (vs : list Verdict) :
  Forall silent vs -> Forall (fun v => direction v = NEUTRAL) vs.
Proof.
  intros H. eapply Forall_impl; [| exact H]. intros v [Hd _]. exact Hd.
Qed.

(** X21.  [analyzeSymbol]: when the fetched snapshot has fewer than 15
    candles of 15m history, fewer than 10 hourly candles and no order
    book, the response is the early one, NO_TRADE with confidence 0, over
    either ensemble. *)
Theorem analyzeSymbol_thin_history (ACCOUNT_BALANCE RISK_PERCENT MIN_CONFIDENCE : option R)
  (hour : Z) (random : R) (symbol : string) (data : Snapshot) :
  (length (or_empty (tf15m data)) < 15)%nat ->
  (length (or_empty (tf1h data)) < 10)%nat ->
  orderbook data = None ->
  (exists reason explain,
      analyzeSymbol_stable MIN_CONFIDENCE RSI_calculate BollingerBands_calculate
        ACCOUNT_BALANCE RISK_PERCENT random symbol (Normal data)
      = NoSignal symbol NO_TRADE 0 reason explain)
  /\ (exists reason explain,
         analyzeSymbol_weighted MIN_CONFIDENCE hour RSI_calculate
           BollingerBands_calculate ACCOUNT_BALANCE RISK_PERCENT random symbol
           (Normal data)
         = NoSignal symbol NO_TRADE 0 reason explain).
Proof.
  intros H15 H1h Hob.
  pose proof (runAllDetectors_pushed RSI_calculate BollingerBands_calculate random
                (Some data) (Some empty_config)) as Hrun.
  pose proof (thin_pushed RSI_calculate BollingerBands_calculate random data
                empty_config H15 H1h Hob) as Hsilent.
  set (results := map _ _) in Hrun, Hsilent.
  split.
  - destruct (stable_quiet_gate (stable_ensemble MIN_CONFIDENCE) results
                (silent_quiet results Hsilent)) as (Hm & Hc).
    destruct (stable_closed_gate (stable_ensemble MIN_CONFIDENCE) results data)
      as (dec & Hdec & Hdir & Hconf & _).
    { right. rewrite Hc. cbn. lra. }
    rewrite Hm, Math_round_0 in Hconf.
    unfold analyzeSymbol_stable, analyzeSymbol. cbn [bind].
    rewrite Hrun. cbn [bind]. rewrite Hdec. cbn [bind].
    rewrite Hdir, Hconf. eexists. eexists. reflexivity.
  - destruct (weighted_neutral_gate (weighted_ensemble MIN_CONFIDENCE) hour results
                (silent_neutral results Hsilent)) as (Hm & Hc).
    destruct (weighted_closed_gate (weighted_ensemble MIN_CONFIDENCE) hour results
                data 0 Hm) as (dec & Hdec & Hdir & Hconf & _).
    { right. rewrite Hc. cbn. lra. }
    unfold analyzeSymbol_weighted, analyzeSymbol. cbn [bind].
    rewrite Hrun. cbn [bind]. rewrite Hdec. cbn [bind].
    rewrite Hdir, Hconf. eexists. eexists. reflexivity.
Qed.

(** Some detector returns before it has built its named verdict. *)
Lemma early_return_nameless (random : R) (data : Snapshot) :
  (length (or_empty (tf1m data)) < 50)%nat
  \/ (length (or_empty (tf15m data)) < 30)%nat
  \/ (length (or_empty (tf1h data)) < 15)%nat
  \/ orderbook data = None ->
  exists results v,
    runAllDetectors RSI_calculate BollingerBands_calculate random (Some data)
      (Some empty_config) = Normal results
    /\ In v results /\ name v = None.
Proof.
  intros H. rewrite runAllDetectors_pushed. eexists.
  unfold detectors. cbn [map]. unfold pushed. cbn [fn fn_weight].
  destruct H as [H | [H | [H | H]]].
  - eexists. split; [reflexivity |]. split; [right; left; reflexivity |].
    unfold vwapPullbackDetector, vwapPullback_try, frame.
    cbn [destructure bind read].
    replace (Nat.ltb (length (or_empty (tf1m data))) 50) with true
      by (symmetry; apply Nat.ltb_lt; exact H).
    reflexivity.
  - eexists. split; [reflexivity |]. split; [right; right; left; reflexivity |].
    unfold volatilitySqueezeDetector, volatilitySqueeze_try, frame.
    cbn [destructure bind read bbPeriod empty_config dflt].
    replace (Nat.ltb (length (or_empty (tf15m data))) (20 + 10)) with true
      by (symmetry; apply Nat.ltb_lt; exact H).
    reflexivity.
  - eexists. split; [reflexivity |].
    split; [right; right; right; right; left; reflexivity |].
    unfold rsiMomentumDetector, rsiMomentum_try, frame.
    cbn [destructure bind read].
    replace (Nat.ltb (length (or_empty (tf1h data))) 15) with true
      by (symmetry; apply Nat.ltb_lt; exact H).
    rewrite orb_true_r. reflexivity.
  - eexists. split; [reflexivity |].
    split; [right; right; right; left; reflexivity |].
    unfold orderbookSweepDetector, orderbookSweep_try.
    cbn [bind read]. rewrite H. reflexivity.
Qed.

(** X22.  [analyzeSymbol] over the ensemble with detector weights: when
    the snapshot is short enough for one detector to return early (fewer
    than 50 candles of 1m, 30 of 15m or 15 of 1h, or no order book), the
    response says NO_TRADE whatever the other detectors found. *)
Theorem analyzeSymbol_weighted_early_return
  (ACCOUNT_BALANCE RISK_PERCENT MIN_CONFIDENCE : option R)
  (hour : Z) (random : R) (symbol : string) (data : Snapshot) :
  (length (or_empty (tf1m data)) < 50)%nat
  \/ (length (or_empty (tf15m data)) < 30)%nat
  \/ (length (or_empty (tf1h data)) < 15)%nat
  \/ orderbook data = None ->
  reported_direction
    (analyzeSymbol_weighted MIN_CONFIDENCE hour RSI_calculate
       BollingerBands_calculate ACCOUNT_BALANCE RISK_PERCENT random symbol
       (Normal data))
  = NO_TRADE.
Proof.
  intros H.
  destruct (early_return_nameless random data H) as (results & v & Hrun & Hin & Hname).
  unfold analyzeSymbol_weighted, analyzeSymbol. cbn [bind].
  rewrite Hrun. cbn [bind].
  unfold EnsembleWeighted.analyze. cbv zeta.
  destruct (EnsembleWeighted.calculateMetaScore _ _ _ _) as [m | msg];
    cbn [bind]; [| reflexivity].
  destruct (andb _ _); [| reflexivity].
  destruct (EnsembleWeighted.generateLevels _ _ _ _) as [lv | msg];
    cbn [bind]; [| reflexivity].
  rewrite (family_nameless v results Hin Hname). reflexivity.
Qed.

End AdapterFacts.

Lemma analyzeSymbol_thin_history_witness :
  (exists reason explain,
      AnalysisAdapter.analyzeSymbol_stable None MoreSamples.RSI_unavailable
        MoreSamples.BollingerBands_unavailable None None (1 / 2) "BTCUSDT"
        (Normal Samples.no_history)
      = AnalysisAdapter.NoSignal "BTCUSDT" NO_TRADE 0 reason explain)
  /\ (exists reason explain,
         AnalysisAdapter.analyzeSymbol_weighted None 12 MoreSamples.RSI_unavailable
           MoreSamples.BollingerBands_unavailable None None (1 / 2) "BTCUSDT"
           (Normal Samples.no_history)
         = AnalysisAdapter.NoSignal "BTCUSDT" NO_TRADE 0 reason explain).
Proof.
  apply analyzeSymbol_thin_history.
  - cbn. lia.
  - cbn. lia.
  - reflexivity.
Defined.

Lemma analyzeSymbol_weighted_early_return_witness :
  AnalysisAdapter.reported_direction
    (AnalysisAdapter.analyzeSymbol_weighted None 12 MoreSamples.RSI_unavailable
       MoreSamples.BollingerBands_unavailable None None (1 / 2) "BTCUSDT"
       (Normal (Samples.only15m Samples.breakdown_bars)))
  = NO_TRADE.
Proof.
  apply analyzeSymbol_weighted_early_return.
  left. cbn. lia.
Defined.

Lemma mapM_read_In {A : Type} (prop : string) (f : Candle -> A) (cs : Candles)
  (l : list A) :
  mapM (read prop f) cs = Normal l ->
  length l = length cs
  /\ forall x, In x l -> exists k, In (Some k) cs /\ x = f k.
Proof.
  revert l; induction cs as [| c cs IH]; intros l H; cbn [mapM] in H.
  - injection H as <-. split; [reflexivity | intros x []].
  - destruct c as [k |]; cbn [read bind] in H; [| discriminate].
    destruct (mapM (read prop f) cs) as [l' | m]; cbn [bind] in H; [| discriminate].
    injection H as <-. destruct (IH l' eq_refl) as (Hlen & Hin).
    split; [cbn [length]; rewrite Hlen; reflexivity |].
    intros x [<- | Hx].
    + exists k. split; [left; reflexivity | reflexivity].
    + destruct (Hin x Hx) as (k' & Hk' & ->).
      exists k'. split; [right; exact Hk' | reflexivity].
Qed.

Section DetectorFacts.

Import SignalDetectors.

(** X23.  [momentumBreakoutDetector]: with a positive breakout threshold
    and positive highs the verdict is never LONG, for every period, every
    volume multiplier, and whether or not the series has holes. *)
Theorem momentumBreakout_LONG_unreachable (data : option Snapshot)
  (c : DetectorConfig) :
  0 < dflt (minBreakoutPercent c) 1.0 ->
  (forall d k, data = Some d -> In (Some k) (or_empty (tf15m d)) -> 0 < high k) ->
  exists v,
    momentumBreakoutDetector data (Some c) = Normal v /\ direction v <> LONG.
Proof.
  intros Hm Hpos. unfold momentumBreakoutDetector. cbn [destructure bind].
  unfold momentumBreakout_try, frame.
  destruct data as [d |]; cbn [read bind try_catch];
    [| eexists; split; [reflexivity | discriminate]].
  destruct (Nat.ltb_spec (length (or_empty (tf15m d)))
              (dflt (breakoutPeriod c) 20 + 5)%nat) as [Hlen | Hlen];
    [cbn [try_catch]; eexists; split; [reflexivity | discriminate] |].
  destruct (mapM (read "close" close) _) as [closes | m]; cbn [bind try_catch];
    [| eexists; split; [reflexivity | discriminate]].
  destruct (mapM (read "volume" volume) _) as [volumes | m]; cbn [bind try_catch];
    [| eexists; split; [reflexivity | discriminate]].
  destruct (mapM (read "high" high) _) as [highs | m] eqn:Hh; cbn [bind try_catch];
    [| eexists; split; [reflexivity | discriminate]].
  eexists. split; [reflexivity |].
  destruct (mapM_read_In "high" high _ highs Hh) as (Hl & Hin).
  assert (Hne : highs <> []).
  { intros E. rewrite E in Hl. cbn [length] in Hl. lia. }
  apply verdict_never_LONG; [exact Hne | | exact Hm].
  unfold MomentumBreakout.currentHigh.
  destruct (Hin _ (last_In highs 0 Hne)) as (k & Hk & ->).
  apply (Hpos d k eq_refl Hk).
Qed.

Lemma momentumBreakout_LONG_unreachable_witness :
  exists v,
    momentumBreakoutDetector (Some (Samples.only15m Samples.breakout_bars))
      (Some empty_config) = Normal v
    /\ direction v <> LONG.
Proof.
  apply momentumBreakout_LONG_unreachable.
  - cbn. lra.
  - intros d k Hd Hk. injection Hd as <-.
    cbn [Samples.only15m tf15m or_empty] in Hk.
    apply in_map_iff in Hk. destruct Hk as (k' & Hk' & Hin). injection Hk' as ->.
    unfold Samples.breakout_bars in Hin. apply in_app_or in Hin.
    destruct Hin as [Hin | [<- | []]].
    + apply repeat_spec in Hin. subst k. cbn. lra.
    + cbn. lra.
Defined.

(** ** The order book *)

Lemma sum_levels_from (levels : list (R * R)) (a : R) :
  fold_left (fun acc lv => s <- acc ;; v <- level_volume lv ;; Normal (s + v))
    (map Some levels) (Normal a)
  = Normal (a + sum (map snd levels)).
Proof.
  revert a; induction levels as [| [p v] t IH]; intros a; cbn [map fold_left].
  - rewrite sum_nil. f_equal. lra.
  - cbn [bind level_volume]. rewrite IH. cbn [snd]. rewrite sum_cons.
    f_equal. lra.
Qed.

Lemma sum_levels_top (levels : list (R * R)) :
  sum_levels (slice 0 3 (map Some levels)) = Normal (top_volume levels).
Proof.
  unfold sum_levels, slice, top_volume. cbn [skipn Nat.sub].
  rewrite firstn_map, sum_levels_from. f_equal. lra.
Qed.

Lemma Math_round_ge (z : Z) (x : R) : IZR z <= x -> IZR z <= Math_round x.
Proof.
  intros H. unfold Math_round. apply IZR_le, Zfloor_lub. lra.
Qed.

Lemma orderbookSweep_clean (data : Snapshot) (bs aks : list (R * R)) :
  orderbook data = Some (mkOrderbook (Some (map Some bs)) (Some (map Some aks))) ->
  bs <> [] -> aks <> [] ->
  let imbalance := (top_volume bs - top_volume aks) / (top_volume bs + top_volume aks) in
  exists v,
    orderbookSweep_try (Some data) = Normal v
    /\ direction v
       = (if Rgtb imbalance 0.3 then LONG
          else if Rltb imbalance (- 0.3) then SHORT else NEUTRAL)
    /\ score v
       = (if Rgtb imbalance 0.3 then Math_round (Rmin 100 (imbalance * 150))
          else if Rltb imbalance (- 0.3)
               then Math_round (Rmin 100 (Rabs imbalance * 150))
               else 0).
Proof.
  intros Hob Hb Ha. cbv zeta. unfold orderbookSweep_try.
  cbn [read bind]. rewrite Hob. cbn [bids asks].
  rewrite !length_map.
  replace (Nat.eqb (length bs) 0) with false
    by (destruct bs; [contradiction | reflexivity]).
  replace (Nat.eqb (length aks) 0) with false
    by (destruct aks; [contradiction | reflexivity]).
  cbn [orb]. rewrite !sum_levels_top. cbn [bind].
  destruct (Rgtb _ 0.3); [eexists; split; [reflexivity |]; split; reflexivity |].
  destruct (Rltb _ (- 0.3)); eexists; (split; [reflexivity |]);
    cbn [direction score]; rewrite ?Math_round_0; split; reflexivity.
Qed.

(** X24.  [orderbookSweepDetector]: on a book without holes whose top
    volumes do not cancel, a NEUTRAL verdict has score 0 and a LONG or
    SHORT verdict has a score from 45 to 100. *)
Theorem orderbookSweep_sided_score (data : Snapshot) (bs aks : list (R * R)) :
  orderbook data = Some (mkOrderbook (Some (map Some bs)) (Some (map Some aks))) ->
  bs <> [] -> aks <> [] ->
  top_volume bs + top_volume aks <> 0 ->
  exists v,
    orderbookSweepDetector (Some data) (Some empty_config) = Normal v
    /\ (direction v = NEUTRAL -> score v = 0)
    /\ (direction v <> NEUTRAL -> 45 <= score v <= 100).
Proof.
  intros Hob Hb Ha _.
  destruct (orderbookSweep_clean data bs aks Hob Hb Ha) as (v & Hv & Hd & Hs).
  cbv zeta in Hd, Hs.
  unfold orderbookSweepDetector. rewrite Hv. cbn [try_catch].
  exists v. split; [reflexivity |]. rewrite Hd, Hs.
  set (imb := (top_volume bs - top_volume aks) / (top_volume bs + top_volume aks)).
  unfold Rgtb.
  destruct (Rlt_dec 0.3 imb) as [H1 | H1].
  - rewrite Rltb_true by exact H1.
    split; [discriminate |]. intros _. split.
    + apply (Math_round_ge 45). apply Rmin_glb; lra.
    + apply Math_round_le_100.
  - rewrite Rltb_false by lra.
    destruct (Rlt_dec imb (- 0.3)) as [H2 | H2].
    + rewrite Rltb_true by exact H2.
      split; [discriminate |]. intros _. split.
      * apply (Math_round_ge 45). rewrite <- Rabs_Ropp, Rabs_pos_eq by lra.
        apply Rmin_glb; lra.
      * apply Math_round_le_100.
    + rewrite Rltb_false by lra.
      split; [reflexivity | intros H; contradiction].
Qed.

Lemma orderbookSweep_sided_score_witness :
  exists v,
    orderbookSweepDetector (Some (MoreSamples.book_only [(100, 5)] [(101, 1)]))
      (Some empty_config) = Normal v
    /\ (direction v = NEUTRAL -> score v = 0)
    /\ (direction v <> NEUTRAL -> 45 <= score v <= 100).
Proof.
  apply (orderbookSweep_sided_score _ [(100, 5)] [(101, 1)]).
  - reflexivity.
  - discriminate.
  - discriminate.
  - unfold top_volume, sum. cbn. lra.
Defined.

(** X25.  [orderbookSweepDetector]: exchanging the bids and the asks
    turns LONG into SHORT and SHORT into LONG and keeps the score. *)
Theorem orderbookSweep_mirror (data mirrored : Snapshot) (bs aks : list (R * R)) :
  orderbook data = Some (mkOrderbook (Some (map Some bs)) (Some (map Some aks))) ->
  orderbook mirrored = Some (mkOrderbook (Some (map Some aks)) (Some (map Some bs))) ->
  bs <> [] -> aks <> [] ->
  top_volume bs + top_volume aks <> 0 ->
  exists v v',
    orderbookSweepDetector (Some data) (Some empty_config) = Normal v
    /\ orderbookSweepDetector (Some mirrored) (Some empty_config) = Normal v'
    /\ direction v' = opposite (direction v)
    /\ score v' = score v.
Proof.
  intros Hob Hob' Hb Ha Hsum.
  destruct (orderbookSweep_clean data bs aks Hob Hb Ha) as (v & Hv & Hd & Hs).
  destruct (orderbookSweep_clean mirrored aks bs Hob' Ha Hb) as (v' & Hv' & Hd' & Hs').
  cbv zeta in Hd, Hs, Hd', Hs'.
  unfold orderbookSweepDetector. rewrite Hv, Hv'. cbn [try_catch].
  exists v, v'. split; [reflexivity |]. split; [reflexivity |].
  rewrite Hd, Hs, Hd', Hs'.
  set (imb := (top_volume bs - top_volume aks) / (top_volume bs + top_volume aks)).
  replace ((top_volume aks - top_volume bs) / (top_volume aks + top_volume bs))
    with (- imb) by (unfold imb; field; lra).
  unfold Rgtb.
  destruct (Rlt_dec 0.3 imb) as [H1 | H1].
  - rewrite (Rltb_true 0.3 imb) by exact H1.
    rewrite (Rltb_false 0.3 (- imb)) by lra.
    rewrite (Rltb_true (- imb) (- 0.3)) by lra.
    rewrite Rabs_Ropp, Rabs_pos_eq by lra. split; reflexivity.
  - rewrite (Rltb_false 0.3 imb) by lra.
    destruct (Rlt_dec imb (- 0.3)) as [H2 | H2].
    + rewrite (Rltb_true imb (- 0.3)) by exact H2.
      rewrite (Rltb_true 0.3 (- imb)) by lra.
      rewrite <- (Rabs_Ropp imb), (Rabs_pos_eq (- imb)) by lra.
      split; reflexivity.
    + rewrite (Rltb_false imb (- 0.3)) by lra.
      rewrite (Rltb_false 0.3 (- imb)) by lra.
      rewrite (Rltb_false (- imb) (- 0.3)) by lra.
      split; reflexivity.
Qed.

Lemma orderbookSweep_mirror_witness :
  exists v v',
    orderbookSweepDetector (Some (MoreSamples.book_only [(100, 5)] [(101, 1)]))
      (Some empty_config) = Normal v
    /\ orderbookSweepDetector (Some (MoreSamples.book_only [(101, 1)] [(100, 5)]))
         (Some empty_config) = Normal v'
    /\ direction v' = opposite (direction v)
    /\ score v' = score v.
Proof.
  apply (orderbookSweep_mirror _ _ [(100, 5)] [(101, 1)]).
  - reflexivity.
  - reflexivity.
  - discriminate.
  - discriminate.
  - unfold top_volume, sum. cbn. lra.
Defined.

End DetectorFacts.

Section IndicatorFailure.

Import SignalDetectors.

Variable RSI_calculate : list R -> nat -> completion (list R).
Variable BollingerBands_calculate : list R -> nat -> R -> completion (list BBand).

Hypothesis RSI_fails : forall values period, exists msg,
  RSI_calculate values period = Throw msg.
Hypothesis BollingerBands_fails : forall values period stdDev, exists msg,
  BollingerBands_calculate values period stdDev = Throw msg.

Lemma calculateRSI_fallback (closes : list R) (period : nat) :
  TradingUtils.calculateRSI RSI_calculate closes period = 50.
Proof.
  unfold TradingUtils.calculateRSI.
  destruct (Nat.ltb _ _); [reflexivity |].
  destruct (RSI_fails closes period) as (msg & ->). reflexivity.
Qed.

Lemma calculateBollingerBands_fallback (closes : list R) (period : nat) (stdDev : R) :
  TradingUtils.calculateBollingerBands BollingerBands_calculate closes period stdDev
  = None.
Proof.
  unfold TradingUtils.calculateBollingerBands.
  destruct (Nat.ltb _ _); [reflexivity |].
  destruct (BollingerBands_fails closes period stdDev) as (msg & ->). reflexivity.
Qed.

(** X26.  When both entry points of [technicalindicators] throw, the RSI
    detector and the volatility squeeze detector answer a NEUTRAL verdict
    of score 0, provided that 50 lies between the two RSI thresholds. *)
Theorem indicator_failure_is_silent (data : option Snapshot) (c : DetectorConfig) :
  dflt (rsiOversold c) 30 <= 50 <= dflt (rsiOverbought c) 70 ->
  (exists v,
      rsiMomentumDetector RSI_calculate data (Some c) = Normal v /\ silent v)
  /\ (exists v,
         volatilitySqueezeDetector BollingerBands_calculate data (Some c) = Normal v
         /\ silent v).
Proof.
  intros Hth. split.
  - unfold rsiMomentumDetector. cbn [destructure bind].
    unfold rsiMomentum_try.
    destruct (frame "15m" tf15m data) as [c15 | m]; cbn [bind try_catch];
      [| eexists; split; [reflexivity | split; reflexivity]].
    destruct (frame "1h" tf1h data) as [c1h | m]; cbn [bind try_catch];
      [| eexists; split; [reflexivity | split; reflexivity]].
    destruct (orb _ _); cbn [try_catch];
      [eexists; split; [reflexivity | split; reflexivity] |].
    destruct (mapM (read "close" close) c15) as [closes15m | m]; cbn [bind try_catch];
      [| eexists; split; [reflexivity | split; reflexivity]].
    destruct (mapM (read "close" close) c1h) as [closes1h | m]; cbn [bind try_catch];
      [| eexists; split; [reflexivity | split; reflexivity]].
    rewrite !calculateRSI_fallback.
    unfold Rgtb. rewrite (Rltb_false 50 (dflt (rsiOversold c) 30)) by lra.
    rewrite (Rltb_false (dflt (rsiOverbought c) 70) 50) by lra.
    cbn [andb]. eexists. split; [reflexivity |].
    split; [reflexivity | apply Math_round_0].
  - unfold volatilitySqueezeDetector. cbn [destructure bind].
    unfold volatilitySqueeze_try.
    destruct (frame "15m" tf15m data) as [c15 | m]; cbn [bind try_catch];
      [| eexists; split; [reflexivity | split; reflexivity]].
    destruct (Nat.ltb _ _); cbn [try_catch];
      [eexists; split; [reflexivity | split; reflexivity] |].
    destruct (mapM (read "close" close) c15) as [closes15m | m]; cbn [bind try_catch];
      [| eexists; split; [reflexivity | split; reflexivity]].
    rewrite calculateBollingerBands_fallback. cbn [try_catch].
    eexists. split; [reflexivity | split; reflexivity].
Qed.

End IndicatorFailure.

(** On [long_history] both detectors get past their length guards and
    call the library: the verdicts they answer when the library throws are
    those of the code after the call. *)
Lemma long_history_reaches_library :
  (exists v,
      SignalDetectors.rsiMomentumDetector MoreSamples.RSI_unavailable
        (Some MoreSamples.long_history) (Some empty_config) = Normal v
      /\ name v = Some "rsi_momentum"%string
      /\ reason v = [Txt "RSI in neutral zone"])
  /\ (exists v,
         SignalDetectors.volatilitySqueezeDetector
           MoreSamples.BollingerBands_unavailable
           (Some MoreSamples.long_history) (Some empty_config) = Normal v
         /\ reason v = [Txt "Cannot calculate Bollinger Bands"]).
Proof.
  split.
  - unfold SignalDetectors.rsiMomentumDetector, SignalDetectors.rsiMomentum_try, frame.
    cbn [destructure bind read MoreSamples.long_history tf15m tf1h or_empty].
    rewrite !length_map, !repeat_length. cbn [Nat.ltb Nat.leb orb].
    rewrite !mapM_read_some. cbn [bind].
    unfold TradingUtils.calculateRSI. rewrite !length_map, !repeat_length.
    cbn [Nat.ltb Nat.leb Nat.add MoreSamples.RSI_unavailable
         empty_config rsiOversold rsiOverbought dflt].
    unfold Rgtb. rewrite (Rltb_false 50 30), (Rltb_false 70 50) by lra.
    cbn [andb try_catch]. eexists. repeat split; reflexivity.
  - unfold SignalDetectors.volatilitySqueezeDetector,
      SignalDetectors.volatilitySqueeze_try, frame.
    cbn [destructure bind read MoreSamples.long_history tf15m or_empty
         empty_config bbPeriod bbStdDev squeezePercentile dflt].
    rewrite !length_map, !repeat_length. cbn [Nat.ltb Nat.leb Nat.add].
    rewrite !mapM_read_some. cbn [bind].
    unfold TradingUtils.calculateBollingerBands.
    rewrite !length_map, !repeat_length.
    cbn [Nat.ltb Nat.leb MoreSamples.BollingerBands_unavailable try_catch].
    eexists. split; reflexivity.
Qed.

Lemma indicator_failure_is_silent_witness :
  (exists v,
      SignalDetectors.rsiMomentumDetector MoreSamples.RSI_unavailable
        (Some MoreSamples.long_history) (Some empty_config) = Normal v
      /\ silent v)
  /\ (exists v,
         SignalDetectors.volatilitySqueezeDetector
           MoreSamples.BollingerBands_unavailable
           (Some MoreSamples.long_history) (Some empty_config)
         = Normal v
         /\ silent v).
Proof.
  apply (indicator_failure_is_silent MoreSamples.RSI_unavailable
           MoreSamples.BollingerBands_unavailable).
  - intros values period. eexists. reflexivity.
  - intros values period stdDev. eexists. reflexivity.
  - cbn. lra.
Defined.

(** ** The levels of the ensemble with detector weights *)

Section WeightedLevels.

Import EnsembleWeighted.

(** X27.  [generateLevels] of the ensemble with detector weights, LONG: when
    the one verdict scores above 70 and its name holds [volume] but neither
    [momentum] nor [breakout], the target is raised by a tenth of its own
    value, not of its distance from the entry, so the reward to risk ratio
    is 1.65 + 0.125 / atr, which is 7.90 at the fallback ATR of 0.02. *)
Theorem weighted_levels_momentum_boost (p atr : R) (data : Snapshot)
  (v : Verdict) (n : string) :
  calculateAverageATR data = Normal atr ->
  0 < atr -> 0 < p ->
  name v = Some n ->
  includes "momentum" n = false -> includes "breakout" n = false ->
  includes "volume" n = true ->
  direction v = LONG -> 70 < score v ->
  exists lv,
    generateLevels LONG p data [v] = Normal lv
    /\ entry lv = parseFloat (toFixed 6 p)
    /\ sl lv = parseFloat (toFixed 6 (p * (1 - 0.8 * atr)))
    /\ tp lv = parseFloat (toFixed 6 (p * (1 + 1.2 * atr) * 1.1))
    /\ rr lv = toFixed 2 (1.65 + 0.125 / atr).
Proof.
  intros Hatr Ha Hp Hn Hmom Hbrk Hvol Hd Hs.
  unfold generateLevels. rewrite Hatr. cbn [bind]. cbv zeta.
  unfold direction_of. cbn [filter]. rewrite Hd. cbn [Direction_eqb andb].
  unfold Rgtb. rewrite (Rltb_true 50 (score v)) by lra.
  unfold sort_by_score. cbn [fold_left insert_by_score findM someM].
  unfold name_includes_either, name_includes. rewrite Hn. cbn [bind].
  rewrite Hmom, Hbrk. cbn [bind].
  rewrite (Rltb_true 70 (score v)) by lra. rewrite Hvol. cbn [bind].
  assert (Hdist : 0 < atr * p * 0.8) by nra.
  replace (Rabs (p - (p - atr * p * 0.8))) with (atr * p * 0.8)
    by (rewrite Rabs_pos_eq; lra).
  eexists. split; [reflexivity |]. cbn [entry sl tp rr].
  split; [reflexivity |].
  split; [f_equal; f_equal; lra |].
  split; [f_equal; f_equal; lra |].
  f_equal.
  replace ((p + atr * p * 0.8 * 1.5) * 1.1 - p) with (p * (0.1 + 1.32 * atr)) by lra.
  rewrite Rabs_pos_eq by nra.
  replace 0.1 with (1 / 10) by lra. replace 1.32 with (132 / 100) by lra.
  replace 0.8 with (8 / 10) by lra. replace 1.65 with (165 / 100) by lra.
  replace 0.125 with (125 / 1000) by lra.
  field. lra.
Qed.

Lemma weighted_levels_momentum_boost_witness :
  exists lv,
    generateLevels LONG 100 Samples.no_history Samples.lone_long = Normal lv
    /\ entry lv = parseFloat (toFixed 6 100)
    /\ sl lv = parseFloat (toFixed 6 (100 * (1 - 0.8 * 0.02)))
    /\ tp lv = parseFloat (toFixed 6 (100 * (1 + 1.2 * 0.02) * 1.1))
    /\ rr lv = toFixed 2 (1.65 + 0.125 / 0.02).
Proof.
  apply (weighted_levels_momentum_boost 100 0.02 Samples.no_history
           (Samples.verdict_of "volume_spike" LONG 80 1.0) "volume_spike").
  - reflexivity.
  - lra.
  - lra.
  - reflexivity.
  - reflexivity.
  - reflexivity.
  - reflexivity.
  - reflexivity.
  - cbn. lra.
Defined.

End WeightedLevels.
